(** * cwmud entities: a shallow embedding of [cwmud/core/entities.py]

    The development follows the source file: Python values and exceptions,
    the UID generator ([Entity.make_uid]), the composed schema
    ([_build_base_blob] of [Entity.__init__]), the entity object with its
    serialisation, the per-class registries, the bounded cache and the
    durable store, and the lifecycle operations ([save], [revert], [clone],
    [delete], [exists], [find]).  Then come the notions the statements are
    written with, a small class table and process to run the definitions
    on, and the theorems. *)

From Stdlib Require Import ZArith String Ascii List Lia.
From stdpp Require Import base option gmap sets list strings.

Local Open Scope string_scope.
Local Open Scope Z_scope.

(* ===================================================================== *)
(** ** Python values *)
(* ===================================================================== *)

(** Hashable scalars.  A Python [bool] is an [int] for [==] and for hashing
    ([True == 1]), so [True]/[False] are [AInt 1]/[AInt 0]. *)
Inductive atom : Type :=
  | ANone
  | AInt (z : Z)
  | AStr (s : string).

#[global] Instance atom_eq_dec : EqDecision atom.
Proof. solve_decision. Defined.

Definition atom_to_sum (a : atom) : unit + (Z + string) :=
  match a with
  | ANone => inl tt
  | AInt z => inr (inl z)
  | AStr s => inr (inr s)
  end.

Definition atom_of_sum (x : unit + (Z + string)) : atom :=
  match x with
  | inl _ => ANone
  | inr (inl z) => AInt z
  | inr (inr s) => AStr s
  end.

#[global] Instance atom_countable : Countable atom.
Proof.
  refine (inj_countable' atom_to_sum atom_of_sum _).
  by intros [].
Defined.

Definition py_True : atom := AInt 1.
Definition py_False : atom := AInt 0.
Definition atom_of_bool (b : bool) : atom := if b then py_True else py_False.

(** Values held by attributes and by the fields of a serialised record:
    a scalar, a tuple of scalars (the flags) or a string-keyed mapping of
    scalars (the tags). *)
Inductive pyval : Type :=
  | VAtom (a : atom)
  | VTuple (l : list atom)
  | VDict (d : gmap string atom).

#[global] Instance pyval_eq_dec : EqDecision pyval.
Proof. solve_decision. Defined.

Definition pyval_to_sum (v : pyval) : atom + (list atom + gmap string atom) :=
  match v with
  | VAtom a => inl a
  | VTuple l => inr (inl l)
  | VDict d => inr (inr d)
  end.

Definition pyval_of_sum (x : atom + (list atom + gmap string atom)) : pyval :=
  match x with
  | inl a => VAtom a
  | inr (inl l) => VTuple l
  | inr (inr d) => VDict d
  end.

#[global] Instance pyval_countable : Countable pyval.
Proof.
  refine (inj_countable' pyval_to_sum pyval_of_sum _).
  by intros [].
Defined.

Definition VNone : pyval := VAtom ANone.
Definition VStr (s : string) : pyval := VAtom (AStr s).
Definition VInt (z : Z) : pyval := VAtom (AInt z).

(** Python truthiness. *)
Definition atom_truthy (a : atom) : bool :=
  match a with
  | ANone => false
  | AInt z => negb (Z.eqb z 0)
  | AStr s => negb (String.eqb s "")
  end.

Definition truthy (v : pyval) : bool :=
  match v with
  | VAtom a => atom_truthy a
  | VTuple l => negb (bool_decide (l = []))
  | VDict d => negb (bool_decide (d = ∅))
  end.

(** A serialised record: a [dict] with string keys. *)
Abbreviation record := (gmap string pyval).

(** [data.get(k)]: a missing key reads as [None]. *)
Definition dict_get (data : record) (k : string) : pyval :=
  default VNone (data !! k).

(* ===================================================================== *)
(** ** Exceptions *)
(* ===================================================================== *)

Inductive exn : Type :=
  | TypeError (msg : string)
  | KeyError (msg : string)
  | ValueError (msg : string)
  | AttributeError (msg : string)
  | ReferenceError (msg : string).

(* ===================================================================== *)
(** ** The UID generator *)
(* ===================================================================== *)

Definition _uid_timecode_multiplier : Z := 10000.
Definition _uid_timecode_charset : string :=
  "0123456789aAbBcCdDeEfFgGhHijJkKLmMnNopPqQrRstTuUvVwWxXyYzZ".

(** The digits of [n] in base [base], most significant first, put in front
    of [acc]; [fuel] bounds their number. *)
Fixpoint base_n_digits (fuel : nat) (base n : Z) (acc : list Z) : list Z :=
  match fuel with
  | O => acc
  | S fuel' =>
      if decide (n <= 0) then acc
      else base_n_digits fuel' base (n / base) (n mod base :: acc)
  end.

(** [charset[d]] *)
Definition charset_at (cs : list ascii) (d : Z) : ascii :=
  nth (Z.to_nat d) cs "0"%char.

(** Modelled from the spec: [int_to_base_n] of [utils/funcs.py], which is
    not among the embedded sources.  The spec describes it as "a base-N
    encoding using a curated character set": the digits of the number in
    base [len(charset)], most significant first, each written as the
    character of the set at that index; zero is the first character alone.
    The fuel covers every digit of the number. *)
Definition int_to_base_n (integer : Z) (charset : string) : string :=
  let cs := list_ascii_of_string charset in
  let base := Z.of_nat (length cs) in
  if decide (integer = 0) then string_of_list_ascii [charset_at cs 0]
  else
    string_of_list_ascii
      (map (charset_at cs)
         (base_n_digits (S (Z.to_nat (Z.log2 integer))) base integer [])).



(** ["-".join((a, b))] *)
Definition join_dash (a b : string) : string := a +:+ "-" +:+ b.



(** [Entity.make_uid]: [time] is the reading of [TIMERS.time], taken as an
    integer, [tc] the value of the class-private counter
    [Entity.__uid_timecode] before the call (it starts at 0).  Returns the
    UID and the counter after the call. *)
Definition make_uid (uid_code : string) (time : Z) (tc : Z) : string * Z :=
  let big_time := time * _uid_timecode_multiplier in
  let tc' := if decide (big_time > tc) then big_time else tc + 1 in
  let timecode_string := int_to_base_n tc' _uid_timecode_charset in
  let uid := join_dash uid_code timecode_string in
  (uid, tc').


(* ===================================================================== *)
(** ** Attributes, data blobs and schema composition *)
(* ===================================================================== *)

(** An [Attribute] class: its [default], its [_read_only] mark and its
    [validate] hook, which returns the value to store or raises. *)
Record Attribute : Type := {
  default_value : pyval;
  _read_only : bool;
  validate : pyval -> exn + pyval;
}.

(** [EntityVersion], registered on [Entity] under the name ["version"]. *)
Definition EntityVersion : Attribute := {|
  default_value := VInt 1;
  _read_only := false;
  validate := fun new_value =>
    match new_value with
    | VAtom (AInt _) => inr new_value
    | _ => inl (TypeError "entity version must be a number")
    end;
|}.

(** Modelled from the spec: [DataBlob] of [attributes.py], which is not
    among the embedded sources.  A blob instance holds the table of its
    attributes, the table of its nested blob classes (by class name; nested
    blobs carry no values of their own here) and the current attribute
    values.  "Each entity instance owns one schema instance built fresh at
    construction time." *)
Record DataBlob : Type := {
  _blobs : gmap string string;
  _attrs : gmap string Attribute;
  _attr_values : gmap string pyval;
}.

#[local] Unset Elimination Schemes.

(** A class as Python sees it: its [__name__], its [__bases__] and what
    [register_attr] and [register_blob] stored on its own [_base_blob].
    A class stands for its identity: two nodes with the same name are the
    same class object reached along two paths. *)
Inductive PyClass : Type :=
  | Class (name : string) (bases : list PyClass)
          (own_attrs : gmap string Attribute)
          (own_blobs : gmap string string).

#[local] Set Elimination Schemes.

Definition __name__ (c : PyClass) : string :=
  match c with Class n _ _ _ => n end.
Definition __bases__ (c : PyClass) : list PyClass :=
  match c with Class _ bs _ _ => bs end.
Definition own_attrs (c : PyClass) : gmap string Attribute :=
  match c with Class _ _ a _ => a end.
Definition own_blobs (c : PyClass) : gmap string string :=
  match c with Class _ _ _ b => b end.

(** [issubclass(cls, Entity)] *)
Fixpoint issubclass_Entity (cls : PyClass) : bool :=
  match cls with
  | Class n bs _ _ =>
      bool_decide (n = "Entity") || existsb issubclass_Entity bs
  end.

(** Modelled from the spec: instantiating a class's own blob,
    [cls._base_blob(self)], gives its declared tables with every attribute
    at its default. *)
Definition new_base_blob (cls : PyClass) : DataBlob := {|
  _blobs := own_blobs cls;
  _attrs := own_attrs cls;
  _attr_values := default_value <$> own_attrs cls;
|}.

(** Modelled from the spec: [DataBlob._update] is "merging each ancestor's
    own declared fields into the instance's schema ... composition is a
    simple union"; on a shared name the merged-in blob's entry is the one
    kept, as [dict.update] does. *)
Definition _update (blob other : DataBlob) : DataBlob := {|
  _blobs := _blobs other ∪ _blobs blob;
  _attrs := _attrs other ∪ _attrs blob;
  _attr_values := _attr_values other ∪ _attr_values blob;
|}.

(** [_build_base_blob] of [Entity.__init__].  The two default arguments
    [blob] and [checked] are created once per construction and shared by
    all recursive calls; they are threaded here as a pair. *)
Fixpoint _build_base_blob (cls : PyClass) (st : DataBlob * gset string)
  : DataBlob * gset string :=
  match cls with
  | Class n bs _ _ =>
      let st := fold_left (fun st base => _build_base_blob base st) bs st in
      if issubclass_Entity cls then
        if decide (n ∈ st.2) then st
        else (_update st.1 (new_base_blob cls), {[n]} ∪ st.2)
      else st
  end.

(** [self._base_blob = _build_base_blob(self.__class__)] *)
Definition composed_blob (cls : PyClass) : DataBlob :=
  (_build_base_blob cls (new_base_blob cls, ∅)).1.

(** The names of the fields (attributes and nested blobs) of a blob. *)
Definition field_names (b : DataBlob) : gset string :=
  dom (_attrs b) ∪ dom (_blobs b).

(** Every class of the lineage of [cls], [cls] included, one entry per
    path that reaches it. *)
Fixpoint lineage (cls : PyClass) : list PyClass :=
  match cls with
  | Class _ bs _ _ => cls :: flat_map lineage bs
  end.

(** The order in which [_build_base_blob] merges classes, given the names
    already checked: post-order over the bases, entity classes only, each
    name once. *)
Fixpoint merge_order (cls : PyClass) (acc : list PyClass) : list PyClass :=
  match cls with
  | Class n bs _ _ =>
      let acc := fold_left (fun acc base => merge_order base acc) bs acc in
      if issubclass_Entity cls then
        if decide (n ∈ (__name__ <$> acc)) then acc else acc ++ [cls]
      else acc
  end.

(* ===================================================================== *)
(** ** Entity classes, entity objects and the world they live in *)
(* ===================================================================== *)

(** The class attributes an entity class resolves through its MRO.
    [_store] is a handle on a durable store, or [None].  [_store_key] is
    modelled in its string form, the name of the attribute that holds the
    key; the three-element form with accessor callables is not.  (The
    source's test [len(self._store_key) == 3] also fires on a three-letter
    name such as ["uid"]; its second character is not callable, so the plain
    [getattr]/[setattr] path is taken all the same.) *)
Record EntityClass : Type := {
  cls_def : PyClass;
  _store : option nat;
  _store_key : string;
  _uid_code : string;
  type : string;
}.

(** An entity object.  [__dict__] holds instance attributes set under names
    that are neither properties nor registered attributes. *)
Record Entity : Type := {
  __class__ : EntityClass;
  _base_blob : DataBlob;
  _dirty : bool;
  _savable : bool;
  _uid : pyval;
  active : pyval;
  flags : gset atom;
  tags : gmap string atom;
  __dict__ : gmap string pyval;
}.

(** Modelled from the spec: the bounded cache, [lrucache(size, callback)]
    of the library [pylru], which is not among the embedded sources; "fixed
    capacity, least-recently-used eviction policy on insertion past
    capacity".  The entries are listed most recently used first.  The
    callback of every cache of this module is [_cache_eject_callback]. *)
Record lrucache : Type := {
  lru_size : nat;
  lru_items : list (pyval * nat);
}.

Inductive log_entry : Type :=
  | LogWarn (msg : string) (who : nat).

(** The state of the process.  Objects live in [heap] under their
    identity; the per-class registries [_instances] and [_caches] are keyed
    by class name.  [_instances] is a [WeakValueDictionary]: an entry whose
    object is no longer in the heap is not there for any reader.  [stores]
    holds the contents of the durable stores. *)
Record World : Type := {
  TIMERS_time : Z;
  __uid_timecode : Z;
  heap : gmap nat Entity;
  _instances : gmap string (list (pyval * nat));
  _caches : gmap string (gmap string lrucache);
  stores : gmap nat (gmap pyval record);
  ENTITIES : gmap string EntityClass;
  log : list log_entry;
}.

Definition set_uid_timecode (tc : Z) (w : World) : World :=
  {| TIMERS_time := TIMERS_time w; __uid_timecode := tc; heap := heap w;
     _instances := _instances w; _caches := _caches w; stores := stores w;
     ENTITIES := ENTITIES w; log := log w |}.
Definition set_heap (h : gmap nat Entity) (w : World) : World :=
  {| TIMERS_time := TIMERS_time w; __uid_timecode := __uid_timecode w;
     heap := h; _instances := _instances w; _caches := _caches w;
     stores := stores w; ENTITIES := ENTITIES w; log := log w |}.
Definition set_instances (i : gmap string (list (pyval * nat))) (w : World)
  : World :=
  {| TIMERS_time := TIMERS_time w; __uid_timecode := __uid_timecode w;
     heap := heap w; _instances := i; _caches := _caches w;
     stores := stores w; ENTITIES := ENTITIES w; log := log w |}.
Definition set_caches (c : gmap string (gmap string lrucache)) (w : World)
  : World :=
  {| TIMERS_time := TIMERS_time w; __uid_timecode := __uid_timecode w;
     heap := heap w; _instances := _instances w; _caches := c;
     stores := stores w; ENTITIES := ENTITIES w; log := log w |}.
Definition set_stores (s : gmap nat (gmap pyval record)) (w : World) : World :=
  {| TIMERS_time := TIMERS_time w; __uid_timecode := __uid_timecode w;
     heap := heap w; _instances := _instances w; _caches := _caches w;
     stores := s; ENTITIES := ENTITIES w; log := log w |}.
Definition set_log (l : list log_entry) (w : World) : World :=
  {| TIMERS_time := TIMERS_time w; __uid_timecode := __uid_timecode w;
     heap := heap w; _instances := _instances w; _caches := _caches w;
     stores := stores w; ENTITIES := ENTITIES w; log := l |}.

Definition set_base_blob (b : DataBlob) (e : Entity) : Entity :=
  {| __class__ := __class__ e; _base_blob := b; _dirty := _dirty e;
     _savable := _savable e; _uid := _uid e; active := active e;
     flags := flags e; tags := tags e; __dict__ := __dict__ e |}.
Definition set_dirty (d : bool) (e : Entity) : Entity :=
  {| __class__ := __class__ e; _base_blob := _base_blob e; _dirty := d;
     _savable := _savable e; _uid := _uid e; active := active e;
     flags := flags e; tags := tags e; __dict__ := __dict__ e |}.
Definition set_uid (u : pyval) (e : Entity) : Entity :=
  {| __class__ := __class__ e; _base_blob := _base_blob e; _dirty := _dirty e;
     _savable := _savable e; _uid := u; active := active e;
     flags := flags e; tags := tags e; __dict__ := __dict__ e |}.
Definition set_active (a : pyval) (e : Entity) : Entity :=
  {| __class__ := __class__ e; _base_blob := _base_blob e; _dirty := _dirty e;
     _savable := _savable e; _uid := _uid e; active := a;
     flags := flags e; tags := tags e; __dict__ := __dict__ e |}.
Definition set_flags (f : gset atom) (e : Entity) : Entity :=
  {| __class__ := __class__ e; _base_blob := _base_blob e; _dirty := _dirty e;
     _savable := _savable e; _uid := _uid e; active := active e;
     flags := f; tags := tags e; __dict__ := __dict__ e |}.
Definition set_tags (t : gmap string atom) (e : Entity) : Entity :=
  {| __class__ := __class__ e; _base_blob := _base_blob e; _dirty := _dirty e;
     _savable := _savable e; _uid := _uid e; active := active e;
     flags := flags e; tags := t; __dict__ := __dict__ e |}.
Definition set_dict (d : gmap string pyval) (e : Entity) : Entity :=
  {| __class__ := __class__ e; _base_blob := _base_blob e; _dirty := _dirty e;
     _savable := _savable e; _uid := _uid e; active := active e;
     flags := flags e; tags := tags e; __dict__ := d |}.

(** *** The monad of the process: state, and exceptions that keep the
    state reached when they were raised *)

Inductive outcome (A : Type) : Type :=
  | Ret (a : A) (w : World)
  | Exc (e : exn) (w : World).
Arguments Ret {A} a w.
Arguments Exc {A} e w.

Definition M (A : Type) : Type := World -> outcome A.

#[global] Instance M_ret : MRet M := fun A a w => Ret a w.
#[global] Instance M_bind : MBind M := fun A B f m w =>
  match m w with
  | Ret a w' => f a w'
  | Exc e w' => Exc e w'
  end.

Definition raise {A} (e : exn) : M A := fun w => Exc e w.
Definition get_world : M World := fun w => Ret w w.
Definition modify (f : World -> World) : M unit := fun w => Ret tt (f w).
Definition lift {A} (x : exn + A) : M A :=
  match x with inl e => raise e | inr a => mret a end.

(** [try: m  except KeyError: handler] *)
Definition except_KeyError {A} (m : M A) (handler : M A) : M A := fun w =>
  match m w with
  | Exc (KeyError _) w' => handler w'
  | o => o
  end.

Definition final_world {A} (o : outcome A) : World :=
  match o with Ret _ w => w | Exc _ w => w end.
Definition returned {A} (o : outcome A) : option A :=
  match o with Ret a _ => Some a | Exc _ _ => None end.
Definition raised {A} (o : outcome A) : option exn :=
  match o with Ret _ _ => None | Exc e _ => Some e end.

(** *** Objects in the heap *)

(** Reading the object behind a handle.  Python keeps an object alive as
    long as it is referenced, so a method is never entered on a dead object;
    the [ReferenceError] branch only makes the function total. *)
Definition deref (r : nat) : M Entity := fun w =>
  match heap w !! r with
  | Some e => Ret e w
  | None => Exc (ReferenceError "no such object") w
  end.

Definition update_entity (r : nat) (f : Entity -> Entity) : M unit :=
  modify (fun w => set_heap (alter f r (heap w)) w).

(** A new object gets an identity no live object has. *)
Definition alloc (e : Entity) : M nat := fun w =>
  let r := fresh (dom (heap w)) in
  Ret r (set_heap (<[r := e]> (heap w)) w).

Definition log_warn (msg : string) (who : nat) : M unit :=
  modify (fun w => set_log (LogWarn msg who :: log w) w).

(** *** Attribute access *)

(** [class_name(self)]: the name of the class of the object. *)
Definition class_name (e : Entity) : string := __name__ (cls_def (__class__ e)).

(** Modelled from the spec: [DataBlob._get_attr_val] reads the current
    value of a registered attribute. *)
Definition _get_attr_val (b : DataBlob) (name : string) : pyval :=
  default VNone (_attr_values b !! name).

(** Modelled from the spec: [DataBlob._set_attr_val] runs the attribute's
    validation rule ("fails with a validation error when a new value does
    not satisfy the constraint"), stores the value and marks the entity
    dirty ("each mutation marks it dirty"). *)
Definition _set_attr_val (attr : Attribute) (name : string) (v : pyval)
    (e : Entity) : exn + Entity :=
  match validate attr v with
  | inl err => inl err
  | inr v' =>
      let b := _base_blob e in
      inr (set_dirty true
             (set_base_blob {| _blobs := _blobs b; _attrs := _attrs b;
                               _attr_values := <[name := v']> (_attr_values b) |}
                            e))
  end.

(** [getattr(entity, name)] for every name but ["key"]: the read-only
    properties, the properties installed by [register_attr], the instance
    attributes, the class attribute [type].  The object's private slots and
    its methods are not attribute names of this model. *)
Definition getattr_nokey (e : Entity) (name : string) : exn + pyval :=
  if decide (name = "uid") then inr (_uid e)
  else if decide (name = "is_dirty") then inr (VAtom (atom_of_bool (_dirty e)))
  else match _attrs (_base_blob e) !! name with
  | Some _ => inr (_get_attr_val (_base_blob e) name)
  | None =>
      if decide (name = "active") then inr (active e)
      else match __dict__ e !! name with
      | Some v => inr v
      | None =>
          if decide (name = "type") then inr (VStr (type (__class__ e)))
          else inl (AttributeError name)
      end
  end.

(** The [key] property: [getattr(self, self._store_key)]. *)
Definition key (e : Entity) : exn + pyval :=
  getattr_nokey e (_store_key (__class__ e)).

Definition getattr (e : Entity) (name : string) : exn + pyval :=
  if decide (name = "key") then key e else getattr_nokey e name.

(** [getattr] with the name as the caller passed it. *)
Definition py_getattr (e : Entity) (name : pyval) : exn + pyval :=
  match name with
  | VAtom (AStr s) => getattr e s
  | _ => inl (TypeError "attribute name must be string")
  end.

(** [setattr(entity, name, v)] for every name but ["key"].  [uid] and
    [is_dirty] are properties without a setter.  The setter installed by
    [register_attr] ignores the write on a read-only attribute. *)
Definition setattr_nokey (e : Entity) (name : string) (v : pyval)
  : exn + Entity :=
  if decide (name = "uid") then inl (AttributeError "can't set attribute")
  else if decide (name = "is_dirty") then
    inl (AttributeError "can't set attribute")
  else match _attrs (_base_blob e) !! name with
  | Some attr_class =>
      if _read_only attr_class then inr e
      else _set_attr_val attr_class name v e
  | None =>
      if decide (name = "active") then inr (set_active v e)
      else inr (set_dict (<[name := v]> (__dict__ e)) e)
  end.

(** The [key] setter: [setattr(self, self._store_key, new_key)]. *)
Definition key_setter (e : Entity) (new_key : pyval) : exn + Entity :=
  setattr_nokey e (_store_key (__class__ e)) new_key.

Definition is_dirty (e : Entity) : bool := _dirty e.

(** [is_savable]: the truth value of [self._store and self._savable]; a
    store object is true, [None] is not. *)
Definition is_savable (e : Entity) : bool :=
  bool_decide (is_Some (_store (__class__ e))) && _savable e.

Definition get_key_name (cls : EntityClass) : string := _store_key cls.

(** [self.key], read from the heap. *)
Definition key_of (self : nat) : M pyval :=
  e ← deref self; lift (key e).

(** [self.dirty()] *)
Definition dirty (self : nat) : M unit := update_entity self (set_dirty true).

(** *** The durable store *)

(** Modelled from the spec: the durable store, whose classes are not among
    the embedded sources.  Its contract is [has(key) -> bool],
    [get(key, default=raise) -> record], [put(key, record)], [delete(key)]
    "tolerant of a non-existent key", and [keys()], "full key enumeration".
    A store is a finite map from keys to records; [keys()] is a snapshot. *)
Definition store_contents (w : World) (st : nat) : gmap pyval record :=
  default ∅ (stores w !! st).

Definition store_has (st : nat) (k : pyval) : M bool := fun w =>
  Ret (bool_decide (is_Some (store_contents w st !! k))) w.

Definition store_get (st : nat) (k : pyval) : M record := fun w =>
  match store_contents w st !! k with
  | Some data => Ret data w
  | None => Exc (KeyError "no such key in store") w
  end.

Definition store_put (st : nat) (k : pyval) (data : record) : M unit :=
  modify (fun w =>
    set_stores (<[st := <[k := data]> (store_contents w st)]> (stores w)) w).

Definition store_delete (st : nat) (k : pyval) : M unit :=
  modify (fun w =>
    set_stores (<[st := base.delete k (store_contents w st)]> (stores w)) w).

Definition store_keys (st : nat) : M (list pyval) := fun w =>
  Ret ((map_to_list (store_contents w st)).*1) w.

(** *** Serialisation *)

(** Modelled from the spec: [DataBlob.serialize] "emits the composed
    schema's field values". *)
Definition blob_serialize (b : DataBlob) : record := _attr_values b.

(** Modelled from the spec: [DataBlob.deserialize] takes the "remaining
    keys"; a key that names an attribute of the schema sets its value, any
    other key is left unused. *)
Definition blob_deserialize (b : DataBlob) (data : record) : DataBlob :=
  {| _blobs := _blobs b; _attrs := _attrs b;
     _attr_values :=
       filter (fun kv => kv.1 ∈ dom (_attrs b)) data ∪ _attr_values b |}.

(** Modelled from the spec: the flag set of [HasFlags].  [as_tuple] lists
    the flags; [add] adds flags and reports the change to the owner. *)
Definition flags_as_tuple (e : Entity) : pyval := VTuple (elements (flags e)).
Definition flags_add (self : nat) (new_flags : list atom) : M unit :=
  update_entity self (fun e => set_flags (flags e ∪ list_to_set new_flags) e);;
  dirty self.

(** Modelled from the spec: the tag mapping of [HasTags]; every change is
    reported to the owner. *)
Definition tags_as_dict (e : Entity) : gmap string atom := tags e.
Definition tags_clear (self : nat) : M unit :=
  update_entity self (set_tags ∅);; dirty self.
Definition tags_update (self : nat) (v : pyval) : M unit :=
  match v with
  | VDict d =>
      update_entity self (fun e => set_tags (d ∪ tags e) e);; dirty self
  | _ => raise (TypeError "tags must be a mapping")
  end.
Definition tags_delitem (self : nat) (k : string) : M unit :=
  update_entity self (fun e => set_tags (base.delete k (tags e)) e);;
  dirty self.

(** What [*value] unpacks to. *)
Definition py_iter (v : pyval) : exn + list atom :=
  match v with
  | VTuple l => inr l
  | VDict d => inr (AStr <$> (map_to_list d).*1)
  | VAtom (AStr s) =>
      inr ((fun c => AStr (String c EmptyString)) <$> list_ascii_of_string s)
  | VAtom _ => inl (TypeError "argument after * must be an iterable")
  end.

(** [Entity.serialize] *)
Definition Entity_serialize (e : Entity) : record :=
  let data := blob_serialize (_base_blob e) in
  let data := <["type" := VStr (class_name e)]> data in
  let data := <["uid" := _uid e]> data in
  let data := <["flags" := flags_as_tuple e]> data in
  let data := <["tags" := VDict (tags_as_dict e)]> data in
  data.

(** Modelled from the spec: [DataBlob.deserialize] on the blob of a live
    entity; setting an attribute marks the entity dirty. *)
Definition _base_blob_deserialize (self : nat) (data : record) : M unit :=
  e ← deref self;
  let used := filter (fun kv => kv.1 ∈ dom (_attrs (_base_blob e))) data in
  update_entity self (set_base_blob (blob_deserialize (_base_blob e) data));;
  if decide (used = ∅) then mret tt else dirty self.

(** [Entity.deserialize]: the entity is updated in place, step by step. *)
Definition Entity_deserialize (self : nat) (data : record) : M unit :=
  let data := base.delete "type" data in
  match data !! "uid" with
  | Some u => update_entity self (set_uid u)
  | None => mret tt
  end;;
  let data := base.delete "uid" data in
  match data !! "flags" with
  | Some v => l ← lift (py_iter v); flags_add self l
  | None => mret tt
  end;;
  let data := base.delete "flags" data in
  match data !! "tags" with
  | Some v => tags_clear self;; tags_update self v
  | None => mret tt
  end;;
  let data := base.delete "tags" data in
  _base_blob_deserialize self data.

(** [Entity.make_uid] on the process state. *)
Definition Entity_make_uid (cls : EntityClass) : M pyval := fun w =>
  let '(uid, tc) := make_uid (_uid_code cls) (TIMERS_time w) (__uid_timecode w) in
  Ret (VStr uid) (set_uid_timecode tc w).

(** *** Saving *)

Definition the_store (e : Entity) : M nat :=
  match _store (__class__ e) with
  | Some st => mret st
  | None => raise (AttributeError "'NoneType' object has no attribute")
  end.

(** [Entity.save] *)
Definition Entity_save (self : nat) : M unit :=
  e ← deref self;
  if negb (is_savable e) then
    log_warn "Tried to save non-savable entity" self
  else
    st ← the_store e;
    match tags e !! "_old_key" with
    | Some old_key =>
        has_old ← store_has st (VAtom old_key);
        (if has_old : bool then store_delete st (VAtom old_key) else mret tt);;
        tags_delitem self "_old_key"
    | None => mret tt
    end;;
    e ← deref self;
    let data := Entity_serialize e in
    k ← key_of self;
    store_put st k data;;
    update_entity self (set_dirty false).

(** *** The bounded caches *)

(** [_EntityMeta._cache_eject_callback] *)
Definition _cache_eject_callback (key : pyval) (entity : nat) : M unit :=
  Entity_save entity.

Definition get_cache (cls : EntityClass) (key_name : string)
  : M (option lrucache) := fun w =>
  Ret (_caches w !! __name__ (cls_def cls) ≫= fun cs => cs !! key_name) w.

Definition modify_cache (cls : EntityClass) (key_name : string)
    (f : lrucache -> lrucache) : M unit :=
  modify (fun w =>
    set_caches (alter (alter f key_name) (__name__ (cls_def cls)) (_caches w)) w).

(** [key in cache] *)
Definition lru_contains (k : pyval) (c : lrucache) : bool :=
  bool_decide (k ∈ (lru_items c).*1).

(** [len(cache)]; a cache is true when it is not empty. *)
Definition lru_len (c : lrucache) : nat := length (lru_items c).

Definition lru_without (k : pyval) (c : lrucache) : lrucache :=
  {| lru_size := lru_size c;
     lru_items := filter (fun kv => kv.1 ≠ k) (lru_items c) |}.

Definition lru_push (k : pyval) (v : nat) (c : lrucache) : lrucache :=
  {| lru_size := lru_size c; lru_items := (k, v) :: lru_items c |}.

Definition lru_drop_tail (c : lrucache) : lrucache :=
  {| lru_size := lru_size c; lru_items := removelast (lru_items c) |}.

(** Modelled from the spec: [del cache[key]]. *)
Definition lru_delitem (cls : EntityClass) (key_name : string) (k : pyval)
  : M unit :=
  modify_cache cls key_name (lru_without k).

(** Modelled from the spec: [cache[key] = value].  A key already present
    is given the value and moved to the front.  A new key goes to the front;
    when the cache is full the entry at the tail is evicted first: "on
    eviction of an entry, invoke the entity's save operation", then the
    entry is dropped. *)
Definition lru_setitem (cls : EntityClass) (key_name : string)
    (k : pyval) (value : nat) : M unit :=
  cache ← get_cache cls key_name;
  match cache with
  | None => raise (KeyError key_name)
  | Some c =>
      if lru_contains k c then
        modify_cache cls key_name (fun c => lru_push k value (lru_without k c))
      else
        (if decide (lru_size c <= lru_len c)%nat then
           match last (lru_items c) with
           | Some (old_key, old_value) =>
               _cache_eject_callback old_key old_value;;
               modify_cache cls key_name lru_drop_tail
           | None => mret tt
           end
         else mret tt);;
        modify_cache cls key_name (lru_push k value)
  end.

(** *** The instance registry *)

(** [d[k] = v] on an insertion-ordered dictionary. *)
Fixpoint odict_set {V} (k : pyval) (v : V) (d : list (pyval * V))
  : list (pyval * V) :=
  match d with
  | [] => [(k, v)]
  | (k', v') :: d' =>
      if decide (k' = k) then (k, v) :: d' else (k', v') :: odict_set k v d'
  end.

Definition instances_entries (w : World) (cls : EntityClass)
  : list (pyval * nat) :=
  default [] (_instances w !! __name__ (cls_def cls)).

(** The entries a reader of the weak dictionary sees: those whose object is
    alive. *)
Definition instances_live (w : World) (cls : EntityClass)
  : list (pyval * (nat * Entity)) :=
  omap (fun kr : pyval * nat =>
          match heap w !! kr.2 with
          | Some e => Some (kr.1, (kr.2, e))
          | None => None
          end)
       (instances_entries w cls).

(** [cls._instances.values()] *)
Definition instances_values (w : World) (cls : EntityClass)
  : list (nat * Entity) := (instances_live w cls).*2.

(** [key in cls._instances] *)
Definition instances_contains (w : World) (cls : EntityClass) (k : pyval)
  : bool := bool_decide (k ∈ (instances_live w cls).*1).

(** [cls._instances[uid] = self] *)
Definition instances_set (cls : EntityClass) (uid : pyval) (self : nat)
  : M unit :=
  modify (fun w =>
    set_instances
      (<[__name__ (cls_def cls) := odict_set uid self (instances_entries w cls)]>
         (_instances w)) w).

(** *** Construction *)

(** [Entity.__init__]; returns the new object. *)
Definition Entity__init__ (cls : EntityClass) (data : option record)
    (active : pyval) (savable : bool) : M nat :=
  self ← alloc {| __class__ := cls;
                  _base_blob := composed_blob (cls_def cls);
                  _dirty := false;
                  _savable := savable;
                  _uid := VNone;
                  active := active;
                  flags := ∅;
                  tags := ∅;
                  __dict__ := ∅ |};
  match data with
  | Some data => Entity_deserialize self data
  | None => mret tt
  end;;
  e ← deref self;
  (if decide (_uid e = VNone) then
     uid ← Entity_make_uid cls; update_entity self (set_uid uid)
   else mret tt);;
  e ← deref self;
  instances_set cls (_uid e) self;;
  cache ← get_cache cls (get_key_name cls);
  match cache with
  | Some c =>
      k ← key_of self;
      if negb (lru_contains k c) then lru_setitem cls (get_key_name cls) k self
      else mret tt
  | None => mret tt
  end;;
  mret self.

(** [Entity.reconstruct] *)
Definition Entity_reconstruct (data : record) : M nat :=
  let entity_name := dict_get data "type" in
  let data := base.delete "type" data in
  if negb (truthy entity_name) then
    raise (KeyError "failed to reconstruct entity: bad class key")
  else
    match entity_name with
    | VAtom (AStr name) =>
        w ← get_world;
        match ENTITIES w !! name with
        | Some cls => Entity__init__ cls (Some data) (VAtom py_False) true
        | None => raise (KeyError "failed to reconstruct entity: bad class key")
        end
    | VDict _ => raise (TypeError "unhashable type")
    | _ => raise (KeyError "failed to reconstruct entity: bad class key")
    end.

(** *** Reverting, cloning, deleting *)

(** [data["uid"]] *)
Definition dict_getitem (data : record) (k : string) : M pyval :=
  match data !! k with
  | Some v => mret v
  | None => raise (KeyError k)
  end.

(** [Entity.revert] *)
Definition Entity_revert (self : nat) : M unit :=
  e ← deref self;
  match _store (__class__ e) with
  | None => raise (TypeError "cannot revert entity with no store")
  | Some st =>
      k ← key_of self;
      data ← store_get st k;
      stored_uid ← dict_getitem data "uid";
      if decide (_uid e ≠ stored_uid) then
        raise (ValueError "uid mismatch trying to revert")
      else
        Entity_deserialize self data;;
        update_entity self (set_dirty false)
  end.

(** The [new_key] argument of [clone]: a key, or a callable that returns
    one. *)
Inductive key_arg : Type :=
  | KeyValue (k : pyval)
  | KeyCallable (f : unit -> pyval).

(** [if callable(new_key): new_key = new_key()] *)
Definition resolve_key (new_key : key_arg) : pyval :=
  match new_key with
  | KeyValue k => k
  | KeyCallable f => f tt
  end.

(** [new_entity.key = new_key] *)
Definition set_key (self : nat) (new_key : pyval) : M unit :=
  e ← deref self;
  e' ← lift (key_setter e new_key);
  update_entity self (fun _ => e').

(** [Entity.clone] *)
Definition Entity_clone (self : nat) (new_key : key_arg) : M nat :=
  e ← deref self;
  match _store (__class__ e) with
  | None => raise (TypeError "cannot clone entity with no store")
  | Some st =>
      let entity_class := __class__ e in
      let new_key := resolve_key new_key in
      taken ← store_has st new_key;
      if taken : bool then raise (KeyError "key exists in entity store:")
      else
        let data := Entity_serialize e in
        let data := base.delete "uid" data in
        new_entity ← Entity__init__ entity_class (Some data) (VAtom py_False) true;
        set_key new_entity new_key;;
        mret new_entity
  end.

(** [Entity.delete] *)
Definition Entity_delete (self : nat) : M unit :=
  e ← deref self;
  let cls := __class__ e in
  cache ← get_cache cls (get_key_name cls);
  match cache with
  | Some c =>
      if bool_decide (lru_len c ≠ 0%nat) then
        k ← key_of self;
        if lru_contains k c then
          k ← key_of self; lru_delitem cls (get_key_name cls) k
        else mret tt
      else mret tt
  | None => mret tt
  end;;
  match _store cls with
  | Some st =>
      k ← key_of self;
      has_key ← store_has st k;
      if has_key : bool then k ← key_of self; store_delete st k else mret tt
  | None => mret tt
  end.

(** *** Looking entities up *)

(** The scan of [exists] over [cls._instances.values()]. *)
Fixpoint exists_scan (ents : list (nat * Entity)) (k : pyval) : exn + bool :=
  match ents with
  | [] => inr false
  | (_, entity) :: rest =>
      match key entity with
      | inl err => inl err
      | inr k' => if decide (k' = k) then inr true else exists_scan rest k
      end
  end.

(** [Entity.exists] *)
Definition Entity_exists (cls : EntityClass) (k : pyval) : M bool :=
  in_store ← match _store cls with
             | Some st => store_has st k
             | None => mret false
             end;
  if in_store : bool then mret true
  else
    w ← get_world;
    if decide (get_key_name cls = "uid") then
      if instances_contains w cls k then mret true else mret false
    else
      lift (exists_scan (instances_values w cls) k).

(** The [match] argument of [find]: the builtins [all] and [any]. *)
Inductive match_fn : Type := match_all | match_any.

Definition apply_match (m : match_fn) (matches : list bool) : bool :=
  match m with
  | match_all => forallb id matches
  | match_any => existsb id matches
  end.

(** The loop that splits [*attr_value_pairs] into pairs. *)
Fixpoint unpack_pairs (attr_value_pairs : list pyval)
  : exn + list (pyval * pyval) :=
  match attr_value_pairs with
  | [] => inr []
  | [_] => inl (ValueError "not enough values to unpack")
  | attr :: value :: rest =>
      match unpack_pairs rest with
      | inl err => inl err
      | inr pairs => inr ((attr, value) :: pairs)
      end
  end.

(** [[getattr(entity, _attr) == _value for _attr, _value in pairs]] *)
Fixpoint entity_matches (e : Entity) (pairs : list (pyval * pyval))
  : exn + list bool :=
  match pairs with
  | [] => inr []
  | (_attr, _value) :: rest =>
      match py_getattr e _attr with
      | inl err => inl err
      | inr v =>
          match entity_matches e rest with
          | inl err => inl err
          | inr ms => inr (bool_decide (v = _value) :: ms)
          end
      end
  end.

(** [data.get(_attr)] with the name as the caller passed it. *)
Definition py_dict_get (data : record) (name : pyval) : pyval :=
  match name with
  | VAtom (AStr s) => dict_get data s
  | _ => VNone
  end.

(** [[data.get(_attr) == _value for _attr, _value in pairs]] *)
Definition record_matches (data : record) (pairs : list (pyval * pyval))
  : list bool :=
  (fun p : pyval * pyval => bool_decide (py_dict_get data p.1 = p.2)) <$> pairs.

(** [found.add(entity)]: entities hash by identity; [found] is kept in
    order of discovery. *)
Definition found_add (r : nat) (found : list nat) : list nat :=
  if decide (r ∈ found) then found else found ++ [r].

(** [n and len(found) >= n] *)
Definition limit_reached (n : Z) (found : list nat) : bool :=
  negb (Z.eqb n 0) && bool_decide (n <= Z.of_nat (length found)).

(** The loop of [find] over [cls._instances.values()]. *)
Fixpoint find_in_cache (ents : list (nat * Entity))
    (pairs : list (pyval * pyval)) (m : match_fn) (n : Z)
    (found : list nat) (checked_keys : list pyval)
  : exn + (list nat * list pyval) :=
  match ents with
  | [] => inr (found, checked_keys)
  | (r, entity) :: rest =>
      match entity_matches entity pairs with
      | inl err => inl err
      | inr matches =>
          let hit := apply_match m matches in
          let found := if hit then found_add r found else found in
          if hit && limit_reached n found then inr (found, checked_keys)
          else
            match key entity with
            | inl err => inl err
            | inr k => find_in_cache rest pairs m n found (k :: checked_keys)
            end
      end
  end.

(** The loop of [find] over [cls._store.keys()]. *)
Fixpoint find_in_store (st : nat) (keys : list pyval)
    (pairs : list (pyval * pyval)) (m : match_fn) (n : Z)
    (found : list nat) (checked_keys : list pyval) : M (list nat) :=
  match keys with
  | [] => mret found
  | k :: rest =>
      if decide (k ∈ checked_keys) then
        find_in_store st rest pairs m n found checked_keys
      else
        data ← except_KeyError (d ← store_get st k; mret (Some d)) (mret None);
        match data with
        | Some data =>
            if bool_decide (data ≠ ∅)
               && apply_match m (record_matches data pairs) then
              entity ← Entity_reconstruct data;
              update_entity entity (set_dirty false);;
              let found := found_add entity found in
              if limit_reached n found then mret found
              else find_in_store st rest pairs m n found checked_keys
            else find_in_store st rest pairs m n found checked_keys
        | None => find_in_store st rest pairs m n found checked_keys
        end
  end.

(** What [find] returns: one entity or [None] when [n == 1], a list
    otherwise. *)
Inductive find_result : Type :=
  | FoundOne (entity : option nat)
  | FoundList (entities : list nat).

(** [Entity.find] *)
Definition Entity_find (cls : EntityClass) (attr_value_pairs : list pyval)
    (cache store : bool) (m : match_fn) (n : Z) : M find_result :=
  pairs ← lift (unpack_pairs attr_value_pairs);
  w ← get_world;
  '(found, checked_keys) ←
    (if cache then
       lift (find_in_cache (instances_values w cls) pairs m n [] [])
     else mret ([], []));
  found ←
    (if store && (Z.eqb n 0 || Z.ltb (Z.of_nat (length found)) n) then
       match _store cls with
       | None =>
           raise (AttributeError "'NoneType' object has no attribute 'keys'")
       | Some st =>
           keys ← store_keys st;
           find_in_store st keys pairs m n found checked_keys
       end
     else mret found);
  if decide (n = 1) then mret (FoundOne (head found))
  else mret (FoundList found).

(* ===================================================================== *)
(** ** Registration, bulk saving, loading *)
(* ===================================================================== *)

(** *** The entity manager *)

(** Modelled from the spec: [AlreadyExists] of [utils/exceptions.py], which
    is not among the embedded sources: the "already exists" condition, raised
    with the colliding name and, by [EntityManager.register], with the class
    registered under it and the class that was refused.  What the registering
    functions raise is a builtin exception or this one. *)
Inductive register_exn : Type :=
  | Raised (e : exn)
  | AlreadyExists (name : string) (old new : option EntityClass).

(** An [EntityManager]: its dict [_entities], in insertion order. *)
Record EntityManager : Type := {
  _entities : list (string * EntityClass);
}.

(** [EntityManager.__init__] *)
Definition EntityManager__init__ : EntityManager := {| _entities := [] |}.

(** [d.get(name)] on the dict of a manager. *)
Fixpoint entities_get (name : string) (d : list (string * EntityClass))
  : option EntityClass :=
  match d with
  | [] => None
  | (name', entity) :: d' =>
      if decide (name' = name) then Some entity else entities_get name d'
  end.

(** Hashing a value, as every dict lookup does first: a [dict] is not
    hashable. *)
Definition py_hash (k : pyval) : exn + unit :=
  match k with
  | VDict _ => inl (TypeError "unhashable type: 'dict'")
  | _ => inr tt
  end.

(** [EntityManager.__contains__]: the keys are class names, so only a
    string can be found. *)
Definition EntityManager__contains__ (self : EntityManager) (name : pyval)
  : exn + bool :=
  match name with
  | VAtom (AStr s) => inr (bool_decide (is_Some (entities_get s (_entities self))))
  | VDict _ => inl (TypeError "unhashable type: 'dict'")
  | _ => inr false
  end.

(** [EntityManager.__getitem__] *)
Definition EntityManager__getitem__ (self : EntityManager) (name : pyval)
  : exn + EntityClass :=
  match name with
  | VAtom (AStr s) =>
      match entities_get s (_entities self) with
      | Some entity => inr entity
      | None => inl (KeyError s)
      end
  | VDict _ => inl (TypeError "unhashable type: 'dict'")
  | _ => inl (KeyError "")
  end.

(** [EntityManager.register].  The argument is any object: a value that is
    no class ([inl]) or a class ([inr]).  Returns the registered class and
    the manager after the call. *)
Definition EntityManager_register (self : EntityManager)
    (entity : pyval + EntityClass)
  : register_exn + (EntityClass * EntityManager) :=
  match entity with
  | inl _ => inl (Raised (TypeError "must be subclass of Entity to register"))
  | inr cls =>
      if negb (issubclass_Entity (cls_def cls)) then
        inl (Raised (TypeError "must be subclass of Entity to register"))
      else
        let name := __name__ (cls_def cls) in
        match entities_get name (_entities self) with
        | Some old => inl (AlreadyExists name (Some old) (Some cls))
        | None =>
            inr (cls, {| _entities := (_entities self ++ [(name, cls)])%list |})
        end
  end.

(** The inner loop of [EntityManager.save], over the instances of one
    class; [count] is the running count of saved instances. *)
Fixpoint save_dirty_instances (instances : list nat) (count : nat) : M nat :=
  match instances with
  | [] => mret count
  | instance :: rest =>
      e ← deref instance;
      if is_savable e && is_dirty e then
        Entity_save instance;;
        save_dirty_instances rest (S count)
      else save_dirty_instances rest count
  end.

(** The outer loop of [EntityManager.save], over the registered classes. *)
Fixpoint save_registered (entities : list EntityClass) (count : nat) : M nat :=
  match entities with
  | [] => mret count
  | entity :: rest =>
      w ← get_world;
      count ← save_dirty_instances (instances_values w entity).*1 count;
      save_registered rest count
  end.

(** [EntityManager.save].  The closing [log.debug] line goes to the debug
    channel, which is not part of the state; the count it would print is
    what [save_registered] returns. *)
Definition EntityManager_save (self : EntityManager) : M unit :=
  count ← save_registered (_entities self).*2 0;
  mret tt.

(** *** Caches and class creation *)

(** [_EntityMeta.register_cache]: [cls._caches] is the dict of caches of
    the class, empty when the class has none. *)
Definition register_cache (cls : EntityClass) (key : string) (size : nat)
  : M unit :=
  w ← get_world;
  let name := __name__ (cls_def cls) in
  let caches := default ∅ (_caches w !! name) in
  if bool_decide (is_Some (caches !! key)) then
    raise (KeyError "entity already has cache:")
  else
    modify (fun w =>
      set_caches
        (<[name := <[key := {| lru_size := size; lru_items := [] |}]> caches]>
           (_caches w)) w).

(** [_EntityMeta.__init__], the part of it written in this module: the new
    class gets an empty instance registry, an empty dict of caches and one
    cache of the default size under its key name.  Its blob class
    [cls._base_blob] starts with empty tables; [cls_def] shows the tables as
    [register_attr] and [register_blob] fill them afterwards. *)
Definition EntityMeta__init__ (cls : EntityClass) : M unit :=
  let name := __name__ (cls_def cls) in
  modify (fun w => set_instances (<[name := []]> (_instances w)) w);;
  modify (fun w => set_caches (<[name := ∅]> (_caches w)) w);;
  register_cache cls (get_key_name cls) 512.

(** *** Registering attributes and blobs *)

(** [hasattr(cls, name)] on an entity class: the name is one of the fields
    that [register_attr] or [register_blob] installed on the class or on a
    class of its lineage, or it is in [namespace], the names the class
    finds otherwise (what the class bodies of its lineage define, and what
    its metaclass provides). *)
Definition class_hasattr (namespace : gset string) (cls : PyClass)
    (name : string) : bool :=
  bool_decide (name ∈ namespace)
  || existsb (fun c => bool_decide (name ∈ dom (own_attrs c) ∪ dom (own_blobs c)))
             (lineage cls).

(** [cls._base_blob._attrs[name] = attr_class] *)
Definition with_attr (cls : PyClass) (name : string) (attr_class : Attribute)
  : PyClass :=
  match cls with
  | Class n bs attrs blobs => Class n bs (<[name := attr_class]> attrs) blobs
  end.

(** [cls._base_blob._blobs[name] = blob_class] *)
Definition with_blob (cls : PyClass) (name : string) (blob_class : string)
  : PyClass :=
  match cls with
  | Class n bs attrs blobs => Class n bs attrs (<[name := blob_class]> blobs)
  end.

(** [_EntityMeta.register_attr], the decorator applied: [attr_class] is an
    [Attribute] class ([inr]) or any other object ([inl]).  Returns the
    class with the attribute registered.  The property it installs is what
    [getattr_nokey] and [setattr_nokey] follow for a registered name.  Of
    the [AlreadyExists] raised for a taken name only the name is recorded,
    not the attribute found under it (which is no entity class). *)
Definition register_attr (namespace : gset string) (cls : PyClass)
    (name : string) (attr_class : pyval + Attribute)
  : register_exn + PyClass :=
  if class_hasattr namespace cls name then inl (AlreadyExists name None None)
  else
    match attr_class with
    | inl _ =>
        inl (Raised (TypeError "must be subclass of Attribute to register"))
    | inr attr_class => inr (with_attr cls name attr_class)
    end.

(** [_EntityMeta.register_blob], the decorator applied: [blob_class] is a
    [DataBlob] class, by its name ([inr]), or any other object ([inl]). *)
Definition register_blob (namespace : gset string) (cls : PyClass)
    (name : string) (blob_class : pyval + string)
  : register_exn + PyClass :=
  if class_hasattr namespace cls name then inl (AlreadyExists name None None)
  else
    match blob_class with
    | inl _ =>
        inl (Raised (TypeError "must be subclass of DataBlob to register"))
    | inr blob_class => inr (with_blob cls name blob_class)
    end.

(** *** All active instances *)

(** [Entity.all] *)
Definition Entity_all (cls : EntityClass) : M (list nat) := fun w =>
  Ret (filter (fun re : nat * Entity => truthy (active re.2) = true)
              (instances_values w cls)).*1 w.

(** *** Loading *)

(** [d.get(k)] on an insertion-ordered dictionary. *)
Fixpoint odict_get {V} (k : pyval) (d : list (pyval * V)) : option V :=
  match d with
  | [] => None
  | (k', v) :: d' => if decide (k' = k) then Some v else odict_get k d'
  end.

(** [cls._instances[key]], for a key that is there. *)
Definition instances_getitem (w : World) (cls : EntityClass) (k : pyval)
  : option nat :=
  fst <$> odict_get k (instances_live w cls).

(** Modelled from the spec: [cache[key]] on the bounded cache.  In a
    "least-recently-used" cache a lookup makes the entry the most recently
    used one. *)
Definition lru_getitem (cls : EntityClass) (key_name : string) (k : pyval)
  : M nat :=
  cache ← get_cache cls key_name;
  match cache ≫= fun c => odict_get k (lru_items c) with
  | Some value =>
      modify_cache cls key_name (fun c => lru_push k value (lru_without k c));;
      mret value
  | None => raise (KeyError key_name)
  end.

(** Modelled from the spec: [store.get(key, default=None)]. *)
Definition store_get_default (st : nat) (k : pyval) : M (option record) :=
  fun w => Ret (store_contents w st !! k) w.

(** The [default] argument of [load]: an exception class, called with the
    key to make the exception that is raised, or a value to return. *)
Inductive load_default : Type :=
  | DefaultRaise (exception : pyval -> exn)
  | DefaultValue (v : pyval).

(** What [load] returns: an entity, or the default value. *)
Inductive load_result : Type :=
  | Loaded (entity : nat)
  | NotLoaded (default : pyval).

(** The scan of [load] over [cls._instances.values()]. *)
Fixpoint load_scan (ents : list (nat * Entity)) (k : pyval)
  : exn + option nat :=
  match ents with
  | [] => inr None
  | (r, entity) :: rest =>
      match key entity with
      | inl err => inl err
      | inr k' => if decide (k' = k) then inr (Some r) else load_scan rest k
      end
  end.

(** The first half of [_find] in [load]: the instance registry, the cache,
    the scan of the live instances. *)
Definition load_from_cache (cls : EntityClass) (k : pyval)
    (cache : option lrucache) : M (option nat) :=
  let key_name := get_key_name cls in
  w ← get_world;
  registered ←
    (if decide (key_name = "uid") then
       lift (py_hash k);;
       mret (instances_getitem w cls k)
     else mret None);
  match registered with
  | Some entity => mret (Some entity)
  | None =>
      cached ←
        match cache with
        | Some c =>
            lift (py_hash k);;
            if lru_contains k c then
              entity ← lru_getitem cls key_name k; mret (Some entity)
            else mret None
        | None => mret None
        end;
      match cached with
      | Some entity => mret (Some entity)
      | None =>
          if decide (key_name ≠ "uid") then
            lift (load_scan (instances_values w cls) k)
          else mret None
      end
  end.

(** The second half of [_find] in [load]: the store.  The warning about a
    record without uid is filed under the identity the loaded object is
    about to get; the class name and the key of the message are not
    recorded. *)
Definition load_from_store (cls : EntityClass) (k : pyval)
  : M (option nat) :=
  match _store cls with
  | Some st =>
      data ← store_get_default st k;
      match data with
      | Some data =>
          if bool_decide (data ≠ ∅) then
            (if bool_decide (is_Some (data !! "uid")) then mret tt
             else
               w ← get_world;
               log_warn "No uid for entity loaded with key"
                        (fresh (dom (heap w))));;
            entity ← Entity_reconstruct data;
            update_entity entity (set_dirty false);;
            mret (Some entity)
          else mret None
      | None => mret None
      end
  | None => mret None
  end.

(** [_find] of [load] *)
Definition load_find (cls : EntityClass) (k : pyval) (from_cache : bool)
    (cache : option lrucache) : M (option nat) :=
  found ← (if from_cache then load_from_cache cls k cache else mret None);
  match found with
  | Some entity => mret (Some entity)
  | None => load_from_store cls k
  end.

(** [Entity.load].  An entity object is true, so [if found] asks whether
    [_find] returned one.  [cache] is the cache object; its contents are
    read again where the source reads them again. *)
Definition Entity_load (cls : EntityClass) (k : pyval) (from_cache : bool)
    (default : load_default) : M load_result :=
  cache ← get_cache cls (get_key_name cls);
  found ← load_find cls k from_cache cache;
  match found with
  | Some entity =>
      cache ← get_cache cls (get_key_name cls);
      match cache with
      | Some c =>
          lift (py_hash k);;
          if negb (lru_contains k c) then
            lru_setitem cls (get_key_name cls) k entity
          else mret tt
      | None => mret tt
      end;;
      mret (Loaded entity)
  | None =>
      match default with
      | DefaultRaise exception => raise (exception k)
      | DefaultValue v => mret (NotLoaded v)
      end
  end.

(* ===================================================================== *)
(** ** Notions used by the statements *)
(* ===================================================================== *)

(** *** Schema composition *)

(** The fields a class declares on its own blob. *)
Definition declared_fields (c : PyClass) : gset string :=
  dom (own_attrs c) ∪ dom (own_blobs c).

(** The fields declared across the lineage of a class, by name. *)
Definition lineage_fields (cls : PyClass) : gset string :=
  ⋃ (declared_fields <$> filter (fun c => issubclass_Entity c) (lineage cls)).

(** The class table is well formed: two places of the lineage that carry
    the same name are the same class, so they declare the same fields. *)
Definition consistent (cls : PyClass) : Prop :=
  forall a b, a ∈ lineage cls -> b ∈ lineage cls ->
    __name__ a = __name__ b -> declared_fields a = declared_fields b.

(** During the walk over the lineage of [top]: every class already checked
    has its fields in the blob. *)
Definition checked_merged (top : PyClass) (st : DataBlob * gset string)
  : Prop :=
  forall a, a ∈ lineage top -> issubclass_Entity a ->
    __name__ a ∈ st.2 -> declared_fields a ⊆ field_names st.1.

(** *** Caches and [find] *)

(** The cache of a class under a key name, [cls._caches.get(key_name)]. *)
Definition cache_of (w : World) (cls : EntityClass) (key_name : string)
  : option lrucache :=
  _caches w !! __name__ (cls_def cls) ≫= fun cs => cs !! key_name.

(** The entities a result of [find] holds. *)
Definition found_entities (res : find_result) : list nat :=
  match res with
  | FoundOne entity => option_list entity
  | FoundList entities => entities
  end.

(** What [find] hands back for a found set. *)
Definition find_return (n : Z) (found : list nat) : find_result :=
  if decide (n = 1) then FoundOne (head found) else FoundList found.

(** The first phase of [find]: the scan of the instance registry, or
    nothing when [cache] is off. *)
Definition find_cache_phase (w : World) (cls : EntityClass)
    (pairs : list (pyval * pyval)) (cache : bool) (m : match_fn) (n : Z)
  : exn + (list nat * list pyval) :=
  if cache then find_in_cache (instances_values w cls) pairs m n [] []
  else inr ([], []).



(** *** Entities in the heap, serialisation, construction *)

(** The entity [e] put in place of the object [r]. *)
Definition put_entity (r : nat) (e : Entity) (w : World) : World :=
  set_heap (<[r := e]> (heap w)) w.

(** The keys [Entity.deserialize] takes out of a record before it hands
    the rest to the blob. *)
Definition record_rest (data : record) : record :=
  base.delete "tags" (base.delete "flags"
    (base.delete "uid" (base.delete "type" data))).

(** The entity that [Entity.deserialize] leaves behind when the record
    carries the flags [fl] and the tags [tg]. *)
Definition deserialized (e : Entity) (data : record) (fl : list atom)
    (tg : gmap string atom) : Entity := {|
  __class__ := __class__ e;
  _base_blob := blob_deserialize (_base_blob e) (record_rest data);
  _dirty := true;
  _savable := _savable e;
  _uid := default (_uid e) (data !! "uid");
  active := active e;
  flags := flags e ∪ list_to_set fl;
  tags := tg;
  __dict__ := __dict__ e;
|}.




(** The object [Entity.__init__] starts from, before any data is read. *)
Definition blank_entity (cls : EntityClass) (active : pyval) (savable : bool)
  : Entity := {|
  __class__ := cls;
  _base_blob := composed_blob (cls_def cls);
  _dirty := false;
  _savable := savable;
  _uid := VNone;
  active := active;
  flags := ∅;
  tags := ∅;
  __dict__ := ∅;
|}.

(** Putting [k] into the key cache of [cls] evicts nothing: there is no
    such cache, or the key is already there, or there is room. *)
Definition no_eviction (w : World) (cls : EntityClass) (k : pyval) : Prop :=
  match cache_of w cls (get_key_name cls) with
  | None => True
  | Some c => lru_contains k c = true \/ (lru_len c < lru_size c)%nat
  end.

(** The state [Entity.__init__] leaves when nothing is evicted: the new
    object [r] holds [e], the counter stands at [tc], [r] is registered
    under its uid and, unless its key was cached already, cached under
    it. *)
Definition constructed (cls : EntityClass) (r : nat) (e : Entity) (tc : Z)
    (k : pyval) (w : World) : World :=
  let w1 := put_entity r e (set_uid_timecode tc w) in
  let w2 :=
    set_instances
      (<[__name__ (cls_def cls) := odict_set (_uid e) r (instances_entries w1 cls)]>
         (_instances w1)) w1 in
  match cache_of w2 cls (get_key_name cls) with
  | Some c =>
      if lru_contains k c then w2
      else set_caches (alter (alter (lru_push k r) (get_key_name cls))
                             (__name__ (cls_def cls)) (_caches w2)) w2
  | None => w2
  end.

(** The blob [b] with the value of the attribute [name] replaced. *)
Definition blob_with_value (b : DataBlob) (name : string) (v : pyval)
  : DataBlob :=
  {| _blobs := _blobs b; _attrs := _attrs b;
     _attr_values := <[name := v]> (_attr_values b) |}.

(** What two states of the process share when only the object [r0], the
    stores and the log may differ. *)
Definition same_but (r0 : nat) (w w' : World) : Prop :=
  (forall r, r <> r0 -> heap w' !! r = heap w !! r) /\
  _instances w' = _instances w /\
  _caches w' = _caches w /\
  __uid_timecode w' = __uid_timecode w /\
  TIMERS_time w' = TIMERS_time w /\
  ENTITIES w' = ENTITIES w.

(** The key cache of [cls] holds live objects only (a cache keeps its
    entries alive). *)
Definition cache_refs_live (w : World) (cls : EntityClass) : Prop :=
  forall c k0 r0,
    cache_of w cls (get_key_name cls) = Some c ->
    (k0, r0) ∈ lru_items c -> is_Some (heap w !! r0).



(** *** Saving, bulk saving and loading *)

(** The entity [save] leaves behind: the pending key change is gone and
    the entity is clean. *)
Definition saved (e : Entity) : Entity :=
  set_dirty false (set_tags (base.delete "_old_key" (tags e)) e).

(** The contents of the store of an entity after [save] wrote it under the
    key [k]: the record under the old key, if the entity carried one, is
    gone, and the serialisation of the entity is under [k]. *)
Definition saved_store (e : Entity) (k : pyval) (contents : gmap pyval record)
  : gmap pyval record :=
  <[k := Entity_serialize (saved e)]>
    (match tags e !! "_old_key" with
     | Some old_key => base.delete (VAtom old_key) contents
     | None => contents
     end).

(** *** Registration *)

(** The manager after a run of [register] calls on it, the refused calls
    leaving it as it was. *)
Fixpoint registered_after (calls : list (pyval + EntityClass))
    (self : EntityManager) : EntityManager :=
  match calls with
  | [] => self
  | entity :: rest =>
      match EntityManager_register self entity with
      | inr (_, self') => registered_after rest self'
      | inl _ => registered_after rest self
      end
  end.

(** Every class of the manager is an entity class filed under its own
    name, and no name is filed twice. *)
Definition well_registered (self : EntityManager) : Prop :=
  NoDup (_entities self).*1 /\
  Forall (fun ne : string * EntityClass =>
            ne.1 = __name__ (cls_def ne.2) /\
            issubclass_Entity (cls_def ne.2) = true)
         (_entities self).

(** *** Construction *)

(** Between two states of the process nothing differs but the data of the
    object [y]: its uid, its attribute values, its flags, its tags and its
    dirty mark.  Its class, its [active] and [savable] marks, its instance
    attributes and the attributes of its schema are the same, and so is
    everything else in the process. *)
Definition only_data_of (y : nat) (w w' : World) : Prop :=
  (forall r, r <> y -> heap w' !! r = heap w !! r) /\
  (forall e, heap w !! y = Some e ->
     exists e', heap w' !! y = Some e' /\
       __class__ e' = __class__ e /\ active e' = active e /\
       _savable e' = _savable e /\ __dict__ e' = __dict__ e /\
       _attrs (_base_blob e') = _attrs (_base_blob e) /\
       _blobs (_base_blob e') = _blobs (_base_blob e)) /\
  (heap w !! y = None -> heap w' !! y = None) /\
  TIMERS_time w' = TIMERS_time w /\
  __uid_timecode w' = __uid_timecode w /\
  _instances w' = _instances w /\
  _caches w' = _caches w /\
  stores w' = stores w /\
  ENTITIES w' = ENTITIES w /\
  log w' = log w.

(** *** Bulk saving *)

(** Every dirty savable object of the process can be saved: its key can
    be read (and is not its dirty mark). *)
Definition sweepable (w : World) : Prop :=
  forall r e, heap w !! r = Some e ->
    is_savable e = true -> is_dirty e = true ->
    _store_key (__class__ e) <> "is_dirty" /\ exists k, key e = inr k.

(** From [w] to [w'] objects were saved and nothing else happened to the
    objects, the registries and the caches: an object is as it was, or it
    was dirty and savable and is now as [save] leaves it. *)
Definition swept (w w' : World) : Prop :=
  (forall r,
     heap w' !! r = heap w !! r \/
     exists e, heap w !! r = Some e /\ is_savable e = true /\
               is_dirty e = true /\ heap w' !! r = Some (saved e)) /\
  _instances w' = _instances w /\
  _caches w' = _caches w.

(** *** Registering fields *)

(** The blob [b] with one more attribute, at its default value. *)
Definition blob_with_attr (b : DataBlob) (name : string)
    (attr_class : Attribute) : DataBlob :=
  {| _blobs := _blobs b;
     _attrs := <[name := attr_class]> (_attrs b);
     _attr_values := <[name := default_value attr_class]> (_attr_values b) |}.

(** The blob [b] with one more nested blob. *)
Definition blob_with_blob (b : DataBlob) (name : string) (blob_class : string)
  : DataBlob :=
  {| _blobs := <[name := blob_class]> (_blobs b);
     _attrs := _attrs b;
     _attr_values := _attr_values b |}.

(* ===================================================================== *)
(** ** A small class table and process state, to run the definitions on *)
(* ===================================================================== *)

(** An attribute [name], default ["thing"], that accepts any value. *)
Definition demo_NameAttr : Attribute := {|
  default_value := VStr "thing";
  _read_only := false;
  validate := fun new_value => inr new_value;
|}.

Definition demo_object : PyClass := Class "object" [] ∅ ∅.
Definition demo_HasFlags : PyClass := Class "HasFlags" [demo_object] ∅ ∅.
Definition demo_HasTags : PyClass := Class "HasTags" [demo_object] ∅ ∅.
Definition demo_Entity : PyClass :=
  Class "Entity" [demo_HasFlags; demo_HasTags]
        {["version" := EntityVersion]} ∅.
Definition demo_Item : PyClass :=
  Class "Item" [demo_Entity] {["name" := demo_NameAttr]} ∅.

(** A diamond: [Sword] and [Gem] both derive from [Item], [GemSword] from
    both. *)
Definition demo_Sword : PyClass :=
  Class "Sword" [demo_Item] {["damage" := EntityVersion]} ∅.
Definition demo_Gem : PyClass :=
  Class "Gem" [demo_Item] {["colour" := demo_NameAttr]} {["facets" := "Facets"]}.
Definition demo_GemSword : PyClass :=
  Class "GemSword" [demo_Sword; demo_Gem] {["glow" := EntityVersion]} ∅.

(** [Item] is stored in store 0 under its [name]; [Plain] is the base
    entity class, keyed by UID, with no store. *)
Definition Item : EntityClass := {|
  cls_def := demo_Item; _store := Some 0%nat; _store_key := "name";
  _uid_code := "I"; type := "entity";
|}.
Definition Plain : EntityClass := {|
  cls_def := demo_Entity; _store := None; _store_key := "uid";
  _uid_code := "E"; type := "entity";
|}.

(** The process before any entity exists: each class has the cache its
    metaclass registered for its key name (here of size 2). *)
Definition demo_world : World := {|
  TIMERS_time := 5;
  __uid_timecode := 0;
  heap := ∅;
  _instances := ∅;
  _caches := {[ "Item" := {[ "name" := {| lru_size := 2; lru_items := [] |} ]};
                "Entity" := {[ "uid" := {| lru_size := 2; lru_items := [] |} ]} ]};
  stores := ∅;
  ENTITIES := {[ "Item" := Item; "Entity" := Plain ]};
  log := [];
|}.

(** [x = Item(); x.name = "sword"; x.save()] *)
Definition demo_saved_item : M nat :=
  x ← Entity__init__ Item None (VAtom py_False) true;
  set_key x (VStr "sword");;
  Entity_save x;;
  mret x.

Definition demo_world_item : World := final_world (demo_saved_item demo_world).

(** [x = Entity(); y = Entity()] *)
Definition demo_two_plain : M (nat * nat) :=
  x ← Entity__init__ Plain None (VAtom py_False) true;
  y ← Entity__init__ Plain None (VAtom py_False) true;
  mret (x, y).

Definition demo_world_plain : World := final_world (demo_two_plain demo_world).

(** The entity of [demo_world_item], written out. *)
Definition demo_sword : Entity := {|
  __class__ := Item;
  _base_blob := blob_with_value (composed_blob demo_Item) "name" (VStr "sword");
  _dirty := false;
  _savable := true;
  _uid := VStr "I-cw4";
  active := VAtom py_False;
  flags := ∅;
  tags := ∅;
  __dict__ := ∅;
|}.

(** The first entity of [demo_world_plain], written out. *)
Definition demo_plain : Entity := {|
  __class__ := Plain;
  _base_blob := composed_blob demo_Entity;
  _dirty := false;
  _savable := true;
  _uid := VStr "E-cw4";
  active := VAtom py_False;
  flags := ∅;
  tags := ∅;
  __dict__ := ∅;
|}.

(** [x = Item(); x.name = "sword"; x.save(); x.flags.add("glowing");
    y = Item()] *)
Definition demo_two_items : M (nat * nat) :=
  x ← demo_saved_item;
  flags_add x [AStr "glowing"];;
  y ← Entity__init__ Item None (VAtom py_False) true;
  mret (x, y).

Definition demo_world_two_items : World :=
  final_world (demo_two_items demo_world).

Definition demo_glowing_sword : Entity := {|
  __class__ := Item;
  _base_blob := blob_with_value (composed_blob demo_Item) "name" (VStr "sword");
  _dirty := true;
  _savable := true;
  _uid := VStr "I-cw4";
  active := VAtom py_False;
  flags := {[AStr "glowing"]};
  tags := ∅;
  __dict__ := ∅;
|}.

Definition demo_thing : Entity := {|
  __class__ := Item;
  _base_blob := composed_blob demo_Item;
  _dirty := false;
  _savable := true;
  _uid := VStr "I-cw5";
  active := VAtom py_False;
  flags := ∅;
  tags := ∅;
  __dict__ := ∅;
|}.



(** [x = Item(); x.name = "sword"; x.save(); x.delete();
    Item.exists(x.key)] *)
Definition demo_delete_exists : M bool :=
  x ← demo_saved_item;
  Entity_delete x;;
  k ← key_of x;
  Entity_exists Item k.

(** [x = Entity(); x.save()] on the class without store. *)
Definition demo_save_plain : M unit :=
  x ← Entity__init__ Plain None (VAtom py_False) true;
  Entity_save x.


(** [x = Entity(); Entity.find(n=1)] on the class without store. *)
Definition demo_find_plain : M find_result :=
  x ← Entity__init__ Plain None (VAtom py_False) true;
  Entity_find Plain [] true true match_all 1.

(** The record [demo_sword] is saved as. *)
Definition demo_sword_record : record := Entity_serialize demo_sword.


(** [Stored] is an entity class keyed by UID, stored in store 1. *)
Definition Stored : EntityClass := {|
  cls_def := demo_Entity; _store := Some 1%nat; _store_key := "uid";
  _uid_code := "S"; type := "entity";
|}.

(** [x = Stored()] *)
Definition demo_world_stored : World :=
  final_world (Entity__init__ Stored None (VAtom py_False) true demo_world).

(** The entity of [demo_world_stored], written out. *)
Definition demo_stored : Entity := {|
  __class__ := Stored;
  _base_blob := composed_blob demo_Entity;
  _dirty := false;
  _savable := true;
  _uid := VStr "S-cw4";
  active := VAtom py_False;
  flags := ∅;
  tags := ∅;
  __dict__ := ∅;
|}.

(** A record left in store 0 by a class that is no longer registered. *)
Definition demo_ghost_record : record :=
  {[ "type" := VStr "Ghost"; "uid" := VStr "G-1" ]}.

Definition demo_world_ghost : World :=
  set_stores {[ 0%nat := {[ VStr "ghost" := demo_ghost_record ]} ]} demo_world.

(** A record whose flags are a number. *)
Definition demo_bad_record : record :=
  {[ "uid" := VStr "I-bad"; "flags" := VInt 5 ]}.

(** [ENTITIES] with [Item] registered. *)
Definition demo_manager : EntityManager := {| _entities := [("Item", Item)] |}.

(* ===================================================================== *)
(** ** Facts about the UID generator *)
(* ===================================================================== *)

Section base_n.
Variable base : Z.
Hypothesis base_ge_2 : 2 <= base.



End base_n.













Lemma make_uid_timecode (code : string) (time tc : Z) :
  tc < (make_uid code time tc).2.
Proof. unfold make_uid. simpl. case_decide; lia. Qed.




(* ===================================================================== *)
(** ** Facts about schema composition *)
(* ===================================================================== *)

Lemma PyClass_ind (P : PyClass -> Prop) :
  (forall n bs a b, Forall P bs -> P (Class n bs a b)) ->
  forall c, P c.
Proof.
  intros H. fix IH 1. intros [n bs a b]. apply H.
  induction bs as [|c bs IHbs]; constructor; [apply IH|apply IHbs].
Qed.

Lemma field_names_update (b other : DataBlob) :
  field_names (_update b other) = field_names other ∪ field_names b.
Proof.
  unfold field_names, _update. cbn. rewrite !dom_union_L. set_solver.
Qed.

Lemma field_names_new_base_blob (c : PyClass) :
  field_names (new_base_blob c) = declared_fields c.
Proof. reflexivity. Qed.

Lemma build_unfold (c : PyClass) (st : DataBlob * gset string) :
  _build_base_blob c st =
  let st' := fold_left (fun st base => _build_base_blob base st) (__bases__ c) st in
  if issubclass_Entity c then
    if decide (__name__ c ∈ st'.2) then st'
    else (_update st'.1 (new_base_blob c), {[__name__ c]} ∪ st'.2)
  else st'.
Proof. destruct c. reflexivity. Qed.

Lemma merge_order_unfold (c : PyClass) (acc : list PyClass) :
  merge_order c acc =
  let acc' := fold_left (fun acc base => merge_order base acc) (__bases__ c) acc in
  if issubclass_Entity c then
    if decide (__name__ c ∈ (__name__ <$> acc')) then acc' else (acc' ++ [c])%list
  else acc'.
Proof. destruct c. reflexivity. Qed.

Lemma lineage_unfold (c : PyClass) :
  lineage c = c :: flat_map lineage (__bases__ c).
Proof. destruct c. reflexivity. Qed.

Lemma lineage_self (c : PyClass) : c ∈ lineage c.
Proof. rewrite lineage_unfold. left. Qed.

Lemma lineage_base (c base a : PyClass) :
  base ∈ __bases__ c -> a ∈ lineage base -> a ∈ lineage c.
Proof.
  intros Hb Ha. rewrite lineage_unfold. right.
  apply list_elem_of_In, in_flat_map. exists base.
  split; by apply list_elem_of_In.
Qed.

(** What one walk adds: only fields declared by entity classes of the walked
    lineage. *)
Lemma build_fields_upper (c : PyClass) : forall st,
  field_names (_build_base_blob c st).1 ⊆
  field_names st.1 ∪ lineage_fields c.
Proof.
  induction c as [n bs a b IH] using PyClass_ind. intros st.
  rewrite build_unfold. cbn [__bases__ __name__].
  set (c := Class n bs a b).
  assert (forall st, field_names
            (fold_left (fun st base => _build_base_blob base st) bs st).1
          ⊆ field_names st.1 ∪ ⋃ (lineage_fields <$> bs)) as Hfold.
  { clear -IH. induction IH as [|base bs Hbase _ IHbs]; intros st; simpl.
    - set_solver.
    - etrans; [apply IHbs|]. specialize (Hbase st). set_solver. }
  assert (forall base, base ∈ bs -> lineage_fields base ⊆ lineage_fields c) as Hsub.
  { intros base Hb x Hx. unfold lineage_fields in *.
    apply elem_of_union_list in Hx as (X & HX & Hx).
    apply list_elem_of_fmap in HX as (d & -> & Hd).
    apply list_elem_of_filter in Hd as [Hd1 Hd2].
    apply elem_of_union_list. exists (declared_fields d). split; [|done].
    apply list_elem_of_fmap. exists d. split; [done|].
    apply list_elem_of_filter. split; [done|].
    by apply (lineage_base c base). }
  assert (⋃ (lineage_fields <$> bs) ⊆ lineage_fields c) as Hall.
  { intros x Hx. apply elem_of_union_list in Hx as (X & HX & Hx).
    apply list_elem_of_fmap in HX as (base & -> & Hb). by apply (Hsub base). }
  specialize (Hfold st). cbv zeta.
  destruct (issubclass_Entity c) eqn:Hent; [|set_solver].
  case_decide; [set_solver|]. cbn [fst].
  rewrite field_names_update, field_names_new_base_blob.
  assert (declared_fields c ⊆ lineage_fields c).
  { intros x Hx. apply elem_of_union_list. exists (declared_fields c).
    split; [|done]. apply list_elem_of_fmap. exists c. split; [done|].
    apply list_elem_of_filter. split; [by rewrite Hent|apply lineage_self]. }
  set_solver.
Qed.

Section build_lower.
Variable top : PyClass.
Hypothesis Hcons : consistent top.

Lemma build_lower (c : PyClass) : forall st,
  (forall a, a ∈ lineage c -> a ∈ lineage top) ->
  checked_merged top st ->
  checked_merged top (_build_base_blob c st) /\
  st.2 ⊆ (_build_base_blob c st).2 /\
  (forall a, a ∈ lineage c -> issubclass_Entity a ->
     __name__ a ∈ (_build_base_blob c st).2).
Proof.
  induction c as [n bs a b IH] using PyClass_ind. intros st Hin Hst.
  rewrite build_unfold. cbn [__bases__ __name__].
  set (c := Class n bs a b) in *.
  assert (forall st,
            (forall base x, base ∈ bs -> x ∈ lineage base -> x ∈ lineage top) ->
            checked_merged top st ->
            let st' := fold_left (fun st base => _build_base_blob base st) bs st in
            checked_merged top st' /\ st.2 ⊆ st'.2 /\
            (forall base x, base ∈ bs -> x ∈ lineage base ->
               issubclass_Entity x -> __name__ x ∈ st'.2)) as Hfold.
  { clear -IH. induction IH as [|base bs Hbase _ IHbs]; intros st Hin Hst; simpl.
    - split; [done|]. split; [done|]. intros ?? Hb. by apply elem_of_nil in Hb.
    - destruct (Hbase st) as (H1 & H2 & H3); [|done|].
      { intros x Hx. apply (Hin base); [left|done]. }
      destruct (IHbs (_build_base_blob base st)) as (H4 & H5 & H6); [|done|].
      { intros b' x Hb' Hx. apply (Hin b'); [by right|done]. }
      split; [done|]. split; [set_solver|].
      intros b' x Hb' Hx Hent. apply elem_of_cons in Hb' as [->|Hb'].
      + apply H5. by apply H3.
      + by apply (H6 b'). }
  destruct (Hfold st) as (H1 & H2 & H3); [|done|].
  { intros base x Hb Hx. apply Hin. by apply (lineage_base c base). }
  cbv zeta. set (st' := fold_left _ bs st) in *.
  assert (forall x, x ∈ lineage c -> issubclass_Entity x ->
            x = c \/ __name__ x ∈ st'.2) as Hlin.
  { intros x Hx Hent. rewrite lineage_unfold in Hx.
    apply elem_of_cons in Hx as [->|Hx]; [by left|right].
    apply list_elem_of_In, in_flat_map in Hx as (base & Hb & Hx).
    apply (H3 base); [by apply list_elem_of_In|by apply list_elem_of_In|done]. }
  destruct (issubclass_Entity c) eqn:Hent.
  - case_decide as Hchk.
    + split; [done|]. split; [done|].
      intros x Hx Hxe. destruct (Hlin x Hx Hxe) as [->|?]; done.
    + split; [|split].
      * intros x Hx Hxe Hname. cbn [fst snd] in *.
        rewrite field_names_update, field_names_new_base_blob.
        destruct (decide (__name__ x = n)) as [Heq|Hne].
        -- rewrite (Hcons x c); [set_solver|done|apply Hin, lineage_self|done].
        -- specialize (H1 x Hx Hxe). set_solver.
      * cbn [snd]. set_solver.
      * intros x Hx Hxe. cbn [snd].
        destruct (Hlin x Hx Hxe) as [->|?]; set_solver.
  - split; [done|]. split; [done|].
    intros x Hx Hxe. destruct (Hlin x Hx Hxe) as [->|?]; [|done].
    rewrite Hent in Hxe. done.
Qed.
End build_lower.

(** The walk of [_build_base_blob] and the merge order agree: the walk
    merges the blobs of exactly the classes the order lists, and checks
    exactly their names. *)
Lemma build_merge_order (c : PyClass) : forall blob acc,
  exists new,
    merge_order c acc = (acc ++ new)%list /\
    _build_base_blob c (blob, list_to_set (__name__ <$> acc)) =
      (fold_left _update (new_base_blob <$> new) blob,
       list_to_set (__name__ <$> merge_order c acc)) /\
    (NoDup (__name__ <$> acc) -> NoDup (__name__ <$> merge_order c acc)) /\
    (forall x, x ∈ new -> x ∈ lineage c /\ issubclass_Entity x).
Proof.
  induction c as [n bs a b IH] using PyClass_ind. intros blob acc.
  rewrite build_unfold, merge_order_unfold. cbn [__bases__ __name__].
  set (c := Class n bs a b) in *.
  assert (forall blob acc, exists new,
            fold_left (fun acc base => merge_order base acc) bs acc = (acc ++ new)%list /\
            fold_left (fun st base => _build_base_blob base st) bs
                      (blob, list_to_set (__name__ <$> acc)) =
              (fold_left _update (new_base_blob <$> new) blob,
               list_to_set (__name__ <$>
                 fold_left (fun acc base => merge_order base acc) bs acc)) /\
            (NoDup (__name__ <$> acc) ->
             NoDup (__name__ <$>
                 fold_left (fun acc base => merge_order base acc) bs acc)) /\
            (forall x, x ∈ new -> exists base, base ∈ bs /\ x ∈ lineage base /\
                                   issubclass_Entity x)) as Hfold.
  { clear -IH. induction IH as [|base bs Hbase _ IHbs]; intros blob acc; simpl.
    - exists []. rewrite app_nil_r. repeat split; try done.
      intros x Hx. by apply elem_of_nil in Hx.
    - destruct (Hbase blob acc) as (new1 & E1 & E2 & E3 & E4).
      destruct (IHbs (fold_left _update (new_base_blob <$> new1) blob)
                     (merge_order base acc)) as (new2 & F1 & F2 & F3 & F4).
      exists (new1 ++ new2)%list. rewrite E2, F2. split; [|split; [|split]].
      + rewrite F1, E1. by rewrite app_assoc.
      + by rewrite fmap_app, fold_left_app.
      + intros Hnd. by apply F3, E3.
      + intros x Hx. apply elem_of_app in Hx as [Hx|Hx].
        * exists base. split; [left|]. by apply E4.
        * destruct (F4 x Hx) as (b' & ? & ?). exists b'. split; [by right|done]. }
  destruct (Hfold blob acc) as (new & E1 & E2 & E3 & E4).
  cbv zeta. rewrite E2. cbn [fst snd].
  set (acc' := fold_left (fun acc base => merge_order base acc) bs acc) in *.
  assert (forall x, x ∈ new -> x ∈ lineage c /\ issubclass_Entity x) as Hnew.
  { intros x Hx. destruct (E4 x Hx) as (base & Hb & Hl & He).
    split; [by apply (lineage_base c base)|done]. }
  destruct (issubclass_Entity c) eqn:Hent.
  - destruct (decide (n ∈ __name__ <$> acc')) as [Hin|Hnin].
    + rewrite decide_True by (by apply elem_of_list_to_set).
      exists new. done.
    + rewrite decide_False by (by rewrite elem_of_list_to_set).
      exists (new ++ [c])%list. split; [|split; [|split]].
      * by rewrite E1, app_assoc.
      * f_equal.
        -- by rewrite fmap_app, fold_left_app.
        -- rewrite fmap_app, list_to_set_app_L. simpl. set_solver.
      * intros Hnd. rewrite fmap_app. apply NoDup_app. split; [by apply E3|].
        split; [|apply NoDup_singleton].
        intros x Hx Hx'. apply list_elem_of_singleton in Hx'. by subst.
      * intros x Hx. apply elem_of_app in Hx as [Hx|Hx]; [by apply Hnew|].
        apply list_elem_of_singleton in Hx as ->.
        split; [apply lineage_self|by rewrite Hent].
  - exists new. done.
Qed.

(** C9.  For an entity class whose class table is well formed, the schema
    composed at construction has exactly the field names declared across
    the lineage (so as many fields as there are distinct names), and it is
    obtained by merging the own blob of every entity class of the lineage
    exactly once: the merged classes form a list without repeated class,
    which holds every entity class of the lineage, however many paths reach
    it. *)
Theorem composed_schema_fields (cls : PyClass) :
  issubclass_Entity cls = true ->
  consistent cls ->
  field_names (composed_blob cls) = lineage_fields cls /\
  size (field_names (composed_blob cls)) = size (lineage_fields cls) /\
  composed_blob cls =
    fold_left _update (new_base_blob <$> merge_order cls []) (new_base_blob cls) /\
  NoDup (__name__ <$> merge_order cls []) /\
  (forall a, a ∈ lineage cls -> issubclass_Entity a ->
     __name__ a ∈ __name__ <$> merge_order cls []) /\
  (forall a, a ∈ merge_order cls [] -> a ∈ lineage cls /\ issubclass_Entity a).
Proof.
  intros Hent Hcons.
  assert (field_names (composed_blob cls) = lineage_fields cls) as Hfields.
  { apply set_eq. intros x. split.
    - intros Hx. unfold composed_blob in Hx.
      apply build_fields_upper in Hx. cbn [fst] in Hx.
      rewrite field_names_new_base_blob in Hx.
      apply elem_of_union in Hx as [Hx|Hx]; [|done].
      apply elem_of_union_list. exists (declared_fields cls). split; [|done].
      apply list_elem_of_fmap. exists cls. split; [done|].
      apply list_elem_of_filter. split; [by rewrite Hent|apply lineage_self].
    - intros Hx. apply elem_of_union_list in Hx as (X & HX & Hx).
      apply list_elem_of_fmap in HX as (a & -> & Ha).
      apply list_elem_of_filter in Ha as [Hae Ha].
      destruct (build_lower cls Hcons cls (new_base_blob cls, ∅))
        as (H1 & _ & H3); [done| |].
      { intros ? ? ? Hin. cbn in Hin. set_solver. }
      unfold composed_blob. apply (H1 a Ha Hae); [|done]. by apply H3. }
  destruct (build_merge_order cls (new_base_blob cls) []) as (new & E1 & E2 & E3 & E4).
  simpl in E1.
  change (list_to_set (__name__ <$> [])) with (∅ : gset string) in E2.
  split; [done|]. split; [by rewrite Hfields|].
  split; [|split; [|split]].
  - unfold composed_blob. rewrite E2. cbn [fst]. by rewrite E1.
  - apply E3. constructor.
  - intros a Ha Hae.
    destruct (build_lower cls Hcons cls (new_base_blob cls, ∅))
      as (_ & _ & H3); [done| |].
    { intros ? ? ? Hin. cbn in Hin. set_solver. }
    specialize (H3 a Ha Hae).
    rewrite E2 in H3. cbn [snd] in H3. by apply elem_of_list_to_set in H3.
  - intros a Ha. rewrite E1 in Ha. by apply E4.
Qed.

(* ===================================================================== *)
(** ** Running the monad *)
(* ===================================================================== *)

Lemma bind_run {A B} (m : M A) (f : A -> M B) (w : World) :
  (m ≫= f) w = match m w with
               | Ret a w' => f a w'
               | Exc e w' => Exc e w'
               end.
Proof. reflexivity. Qed.

Lemma bind_Ret {A B} (m : M A) (f : A -> M B) (w w1 : World) (a : A) :
  m w = Ret a w1 -> (m ≫= f) w = f a w1.
Proof. intros H. by rewrite bind_run, H. Qed.

Lemma deref_live (r : nat) (e : Entity) (w : World) :
  heap w !! r = Some e -> deref r w = Ret e w.
Proof. intros H. unfold deref. by rewrite H. Qed.

Lemma key_of_live (r : nat) (e : Entity) (k : pyval) (w : World) :
  heap w !! r = Some e -> key e = inr k -> key_of r w = Ret k w.
Proof.
  intros H Hk. unfold key_of. rewrite bind_run, (deref_live r e) by done.
  by rewrite Hk.
Qed.

(** *** Objects in the heap *)

Lemma Entity_eq (e1 e2 : Entity) :
  __class__ e1 = __class__ e2 -> _base_blob e1 = _base_blob e2 ->
  _dirty e1 = _dirty e2 -> _savable e1 = _savable e2 -> _uid e1 = _uid e2 ->
  active e1 = active e2 -> flags e1 = flags e2 -> tags e1 = tags e2 ->
  __dict__ e1 = __dict__ e2 -> e1 = e2.
Proof. destruct e1, e2. cbn. by intros -> -> -> -> -> -> -> -> ->. Qed.

(** Reading a field through the setters, without unfolding anything else. *)
Ltac entity_fields :=
  cbn [__class__ _base_blob _dirty _savable _uid active flags tags __dict__
       set_base_blob set_dirty set_uid set_active set_flags set_tags set_dict
       deserialized blank_entity].

Lemma update_entity_run (r : nat) (f : Entity -> Entity) (e : Entity) (w : World) :
  heap w !! r = Some e ->
  update_entity r f w = Ret tt (put_entity r (f e) w).
Proof.
  intros He. unfold update_entity, modify, put_entity. do 2 f_equal.
  apply map_eq. intros i. destruct (decide (i = r)) as [->|Hne].
  - by rewrite lookup_alter_eq, lookup_insert_eq, He.
  - by rewrite lookup_alter_ne, lookup_insert_ne.
Qed.

Lemma heap_put_entity (r : nat) (e : Entity) (w : World) :
  heap (put_entity r e w) !! r = Some e.
Proof. apply lookup_insert_eq. Qed.

Lemma heap_put_entity_ne (r r' : nat) (e : Entity) (w : World) :
  r' <> r -> heap (put_entity r e w) !! r' = heap w !! r'.
Proof. intros. by apply lookup_insert_ne. Qed.

Lemma put_entity_twice (r : nat) (e1 e2 : Entity) (w : World) :
  put_entity r e2 (put_entity r e1 w) = put_entity r e2 w.
Proof. unfold put_entity. cbn. by rewrite insert_insert_eq. Qed.

Lemma dirty_run (r : nat) (e : Entity) (w : World) :
  heap w !! r = Some e -> dirty r w = Ret tt (put_entity r (set_dirty true e) w).
Proof. apply update_entity_run. Qed.

(** [Entity.deserialize] of a record whose flags are a tuple and whose tags
    are a mapping. *)
Lemma deserialize_run (w : World) (y : nat) (ey : Entity) (data : record)
    (fl : list atom) (tg : gmap string atom) :
  heap w !! y = Some ey ->
  data !! "flags" = Some (VTuple fl) ->
  data !! "tags" = Some (VDict tg) ->
  Entity_deserialize y data w = Ret tt (put_entity y (deserialized ey data fl tg) w).
Proof.
  intros Hy Hfl Htg. unfold Entity_deserialize.
  (* uid *)
  assert (match base.delete "type" data !! "uid" with
          | Some u => update_entity y (set_uid u)
          | None => mret tt
          end w
          = Ret tt (put_entity y (set_uid (default (_uid ey) (data !! "uid")) ey) w))
    as Huid.
  { rewrite lookup_delete_ne by done. destruct (data !! "uid") as [u|] eqn:Hu.
    - by rewrite (update_entity_run y _ ey).
    - change (@mret M _ _ tt w) with (Ret tt w). f_equal.
      unfold put_entity. destruct w; cbn in *. f_equal.
      rewrite insert_id; [done|]. rewrite Hy. by destruct ey. }
  rewrite (bind_Ret _ _ _ _ _ Huid). clear Huid. cbv beta zeta.
  (* flags *)
  repeat (rewrite lookup_delete_ne by done). rewrite Hfl.
  erewrite bind_Ret; cycle 1.
  { erewrite bind_Ret by reflexivity. unfold flags_add.
    erewrite bind_Ret by (apply update_entity_run, heap_put_entity).
    rewrite put_entity_twice.
    apply dirty_run, heap_put_entity. }
  rewrite put_entity_twice. cbv beta zeta.
  (* tags *)
  repeat (rewrite lookup_delete_ne by done). rewrite Htg.
  erewrite bind_Ret; cycle 1.
  { unfold tags_clear, tags_update.
    erewrite bind_Ret; cycle 1.
    { erewrite bind_Ret by (apply update_entity_run, heap_put_entity).
      rewrite put_entity_twice. apply dirty_run, heap_put_entity. }
    rewrite put_entity_twice.
    erewrite bind_Ret by (apply update_entity_run, heap_put_entity).
    rewrite put_entity_twice. apply dirty_run, heap_put_entity. }
  rewrite put_entity_twice. cbv beta zeta.
  (* the blob *)
  unfold _base_blob_deserialize.
  erewrite bind_Ret by (apply deref_live, heap_put_entity).
  erewrite bind_Ret by (apply update_entity_run, heap_put_entity).
  rewrite put_entity_twice.
  match goal with
  | |- (if ?d then _ else _) _ = _ => destruct d
  end.
  - change (@mret M _ _ tt ?w0) with (Ret tt w0). do 2 f_equal.
    apply Entity_eq; entity_fields; try reflexivity.
    apply (right_id_L ∅ (∪)).
  - erewrite dirty_run by apply heap_put_entity. rewrite put_entity_twice.
    do 2 f_equal.
    apply Entity_eq; entity_fields; try reflexivity.
    apply (right_id_L ∅ (∪)).
Qed.


(* ===================================================================== *)
(** ** Saving without a store (C4) *)
(* ===================================================================== *)

Lemma is_savable_no_store (e : Entity) :
  _store (__class__ e) = None -> is_savable e = false.
Proof. intros H. unfold is_savable. by rewrite H. Qed.

Lemma save_not_savable (w : World) (x : nat) (e : Entity) :
  heap w !! x = Some e ->
  is_savable e = false ->
  Entity_save x w =
    Ret tt (set_log (LogWarn "Tried to save non-savable entity" x :: log w) w).
Proof.
  intros Hx Hs. unfold Entity_save.
  rewrite bind_run, (deref_live x e) by done. by rewrite Hs.
Qed.

(** C4, as the code has it.  On an entity whose type has no durable store,
    [save] raises nothing: it returns normally, and of the whole process
    state only the log changes, by one warning. *)
Theorem save_without_store (w : World) (x : nat) (e : Entity) :
  heap w !! x = Some e ->
  _store (__class__ e) = None ->
  Entity_save x w =
    Ret tt (set_log (LogWarn "Tried to save non-savable entity" x :: log w) w).
Proof.
  intros Hx Hs. apply (save_not_savable w x e Hx).
  by apply is_savable_no_store.
Qed.

(* ===================================================================== *)
(** ** Eviction from a bounded cache (C7) *)
(* ===================================================================== *)

Lemma get_cache_run (cls : EntityClass) (kn : string) (w : World) :
  get_cache cls kn w = Ret (cache_of w cls kn) w.
Proof. reflexivity. Qed.

Lemma cache_of_modify (cls : EntityClass) (kn : string) (f : lrucache -> lrucache)
    (w : World) :
  cache_of (set_caches (alter (alter f kn) (__name__ (cls_def cls)) (_caches w)) w)
           cls kn
  = f <$> cache_of w cls kn.
Proof.
  unfold cache_of. cbn [_caches set_caches].
  rewrite lookup_alter_eq.
  destruct (_caches w !! __name__ (cls_def cls)) as [cs|]; cbn; [|done].
  rewrite lookup_alter_eq. by destruct (cs !! kn).
Qed.

Lemma removelast_last {A} (l : list A) (x : A) :
  last l = Some x -> l = (removelast l ++ [x])%list.
Proof.
  induction l as [|a l IH]; [done|]. intros Hl.
  destruct l as [|b l]; [by simplify_eq/=|].
  change (last (a :: b :: l)) with (last (b :: l)) in Hl.
  change (removelast (a :: b :: l)) with (a :: removelast (b :: l)).
  simpl. f_equal. by apply IH.
Qed.

(** C7.  When a new key is put into a full cache, the entry at the tail is
    evicted: [save] is called on its entity, then the entry is dropped and
    the new one installed.  When that entity is not savable the call only
    logs a warning, so the insertion returns normally, heap and stores are
    as before, and the evicted entry is no longer in the cache. *)
Theorem eviction_saves_then_drops
    (cls : EntityClass) (key_name : string) (k : pyval) (value : nat)
    (w : World) (c : lrucache) (old_key : pyval) (old_value : nat) :
  cache_of w cls key_name = Some c ->
  lru_contains k c = false ->
  (lru_size c <= lru_len c)%nat ->
  last (lru_items c) = Some (old_key, old_value) ->
  _cache_eject_callback old_key old_value = Entity_save old_value /\
  lru_setitem cls key_name k value w =
    (Entity_save old_value;;
     modify_cache cls key_name lru_drop_tail;;
     modify_cache cls key_name (lru_push k value)) w /\
  forall e, heap w !! old_value = Some e -> is_savable e = false ->
    exists w',
      lru_setitem cls key_name k value w = Ret tt w' /\
      log w' = LogWarn "Tried to save non-savable entity" old_value :: log w /\
      heap w' = heap w /\
      stores w' = stores w /\
      cache_of w' cls key_name =
        Some {| lru_size := lru_size c;
                lru_items := (k, value) :: removelast (lru_items c) |} /\
      (NoDup (lru_items c).*1 ->
       forall c', cache_of w' cls key_name = Some c' ->
         lru_contains old_key c' = false).
Proof.
  intros Hc Hk Hfull Hlast.
  assert (lru_setitem cls key_name k value w =
          (Entity_save old_value;;
           modify_cache cls key_name lru_drop_tail;;
           modify_cache cls key_name (lru_push k value)) w) as Hrun.
  { unfold lru_setitem. rewrite bind_run, get_cache_run, Hc, Hk.
    rewrite decide_True by done. rewrite Hlast.
    unfold _cache_eject_callback. rewrite !bind_run.
    destruct (Entity_save old_value w); [|done].
    rewrite !bind_run. by destruct (modify_cache cls key_name lru_drop_tail w0). }
  split; [done|]. split; [done|].
  intros e He Hs. rewrite Hrun.
  rewrite bind_run, (save_not_savable w old_value e He Hs).
  eexists. split; [reflexivity|].
  split; [done|]. split; [done|]. split; [done|].
  assert (forall w0 : World,
            cache_of w0 cls key_name = Some c ->
            cache_of
              (set_caches
                 (alter (alter (lru_push k value) key_name) (__name__ (cls_def cls))
                    (_caches
                       (set_caches
                          (alter (alter lru_drop_tail key_name)
                             (__name__ (cls_def cls)) (_caches w0)) w0)))
                 (set_caches
                    (alter (alter lru_drop_tail key_name)
                       (__name__ (cls_def cls)) (_caches w0)) w0))
              cls key_name
            = Some {| lru_size := lru_size c;
                      lru_items := (k, value) :: removelast (lru_items c) |}) as Hcache.
  { intros w0 Hw0. rewrite cache_of_modify, cache_of_modify, Hw0. done. }
  split.
  - apply Hcache. done.
  - intros Hnd c'. rewrite Hcache by done. intros [= <-].
    unfold lru_contains in *. apply bool_decide_eq_false. cbn [lru_items].
    apply bool_decide_eq_false in Hk.
    rewrite (removelast_last _ _ Hlast) in Hnd, Hk.
    rewrite fmap_app in Hnd, Hk. simpl in Hnd, Hk.
    apply NoDup_app in Hnd as (_ & Hdis & _).
    rewrite fmap_cons. cbn [fst]. intros Hin.
    apply elem_of_cons in Hin as [->|Hin].
    + apply Hk. apply elem_of_app. right. left.
    + apply (Hdis old_key Hin). left.
Qed.

(* ===================================================================== *)
(** ** Reverting (C6) *)
(* ===================================================================== *)

Lemma store_get_run (st : nat) (k : pyval) (w : World) :
  store_get st k w =
    match store_contents w st !! k with
    | Some data => Ret data w
    | None => Exc (KeyError "no such key in store") w
    end.
Proof. reflexivity. Qed.

(** C6.  [revert] raises a [TypeError] when no store is configured and a
    [ValueError] when the record stored under the entity's key carries
    another uid; in both cases the process state, and with it the entity's
    attributes, flags, tags and dirty flag, is exactly as before.  When the
    uids agree, [revert] is the deserialisation of the stored record over the
    instance followed by clearing the dirty flag: if the deserialisation
    returns, [revert] returns and the entity is clean; for a record with a
    tuple of flags and a mapping of tags, as [save] writes them, it does
    return, and the entity is the deserialised one, clean. *)
Theorem revert_cases (w : World) (x : nat) (e : Entity) :
  heap w !! x = Some e ->
  (_store (__class__ e) = None ->
   Entity_revert x w = Exc (TypeError "cannot revert entity with no store") w) /\
  (forall st k data stored_uid,
     _store (__class__ e) = Some st ->
     key e = inr k ->
     store_contents w st !! k = Some data ->
     data !! "uid" = Some stored_uid ->
     (stored_uid <> _uid e ->
      Entity_revert x w = Exc (ValueError "uid mismatch trying to revert") w) /\
     (stored_uid = _uid e ->
      Entity_revert x w =
        (Entity_deserialize x data;; update_entity x (set_dirty false)) w /\
      forall w1, Entity_deserialize x data w = Ret tt w1 ->
        exists w',
          Entity_revert x w = Ret tt w' /\
          heap w' = alter (set_dirty false) x (heap w1) /\
          stores w' = stores w1 /\
          forall e1, heap w1 !! x = Some e1 ->
            heap w' !! x = Some (set_dirty false e1)) /\
     (stored_uid = _uid e ->
      forall fl tg,
        data !! "flags" = Some (VTuple fl) ->
        data !! "tags" = Some (VDict tg) ->
        Entity_revert x w =
          Ret tt (put_entity x (set_dirty false (deserialized e data fl tg)) w))).
Proof.
  intros Hx. split.
  - intros Hs. unfold Entity_revert.
    rewrite bind_run, (deref_live x e) by done. by rewrite Hs.
  - intros st k data u Hs Hk Hdata Hu.
    assert (Entity_revert x w =
            if decide (_uid e ≠ u) then
              Exc (ValueError "uid mismatch trying to revert") w
            else (Entity_deserialize x data;; update_entity x (set_dirty false)) w)
      as Hrun.
    { unfold Entity_revert.
      rewrite bind_run, (deref_live x e) by done. rewrite Hs.
      rewrite bind_run, (key_of_live x e k) by done.
      rewrite bind_run, store_get_run, Hdata.
      rewrite bind_run. unfold dict_getitem. rewrite Hu.
      change (@mret M _ _ u w) with (Ret u w). cbv beta iota.
      by destruct (decide (_uid e ≠ u)). }
    split; [|split].
    + intros Hne. rewrite Hrun. by rewrite decide_True.
    + intros ->. rewrite Hrun. rewrite decide_False by (by intros ?).
      split; [done|].
      intros w1 Hd. rewrite bind_run, Hd.
      eexists. split; [reflexivity|]. split; [done|]. split; [done|].
      intros e1 He1. cbn [heap set_heap].
      by rewrite lookup_alter_eq, He1.
    + intros -> fl tg Hfl Htg. rewrite Hrun.
      rewrite decide_False by (by intros ?).
      erewrite bind_Ret by (by apply deserialize_run).
      erewrite update_entity_run by apply heap_put_entity.
      by rewrite put_entity_twice.
Qed.

(* ===================================================================== *)
(** ** Deleting, then asking whether the key exists (C3) *)
(* ===================================================================== *)

Lemma store_has_run (st : nat) (k : pyval) (w : World) :
  store_has st k w = Ret (bool_decide (is_Some (store_contents w st !! k))) w.
Proof. reflexivity. Qed.

Lemma store_contents_delete (st : nat) (k : pyval) (w : World) :
  store_contents
    (set_stores (<[st := base.delete k (store_contents w st)]> (stores w)) w) st
  = base.delete k (store_contents w st).
Proof. unfold store_contents at 1. cbn [stores set_stores]. by rewrite lookup_insert_eq. Qed.

Lemma lru_contains_without (k : pyval) (c : lrucache) :
  lru_contains k (lru_without k c) = false.
Proof.
  unfold lru_contains, lru_without. cbn [lru_items].
  apply bool_decide_eq_false. intros Hin.
  apply list_elem_of_fmap in Hin as ([k' v] & -> & Hin).
  apply list_elem_of_filter in Hin as [Hne _]. by apply Hne.
Qed.

Lemma lru_contains_empty (k : pyval) (c : lrucache) :
  lru_len c = 0%nat -> lru_contains k c = false.
Proof.
  unfold lru_len, lru_contains. intros Hlen.
  apply nil_length_inv in Hlen. rewrite Hlen.
  apply bool_decide_eq_false. cbn. apply not_elem_of_nil.
Qed.

Lemma instances_live_elem (w : World) (cls : EntityClass) (u : pyval)
    (r : nat) (e : Entity) :
  (u, r) ∈ instances_entries w cls -> heap w !! r = Some e ->
  (u, (r, e)) ∈ instances_live w cls.
Proof.
  intros Hin He. unfold instances_live.
  apply list_elem_of_omap. exists (u, r). split; [done|].
  cbn. by rewrite He.
Qed.

Lemma exists_scan_true (ents : list (nat * Entity)) (k : pyval) (x : nat)
    (e : Entity) :
  (x, e) ∈ ents -> key e = inr k ->
  (forall r e', (r, e') ∈ ents -> exists k', key e' = inr k') ->
  exists_scan ents k = inr true.
Proof.
  intros Hin Hk Hall. induction ents as [|[r e'] ents IH]; [by apply elem_of_nil in Hin|].
  cbn [exists_scan].
  destruct (Hall r e') as [k' Hk']; [left|]. rewrite Hk'.
  destruct (decide (k' = k)); [done|].
  apply elem_of_cons in Hin as [Heq|Hin].
  - congruence.
  - apply IH; [done|]. intros r0 e0 H0. apply (Hall r0 e0). by right.
Qed.

Lemma exists_scan_false (ents : list (nat * Entity)) (k : pyval) :
  (forall r e', (r, e') ∈ ents -> exists k', key e' = inr k' /\ k' <> k) ->
  exists_scan ents k = inr false.
Proof.
  intros Hall. induction ents as [|[r e'] ents IH]; [done|].
  cbn [exists_scan].
  destruct (Hall r e') as (k' & Hk' & Hne); [left|]. rewrite Hk'.
  rewrite decide_False by done.
  apply IH. intros r0 e0 H0. apply (Hall r0 e0). by right.
Qed.

(** What [delete] does to the process. *)
Lemma delete_run (w : World) (x : nat) (e : Entity) (k : pyval) :
  heap w !! x = Some e ->
  key e = inr k ->
  exists w',
    Entity_delete x w = Ret tt w' /\
    heap w' = heap w /\
    _instances w' = _instances w /\
    (forall st, _store (__class__ e) = Some st ->
       store_contents w' st !! k = None) /\
    (forall c, cache_of w' (__class__ e) (get_key_name (__class__ e)) = Some c ->
       lru_contains k c = false).
Proof.
  intros Hx Hk. unfold Entity_delete.
  rewrite bind_run, (deref_live x e) by done.
  rewrite bind_run, get_cache_run.
  set (cls := __class__ e). set (kn := get_key_name cls).
  (* the cache part *)
  assert (exists w1,
    match cache_of w cls kn with
    | Some c =>
        if bool_decide (lru_len c ≠ 0%nat)
        then k ← key_of x;
             (if lru_contains k c
              then k0 ← key_of x; lru_delitem cls kn k0
              else mret tt)
        else mret tt
    | None => mret tt
    end w = Ret tt w1 /\
    heap w1 = heap w /\ _instances w1 = _instances w /\ stores w1 = stores w /\
    (forall c, cache_of w1 cls kn = Some c -> lru_contains k c = false))
    as (w1 & Hrun1 & Hh1 & Hi1 & Hs1 & Hc1).
  { destruct (cache_of w cls kn) as [c|] eqn:Hc.
    - case_bool_decide as Hlen.
      + rewrite bind_run, (key_of_live x e k) by done.
        destruct (lru_contains k c) eqn:Hin.
        * rewrite bind_run, (key_of_live x e k) by done.
          eexists. split; [reflexivity|]. repeat split; try done.
          intros c'. rewrite cache_of_modify, Hc. intros [= <-].
          apply lru_contains_without.
        * exists w. repeat split; try done. intros c'. rewrite Hc. by intros [= <-].
      + exists w. repeat split; try done. intros c'. rewrite Hc. intros [= <-].
        apply lru_contains_empty. lia.
    - exists w. repeat split; try done. intros c'. by rewrite Hc. }
  rewrite bind_run, Hrun1.
  assert (heap w1 !! x = Some e) as Hx1 by (by rewrite Hh1).
  destruct (_store cls) as [st|] eqn:Hst.
  - rewrite bind_run, (key_of_live x e k) by done.
    rewrite bind_run, store_has_run.
    case_bool_decide as Hhas.
    + rewrite bind_run, (key_of_live x e k) by done.
      eexists. split; [reflexivity|]. cbn [heap _instances set_stores].
      split; [done|]. split; [done|]. split.
      * intros st' [= <-]. rewrite store_contents_delete. apply lookup_delete_eq.
      * intros c Hc. apply Hc1. by rewrite <- Hc.
    + exists w1. split; [done|]. split; [done|]. split; [done|]. split; [|done].
      intros st' [= <-]. by apply eq_None_not_Some.
  - exists w1. split; [done|]. split; [done|]. split; [done|]. split; [|done].
    intros st' [=].
Qed.

(** What [exists] answers when the store has no record under the key. *)
Lemma exists_run_not_stored (w : World) (cls : EntityClass) (k : pyval) :
  (forall st, _store cls = Some st -> store_contents w st !! k = None) ->
  Entity_exists cls k w =
    if decide (get_key_name cls = "uid") then
      Ret (instances_contains w cls k) w
    else lift (exists_scan (instances_values w cls) k) w.
Proof.
  intros Hst. unfold Entity_exists. rewrite bind_run.
  assert (match _store cls with
          | Some st => store_has st k
          | None => mret false
          end w = Ret false w) as ->.
  { destruct (_store cls) as [st|]; [|done].
    rewrite store_has_run, (Hst st) by done.
    rewrite bool_decide_eq_false_2; [done|]. by intros [? [=]]. }
  rewrite bind_run. change (get_world w) with (Ret w w). cbv beta iota.
  destruct (decide (get_key_name cls = "uid")); [|done].
  by destruct (instances_contains w cls k).
Qed.

(** C3, as the code has it.  After [x.delete()] the record under [x.key]
    is gone from the durable store and the key is gone from the key cache,
    but the instance registry is untouched: [exists(x.key)] still answers
    [True] while [x] is registered, and answers [False] only when no
    registered live instance carries that key. *)
Theorem delete_then_exists (w : World) (x : nat) (e : Entity) (k : pyval) :
  heap w !! x = Some e ->
  key e = inr k ->
  (forall r e', (r, e') ∈ instances_values w (__class__ e) ->
     exists k', key e' = inr k') ->
  exists w',
    Entity_delete x w = Ret tt w' /\
    heap w' = heap w /\
    _instances w' = _instances w /\
    (forall st, _store (__class__ e) = Some st ->
       store_contents w' st !! k = None) /\
    (forall c, cache_of w' (__class__ e) (get_key_name (__class__ e)) = Some c ->
       lru_contains k c = false) /\
    ((_uid e, x) ∈ instances_entries w (__class__ e) ->
     Entity_exists (__class__ e) k w' = Ret true w') /\
    ((forall u r e', (u, (r, e')) ∈ instances_live w (__class__ e) ->
        u <> k /\ key e' <> inr k) ->
     Entity_exists (__class__ e) k w' = Ret false w').
Proof.
  intros Hx Hk Hkeys.
  destruct (delete_run w x e k Hx Hk) as (w' & Hrun & Hh & Hi & Hs & Hc).
  exists w'. split; [done|]. split; [done|]. split; [done|].
  split; [done|]. split; [done|].
  assert (instances_live w' (__class__ e) = instances_live w (__class__ e)) as Hlive.
  { unfold instances_live, instances_entries. by rewrite Hh, Hi. }
  assert (instances_values w' (__class__ e) = instances_values w (__class__ e)) as Hvals.
  { unfold instances_values. by rewrite Hlive. }
  split.
  - intros Hreg. rewrite exists_run_not_stored by done.
    pose proof (instances_live_elem w (__class__ e) (_uid e) x e Hreg Hx) as Hin.
    destruct (decide (get_key_name (__class__ e) = "uid")) as [Huid|Hnuid].
    + assert (k = _uid e) as ->.
      { unfold key, get_key_name in *. rewrite Huid in Hk.
        change (getattr_nokey e "uid") with (@inr exn _ (_uid e)) in Hk.
        by simplify_eq. }
      f_equal. unfold instances_contains. rewrite Hlive.
      apply bool_decide_eq_true. apply list_elem_of_fmap.
      by exists (_uid e, (x, e)).
    + rewrite Hvals.
      rewrite (exists_scan_true _ k x e); [done| |done|done].
      unfold instances_values. apply list_elem_of_fmap.
      by exists (_uid e, (x, e)).
  - intros Hnone. rewrite exists_run_not_stored by done.
    destruct (decide (get_key_name (__class__ e) = "uid")) as [Huid|Hnuid].
    + f_equal. unfold instances_contains. rewrite Hlive.
      apply bool_decide_eq_false. intros Hin.
      apply list_elem_of_fmap in Hin as ([u [r e']] & -> & Hin).
      by destruct (Hnone u r e' Hin).
    + rewrite Hvals. rewrite exists_scan_false; [done|].
      intros r e' Hin. destruct (Hkeys r e' Hin) as [k' Hk'].
      exists k'. split; [done|]. intros ->.
      unfold instances_values in Hin.
      apply list_elem_of_fmap in Hin as ([u [r0 e0]] & [= -> ->] & Hin).
      by destruct (Hnone u r0 e0 Hin).
Qed.

(* ===================================================================== *)
(** ** Finding entities (C8, C10) *)
(* ===================================================================== *)

Lemma find_run (cls : EntityClass) (args : list pyval) (cache store : bool)
    (m : match_fn) (n : Z) (w : World) (pairs : list (pyval * pyval))
    (found : list nat) (checked : list pyval) :
  unpack_pairs args = inr pairs ->
  find_cache_phase w cls pairs cache m n = inr (found, checked) ->
  Entity_find cls args cache store m n w =
    if store && (Z.eqb n 0 || Z.ltb (Z.of_nat (length found)) n) then
      match _store cls with
      | None =>
          Exc (AttributeError "'NoneType' object has no attribute 'keys'") w
      | Some st =>
          match find_in_store st (map_to_list (store_contents w st)).*1
                  pairs m n found checked w with
          | Ret found' w' => Ret (find_return n found') w'
          | Exc err w' => Exc err w'
          end
      end
    else Ret (find_return n found) w.
Proof.
  intros Hp Hc. unfold Entity_find, find_cache_phase in *.
  rewrite bind_run, Hp. change (lift (inr pairs) w) with (Ret pairs w). cbv beta iota.
  rewrite bind_run. change (get_world w) with (Ret w w). cbv beta iota.
  rewrite bind_run.
  assert ((if cache
           then lift (find_in_cache (instances_values w cls) pairs m n [] [])
           else mret ([], [])) w = Ret (found, checked) w) as ->.
  { destruct cache; [by rewrite Hc|by simplify_eq]. }
  cbv beta iota. rewrite bind_run.
  destruct (store && (Z.eqb n 0 || Z.ltb (Z.of_nat (length found)) n)).
  - destruct (_store cls) as [st|]; [|done].
    rewrite bind_run. change (store_keys st w) with
      (Ret ((map_to_list (store_contents w st)).*1) w). cbv beta iota.
    destruct (find_in_store _ _ _ _ _ _ _ w); [|done].
    unfold find_return. by destruct (decide (n = 1)).
  - change (@mret M _ _ found w) with (Ret found w). cbv beta iota.
    unfold find_return. by destruct (decide (n = 1)).
Qed.

(** C10, as the code has it.  On a type with no durable store, [find] with
    [store=True] raises the [AttributeError] of dereferencing the absent
    store exactly when its store scan is reached: when [n] is 0, or the scan
    of the instance registry found fewer than [n] matches.  When that scan
    already found [n] matches the store is never touched and the matches
    found in memory are returned. *)
Theorem find_without_store
    (cls : EntityClass) (args : list pyval) (cache : bool) (m : match_fn)
    (n : Z) (w : World) (pairs : list (pyval * pyval))
    (found : list nat) (checked : list pyval) :
  _store cls = None ->
  unpack_pairs args = inr pairs ->
  find_cache_phase w cls pairs cache m n = inr (found, checked) ->
  (n = 0 \/ Z.of_nat (length found) < n ->
   Entity_find cls args cache true m n w =
     Exc (AttributeError "'NoneType' object has no attribute 'keys'") w) /\
  (n <> 0 -> n <= Z.of_nat (length found) ->
   Entity_find cls args cache true m n w = Ret (find_return n found) w).
Proof.
  intros Hs Hp Hc. rewrite (find_run cls args cache true m n w pairs found checked Hp Hc).
  rewrite Hs. cbn [andb]. split.
  - intros Hn.
    assert (Z.eqb n 0 || Z.ltb (Z.of_nat (length found)) n = true) as ->; [|done].
    apply orb_true_iff. destruct Hn as [->|Hn]; [by left|right; lia].
  - intros Hn0 Hn.
    assert (Z.eqb n 0 || Z.ltb (Z.of_nat (length found)) n = false) as ->; [|done].
    apply orb_false_iff. split; lia.
Qed.







Lemma except_KeyError_store_get (st : nat) (k : pyval) (w : World) :
  except_KeyError (d ← store_get st k; mret (Some d)) (mret None) w
  = Ret (store_contents w st !! k) w.
Proof.
  unfold except_KeyError. rewrite bind_run. unfold store_get.
  by destruct (store_contents w st !! k).
Qed.



(* ===================================================================== *)
(** ** Serialising and deserialising *)
(* ===================================================================== *)


Lemma serialize_lookup_flags (e : Entity) :
  Entity_serialize e !! "flags" = Some (VTuple (elements (flags e))).
Proof.
  unfold Entity_serialize. cbv zeta.
  rewrite !lookup_insert_ne by done. by rewrite lookup_insert_eq.
Qed.

Lemma serialize_lookup_tags (e : Entity) :
  Entity_serialize e !! "tags" = Some (VDict (tags e)).
Proof. unfold Entity_serialize. cbv zeta. by rewrite lookup_insert_eq. Qed.







(* ===================================================================== *)
(** ** Construction *)
(* ===================================================================== *)

Lemma same_but_refl (r0 : nat) (w : World) : same_but r0 w w.
Proof. by repeat split. Qed.

Lemma same_but_trans (r0 : nat) (w1 w2 w3 : World) :
  same_but r0 w1 w2 -> same_but r0 w2 w3 -> same_but r0 w1 w3.
Proof.
  intros (H1 & H2 & H3 & H4 & H5 & H6) (G1 & G2 & G3 & G4 & G5 & G6).
  split; [|by rewrite G2, G3, G4, G5, G6].
  intros r Hr. by rewrite G1, H1.
Qed.

Lemma same_but_bind {A B} (r0 : nat) (m : M A) (f : A -> M B) (w : World) :
  same_but r0 w (final_world (m w)) ->
  (forall a w1, m w = Ret a w1 -> same_but r0 w1 (final_world (f a w1))) ->
  same_but r0 w (final_world ((m ≫= f) w)).
Proof.
  intros Hm Hf. rewrite bind_run. destruct (m w) as [a w1|err w1] eqn:Hrun.
  - apply (same_but_trans r0 w w1); [done|]. by apply Hf.
  - done.
Qed.

Lemma same_but_update (r0 : nat) (f : Entity -> Entity) (w : World) :
  same_but r0 w (final_world (update_entity r0 f w)).
Proof.
  split; [|done]. intros r Hr. cbn. by rewrite lookup_alter_ne.
Qed.

(** [save] touches the saved object, the stores and the log, nothing
    else. *)
Lemma save_frame (r0 : nat) (w : World) :
  same_but r0 w (final_world (Entity_save r0 w)).
Proof.
  unfold Entity_save.
  apply same_but_bind; [unfold deref; destruct (heap w !! r0); apply same_but_refl|].
  intros e w1 _. destruct (negb (is_savable e)); [by split|].
  apply same_but_bind.
  { unfold the_store. destruct (_store (__class__ e)); apply same_but_refl. }
  intros st w2 _. apply same_but_bind.
  { destruct (tags e !! "_old_key") as [old_key|]; [|apply same_but_refl].
    apply same_but_bind; [apply same_but_refl|].
    intros has_old w3 _. apply same_but_bind.
    { destruct has_old; [|apply same_but_refl]. by split. }
    intros _ w4 _. unfold tags_delitem.
    apply same_but_bind; [apply same_but_update|].
    intros _ w5 _. apply same_but_update. }
  intros _ w3 _. apply same_but_bind.
  { unfold deref; destruct (heap w3 !! r0); apply same_but_refl. }
  intros e' w4 _. apply same_but_bind.
  { unfold key_of. apply same_but_bind.
    - unfold deref; destruct (heap w4 !! r0); apply same_but_refl.
    - intros e'' w5 _. destruct (key e''); apply same_but_refl. }
  intros k w5 _. apply same_but_bind; [by split|].
  intros _ w6 _. apply same_but_update.
Qed.

Lemma make_uid_run (cls : EntityClass) (w : World) :
  Entity_make_uid cls w =
    Ret (VStr (make_uid (_uid_code cls) (TIMERS_time w) (__uid_timecode w)).1)
        (set_uid_timecode
           (make_uid (_uid_code cls) (TIMERS_time w) (__uid_timecode w)).2 w).
Proof. reflexivity. Qed.

Lemma alloc_run (e : Entity) (w : World) :
  alloc e w = Ret (fresh (dom (heap w))) (put_entity (fresh (dom (heap w))) e w).
Proof. reflexivity. Qed.

Lemma fresh_not_live (w : World) : heap w !! fresh (dom (heap w)) = None.
Proof. apply not_elem_of_dom, is_fresh. Qed.

Lemma put_entity_set_uid_timecode (r : nat) (e1 e2 : Entity) (tc : Z) (w : World) :
  put_entity r e2 (set_uid_timecode tc (put_entity r e1 w))
  = put_entity r e2 (set_uid_timecode tc w).
Proof. unfold put_entity. cbn. by rewrite insert_insert_eq. Qed.

Lemma lru_setitem_room (cls : EntityClass) (kn : string) (k : pyval) (v : nat)
    (w : World) (c : lrucache) :
  cache_of w cls kn = Some c ->
  lru_contains k c = false ->
  (lru_len c < lru_size c)%nat ->
  lru_setitem cls kn k v w =
    Ret tt (set_caches (alter (alter (lru_push k v) kn)
                              (__name__ (cls_def cls)) (_caches w)) w).
Proof.
  intros Hc Hk Hroom. unfold lru_setitem.
  erewrite bind_Ret by apply get_cache_run. rewrite Hc, Hk.
  rewrite decide_False by lia. reflexivity.
Qed.

(** [Entity.__init__] on a record without uid, with flags and tags, when
    the key of the new entity is readable and nothing is evicted. *)
Lemma init_run (cls : EntityClass) (data : record) (a : pyval) (s : bool)
    (w : World) (fl : list atom) (tg : gmap string atom) (k : pyval) :
  let r := fresh (dom (heap w)) in
  let u := make_uid (_uid_code cls) (TIMERS_time w) (__uid_timecode w) in
  let e := set_uid (VStr u.1) (deserialized (blank_entity cls a s) data fl tg) in
  data !! "uid" = None ->
  data !! "flags" = Some (VTuple fl) ->
  data !! "tags" = Some (VDict tg) ->
  key e = inr k ->
  no_eviction w cls k ->
  Entity__init__ cls (Some data) a s w = Ret r (constructed cls r e u.2 k w).
Proof.
  intros r u e Hu Hfl Htg Hk Hroom. unfold Entity__init__.
  erewrite bind_Ret by apply alloc_run. fold r. fold (blank_entity cls a s).
  erewrite bind_Ret by (apply deserialize_run; [apply heap_put_entity|done..]).
  rewrite put_entity_twice.
  erewrite bind_Ret by (apply deref_live, heap_put_entity).
  erewrite bind_Ret; cycle 1.
  { rewrite decide_True by (cbn; by rewrite Hu).
    erewrite bind_Ret by apply make_uid_run.
    apply update_entity_run. cbn [heap set_uid_timecode]. apply heap_put_entity. }
  cbn [TIMERS_time __uid_timecode put_entity set_heap].
  fold u. fold (put_entity r (deserialized (blank_entity cls a s) data fl tg) w).
  rewrite put_entity_set_uid_timecode. fold e.
  erewrite bind_Ret by (apply deref_live, heap_put_entity).
  erewrite bind_Ret by reflexivity.
  erewrite bind_Ret by apply get_cache_run.
  unfold constructed. cbv zeta.
  set (w2 := set_instances _ _).
  assert (heap w2 !! r = Some e) as Hr by apply heap_put_entity.
  assert (cache_of w2 cls (get_key_name cls) = cache_of w cls (get_key_name cls))
    as Hcache by reflexivity.
  unfold no_eviction in Hroom. rewrite <- Hcache in Hroom.
  destruct (cache_of w2 cls (get_key_name cls)) as [c|] eqn:Hc.
  - erewrite bind_Ret; [reflexivity|].
    erewrite bind_Ret by (by apply (key_of_live r e k)).
    destruct (lru_contains k c) eqn:Hin; [reflexivity|].
    cbn [negb]. apply (lru_setitem_room cls _ k r w2 c); [done|done|].
    by destruct Hroom.
  - by erewrite bind_Ret.
Qed.

Lemma heap_constructed (cls : EntityClass) (r : nat) (e : Entity) (tc : Z)
    (k : pyval) (w : World) :
  heap (constructed cls r e tc k w) = <[r := e]> (heap w).
Proof.
  unfold constructed. cbv zeta.
  destruct (cache_of _ cls (get_key_name cls)) as [c|]; [|done].
  by destruct (lru_contains k c).
Qed.

Lemma stores_constructed (cls : EntityClass) (r : nat) (e : Entity) (tc : Z)
    (k : pyval) (w : World) :
  stores (constructed cls r e tc k w) = stores w.
Proof.
  unfold constructed. cbv zeta.
  destruct (cache_of _ cls (get_key_name cls)) as [c|]; [|done].
  by destruct (lru_contains k c).
Qed.

Lemma odict_set_elem {V} (k : pyval) (v : V) (d : list (pyval * V)) :
  (k, v) ∈ odict_set k v d.
Proof.
  induction d as [|[k' v'] d IH]; cbn; [left|].
  case_decide; [left|by right].
Qed.

Lemma instances_constructed (cls : EntityClass) (r : nat) (e : Entity)
    (tc : Z) (k : pyval) (w : World) :
  instances_entries (constructed cls r e tc k w) cls
  = odict_set (_uid e) r (instances_entries w cls).
Proof.
  unfold constructed. cbv zeta.
  assert (forall w0 : World,
            _instances w0 =
              <[__name__ (cls_def cls) := odict_set (_uid e) r (instances_entries w cls)]>
                (_instances w) ->
            instances_entries w0 cls = odict_set (_uid e) r (instances_entries w cls))
    as Hgen.
  { intros w0 Hw0. unfold instances_entries at 1. by rewrite Hw0, lookup_insert_eq. }
  destruct (cache_of _ cls (get_key_name cls)) as [c|]; [|by apply Hgen].
  destruct (lru_contains k c); by apply Hgen.
Qed.







(** Putting an entry into a cache changes, besides the cache, only what
    saving the evicted entity changes. *)
Lemma lru_setitem_frame (cls : EntityClass) (kn : string) (k : pyval)
    (v : nat) (w w' : World) :
  lru_setitem cls kn k v w = Ret tt w' ->
  (forall r,
     (forall c k0, cache_of w cls kn = Some c ->
                   last (lru_items c) <> Some (k0, r)) ->
     heap w' !! r = heap w !! r) /\
  _instances w' = _instances w.
Proof.
  unfold lru_setitem. rewrite bind_run, get_cache_run.
  destruct (cache_of w cls kn) as [c|] eqn:Hc; [|done].
  destruct (lru_contains k c).
  { intros [= <-]. done. }
  rewrite bind_run.
  destruct (decide (lru_size c <= lru_len c)%nat) as [Hfull|Hroom].
  - destruct (last (lru_items c)) as [[k0 r0]|] eqn:Hlast.
    + unfold _cache_eject_callback. rewrite bind_run.
      pose proof (save_frame r0 w) as (Hh & Hi & _).
      destruct (Entity_save r0 w) as [[] w1|]; [|done].
      cbn [final_world] in *. intros [= <-]. split; [|done].
      intros r Hr. cbn [heap set_caches]. apply Hh.
      intros ->. by apply (Hr c k0).
    + intros [= <-]. done.
  - intros [= <-]. done.
Qed.









(* ===================================================================== *)
(** ** The round trip (C2) *)
(* ===================================================================== *)


(* ===================================================================== *)
(** ** Cloning (C5) *)
(* ===================================================================== *)


(* ===================================================================== *)
(** ** Saving to the store *)
(* ===================================================================== *)

Lemma World_eq (w1 w2 : World) :
  TIMERS_time w1 = TIMERS_time w2 -> __uid_timecode w1 = __uid_timecode w2 ->
  heap w1 = heap w2 -> _instances w1 = _instances w2 ->
  _caches w1 = _caches w2 -> stores w1 = stores w2 ->
  ENTITIES w1 = ENTITIES w2 -> log w1 = log w2 -> w1 = w2.
Proof. destruct w1, w2. cbn. by intros -> -> -> -> -> -> -> ->. Qed.

(** Reading a component of the state through the setters. *)
Ltac world_fields :=
  cbn [TIMERS_time __uid_timecode heap _instances _caches stores ENTITIES log
       set_uid_timecode set_heap set_instances set_caches set_stores set_log
       put_entity].

Lemma put_entity_id (r : nat) (e : Entity) (w : World) :
  heap w !! r = Some e -> put_entity r e w = w.
Proof.
  intros H. apply World_eq; world_fields; try reflexivity.
  by apply insert_id.
Qed.

(** The key does not depend on the tags, nor on the dirty mark unless the
    class is keyed by [is_dirty]. *)
Lemma key_set_dirty_tags (e : Entity) (d : bool) (t : gmap string atom) :
  _store_key (__class__ e) <> "is_dirty" ->
  key (set_dirty d (set_tags t e)) = key e.
Proof.
  intros Hk. unfold key, getattr_nokey. entity_fields.
  case_decide; [done|]. by case_decide.
Qed.

Lemma serialize_set_dirty (e : Entity) (d : bool) :
  Entity_serialize (set_dirty d e) = Entity_serialize e.
Proof. reflexivity. Qed.

Lemma store_put_run (st : nat) (k : pyval) (data : record) (w : World) :
  store_put st k data w =
    Ret tt (set_stores (<[st := <[k := data]> (store_contents w st)]> (stores w)) w).
Proof. reflexivity. Qed.

Lemma store_contents_set_stores (st : nat) (c : gmap pyval record) (w : World) :
  store_contents (set_stores (<[st := c]> (stores w)) w) st = c.
Proof. unfold store_contents. world_fields. by rewrite lookup_insert_eq. Qed.

Lemma store_contents_put_entity (r : nat) (e : Entity) (w : World) (st : nat) :
  store_contents (put_entity r e w) st = store_contents w st.
Proof. reflexivity. Qed.

(** An absent store reads as an empty one, and is created by the first
    write. *)
Lemma store_put_after_delete (st : nat) (k k0 : pyval) (data : record)
    (w : World) (b : bool) :
  b = bool_decide (is_Some (store_contents w st !! k0)) ->
  <[st := <[k := data]>
            (store_contents
               (if b then set_stores (<[st := base.delete k0 (store_contents w st)]>
                                        (stores w)) w
                else w) st)]>
    (stores (if b then set_stores (<[st := base.delete k0 (store_contents w st)]>
                                     (stores w)) w
             else w))
  = <[st := <[k := data]> (base.delete k0 (store_contents w st))]> (stores w).
Proof.
  intros ->. case_bool_decide as Hhas.
  - rewrite store_contents_set_stores. world_fields. by rewrite insert_insert_eq.
  - rewrite delete_id; [done|].
    destruct (store_contents w st !! k0) eqn:E; [|done].
    exfalso. apply Hhas. by eexists.
Qed.

(** [save] on a savable entity whose key can be read. *)
Lemma save_run (w : World) (x : nat) (e : Entity) (st : nat) (k : pyval) :
  heap w !! x = Some e ->
  _store (__class__ e) = Some st ->
  _savable e = true ->
  _store_key (__class__ e) <> "is_dirty" ->
  key e = inr k ->
  Entity_save x w =
    Ret tt (put_entity x (saved e)
              (set_stores (<[st := saved_store e k (store_contents w st)]>
                             (stores w)) w)).
Proof.
  intros Hx Hst Hsav Hkn Hk. unfold Entity_save.
  erewrite bind_Ret by (by apply deref_live).
  assert (is_savable e = true) as ->.
  { unfold is_savable. rewrite Hst, Hsav. by rewrite bool_decide_true. }
  cbn [negb]. unfold the_store at 1. rewrite Hst.
  erewrite bind_Ret by reflexivity.
  unfold saved_store, saved.
  destruct (tags e !! "_old_key") as [old_key|] eqn:Hold.
  - (* the key has changed *)
    set (e1 := set_dirty true (set_tags (base.delete "_old_key" (tags e)) e)).
    set (b := bool_decide (is_Some (store_contents w st !! VAtom old_key))).
    set (w1 := if b then set_stores (<[st := base.delete (VAtom old_key)
                                              (store_contents w st)]> (stores w)) w
               else w).
    assert (heap w1 !! x = Some e) as Hx1 by (unfold w1; by destruct b).
    erewrite bind_Ret; cycle 1.
    { erewrite bind_Ret by apply store_has_run. fold b.
      erewrite (bind_Ret _ _ w w1 tt) by (unfold w1; by destruct b).
      unfold tags_delitem.
      erewrite bind_Ret by (by apply update_entity_run).
      erewrite dirty_run by apply heap_put_entity.
      by rewrite put_entity_twice. }
    fold e1.
    erewrite bind_Ret by (apply deref_live, heap_put_entity).
    erewrite bind_Ret; cycle 1.
    { apply (key_of_live x e1); [apply heap_put_entity|].
      unfold e1. by rewrite key_set_dirty_tags. }
    erewrite bind_Ret by apply store_put_run.
    erewrite update_entity_run by apply heap_put_entity.
    f_equal. apply World_eq; world_fields; try reflexivity;
      try (unfold w1; by destruct b).
    + rewrite insert_insert_eq. unfold w1. by destruct b.
    + rewrite store_contents_put_entity.
      unfold w1. by rewrite (store_put_after_delete st k (VAtom old_key) _ w b).
  - erewrite bind_Ret by reflexivity.
    erewrite bind_Ret by (by apply deref_live).
    erewrite bind_Ret by (by apply (key_of_live x e)).
    erewrite bind_Ret by apply store_put_run.
    erewrite update_entity_run by done.
    f_equal. apply World_eq; world_fields; try reflexivity.
    + f_equal. apply Entity_eq; entity_fields; try reflexivity.
      symmetry. by apply delete_id.
    + do 2 f_equal.
      assert (set_tags (base.delete "_old_key" (tags e)) e = e) as ->; [|done].
      apply Entity_eq; entity_fields; try reflexivity. by apply delete_id.
Qed.

(** X1.  [save] on a savable entity whose key can be read returns, and
    afterwards the store of its class holds the serialisation of the entity
    under its key; the entity is clean and has lost its [_old_key] tag, and
    the record under that old key is gone.  Nothing else is touched: no
    other object, no other record, no other store, no registry, no cache,
    no log line. *)
Theorem save_writes_serialisation
    (w : World) (x : nat) (e : Entity) (st : nat) (k : pyval) :
  heap w !! x = Some e ->
  _store (__class__ e) = Some st ->
  _savable e = true ->
  _store_key (__class__ e) <> "is_dirty" ->
  key e = inr k ->
  exists w',
    Entity_save x w = Ret tt w' /\
    heap w' = <[x := saved e]> (heap w) /\
    store_contents w' st !! k = Some (Entity_serialize (saved e)) /\
    (forall old_key, tags e !! "_old_key" = Some old_key ->
       VAtom old_key <> k -> store_contents w' st !! VAtom old_key = None) /\
    (forall k', k' <> k ->
       (forall old_key, tags e !! "_old_key" = Some old_key ->
          k' <> VAtom old_key) ->
       store_contents w' st !! k' = store_contents w st !! k') /\
    (forall st', st' <> st -> stores w' !! st' = stores w !! st') /\
    _instances w' = _instances w /\
    _caches w' = _caches w /\
    log w' = log w /\
    __uid_timecode w' = __uid_timecode w.
Proof.
  intros Hx Hst Hsav Hkn Hk. eexists. split; [by apply save_run|].
  split; [done|].
  rewrite store_contents_put_entity, store_contents_set_stores.
  unfold saved_store. split; [by rewrite lookup_insert_eq|].
  split; [|split; [|split]].
  - intros old_key Hold Hne. rewrite Hold.
    rewrite lookup_insert_ne by done. by rewrite lookup_delete_eq.
  - intros k' Hne Hnold. rewrite lookup_insert_ne by done.
    destruct (tags e !! "_old_key") as [old_key|]; [|done].
    rewrite lookup_delete_ne; [done|]. intros Heq. by apply (Hnold old_key).
  - intros st' Hne. world_fields. by rewrite lookup_insert_ne.
  - done.
Qed.




(* ===================================================================== *)
(** ** Loading *)
(* ===================================================================== *)

Lemma odict_get_set {V} (k : pyval) (v : V) (d : list (pyval * V)) :
  odict_get k (odict_set k v d) = Some v.
Proof.
  induction d as [|[k' v'] d IH]; cbn.
  - by rewrite decide_True.
  - case_decide as Hk; cbn.
    + by rewrite decide_True.
    + by rewrite decide_False.
Qed.








Lemma odict_get_None {V} (k : pyval) (d : list (pyval * V)) :
  odict_get k d = None <-> k ∉ d.*1.
Proof.
  induction d as [|[k' v] d IH]; cbn.
  - split; [intros _; apply not_elem_of_nil|done].
  - case_decide as Hk.
    + subst. split; [done|]. intros Hn. exfalso. apply Hn. left.
    + rewrite IH. rewrite not_elem_of_cons. naive_solver.
Qed.

Lemma instances_getitem_miss (w : World) (cls : EntityClass) (k : pyval) :
  instances_contains w cls k = false -> instances_getitem w cls k = None.
Proof.
  unfold instances_contains, instances_getitem. intros H.
  apply bool_decide_eq_false in H.
  apply (odict_get_None k (instances_live w cls)) in H. by rewrite H.
Qed.

Lemma load_scan_miss (ents : list (nat * Entity)) (k : pyval) :
  (forall r e, (r, e) ∈ ents -> exists k', key e = inr k' /\ k' <> k) ->
  load_scan ents k = inr None.
Proof.
  induction ents as [|[r e] ents IH]; intros H; cbn; [done|].
  destruct (H r e) as (k' & -> & Hne); [left|].
  rewrite decide_False by done. apply IH. intros r' e' Hin.
  apply (H r' e'). by right.
Qed.

(** [_find] of [load] when neither the memory, if asked, nor the store
    answers to the key. *)
Lemma load_find_miss
    (w : World) (cls : EntityClass) (k : pyval) (from_cache : bool) :
  (from_cache = true ->
     py_hash k = inr tt /\
     (forall c, cache_of w cls (get_key_name cls) = Some c ->
                lru_contains k c = false) /\
     (get_key_name cls = "uid" -> instances_contains w cls k = false) /\
     (get_key_name cls <> "uid" ->
        forall r e, (r, e) ∈ instances_values w cls ->
          exists k', key e = inr k' /\ k' <> k)) ->
  (forall st, _store cls = Some st ->
     store_contents w st !! k = None \/ store_contents w st !! k = Some ∅) ->
  load_find cls k from_cache (cache_of w cls (get_key_name cls)) w = Ret None w.
Proof.
  intros Hmem Hstore.
  assert (load_from_store cls k w = Ret None w) as Hfs.
  { unfold load_from_store. destruct (_store cls) as [st|]; [|done].
    rewrite bind_run. unfold store_get_default.
    destruct (Hstore st eq_refl) as [->| ->]; [done|].
    by rewrite bool_decide_eq_false_2 by (by intros ?). }
  unfold load_find. destruct from_cache.
  - destruct (Hmem eq_refl) as (Hhash & Hcache & Huid & Hscan).
    erewrite (bind_Ret _ _ w w None); [exact Hfs|].
    unfold load_from_cache.
    erewrite bind_Ret by reflexivity.
    erewrite (bind_Ret _ _ w w None); cycle 1.
    { case_decide as Hkn; [|done].
      rewrite Hhash. erewrite bind_Ret by reflexivity.
      by rewrite (instances_getitem_miss w cls k (Huid Hkn)). }
    cbv beta iota.
    erewrite (bind_Ret _ _ w w None); cycle 1.
    { destruct (cache_of w cls (get_key_name cls)) as [c|] eqn:Hc; [|done].
      rewrite Hhash. erewrite bind_Ret by reflexivity.
      by rewrite (Hcache c). }
    cbv beta iota.
    case_decide as Hkn; [|done].
    by rewrite (load_scan_miss _ k (Hscan Hkn)).
  - erewrite bind_Ret by reflexivity. exact Hfs.
Qed.

(** X4.  A full miss.  When the store of the class holds no record (or an
    empty one) under the key and, if the memory is asked, no live instance
    and no cache entry answers to the key, [load] changes nothing: it raises
    the exception made from the key when [default] is an exception class,
    and returns [default] otherwise.  With [from_cache=False] the memory is
    not asked at all. *)
Theorem load_miss
    (w : World) (cls : EntityClass) (k : pyval) (from_cache : bool) :
  (from_cache = true ->
     py_hash k = inr tt /\
     (forall c, cache_of w cls (get_key_name cls) = Some c ->
                lru_contains k c = false) /\
     (get_key_name cls = "uid" -> instances_contains w cls k = false) /\
     (get_key_name cls <> "uid" ->
        forall r e, (r, e) ∈ instances_values w cls ->
          exists k', key e = inr k' /\ k' <> k)) ->
  (forall st, _store cls = Some st ->
     store_contents w st !! k = None \/ store_contents w st !! k = Some ∅) ->
  (forall exception,
     Entity_load cls k from_cache (DefaultRaise exception) w
     = Exc (exception k) w) /\
  (forall v,
     Entity_load cls k from_cache (DefaultValue v) w = Ret (NotLoaded v) w).
Proof.
  intros Hmem Hstore.
  pose proof (load_find_miss w cls k from_cache Hmem Hstore) as Hfind.
  split.
  - intros exception. unfold Entity_load.
    erewrite bind_Ret by apply get_cache_run.
    by erewrite bind_Ret by apply Hfind.
  - intros v. unfold Entity_load.
    erewrite bind_Ret by apply get_cache_run.
    by erewrite bind_Ret by apply Hfind.
Qed.

(** [_find] of [load] on a uid under which a live instance is registered. *)
Lemma load_find_registered
    (w : World) (cls : EntityClass) (k : pyval) (r : nat) :
  get_key_name cls = "uid" ->
  py_hash k = inr tt ->
  instances_getitem w cls k = Some r ->
  load_find cls k true (cache_of w cls (get_key_name cls)) w = Ret (Some r) w.
Proof.
  intros Hkn Hhash Hget. unfold load_find.
  erewrite (bind_Ret _ _ w w (Some r)); [reflexivity|].
  unfold load_from_cache.
  erewrite bind_Ret by reflexivity.
  erewrite (bind_Ret _ _ w w (Some r)); [reflexivity|].
  rewrite decide_True by done. rewrite Hhash.
  erewrite bind_Ret by reflexivity. by rewrite Hget.
Qed.

(** X5.  A live instance is returned as it is.  For a class keyed by uid,
    [load] of a uid under which a live instance is registered returns that
    very object and never reads the store, whatever record the store holds:
    no object, no store, no registry and no log line changes.  Only the key
    cache may gain the entry (here, when nothing has to be evicted for
    it). *)
Theorem load_returns_registered
    (w : World) (cls : EntityClass) (k : pyval) (r : nat)
    (dflt : load_default) :
  get_key_name cls = "uid" ->
  py_hash k = inr tt ->
  instances_getitem w cls k = Some r ->
  no_eviction w cls k ->
  exists w',
    Entity_load cls k true dflt w = Ret (Loaded r) w' /\
    heap w' = heap w /\
    stores w' = stores w /\
    _instances w' = _instances w /\
    log w' = log w /\
    __uid_timecode w' = __uid_timecode w /\
    match cache_of w cls "uid" with
    | Some c =>
        cache_of w' cls "uid"
        = Some (if lru_contains k c then c else lru_push k r c)
    | None => _caches w' = _caches w
    end.
Proof.
  intros Hkn Hhash Hget Hroom.
  pose proof (load_find_registered w cls k r Hkn Hhash Hget) as Hfind.
  unfold Entity_load.
  erewrite bind_Ret by apply get_cache_run.
  erewrite bind_Ret by apply Hfind. cbv beta iota.
  erewrite bind_Ret by apply get_cache_run.
  unfold no_eviction in Hroom. rewrite Hkn in *.
  destruct (cache_of w cls "uid") as [c|] eqn:Hc.
  - rewrite Hhash.
    destruct (lru_contains k c) eqn:Hin.
    + exists w. split; [|done].
      erewrite bind_Ret; [reflexivity|]. by erewrite bind_Ret by reflexivity.
    + destruct Hroom as [?|Hroom]; [done|].
      eexists. split.
      { erewrite bind_Ret; [reflexivity|].
        erewrite bind_Ret by reflexivity. cbn [negb].
        by apply (lru_setitem_room cls "uid" k r w c). }
      repeat (split; [done|]).
      rewrite cache_of_modify, Hc. done.
  - exists w. split; [|done]. by erewrite bind_Ret.
Qed.

(** The record under the key names no registered class: its type is
    missing, false, or the name of no class of the registry. *)
Lemma reconstruct_bad_type (data : record) (w : World) :
  match dict_get data "type" with
  | VAtom (AStr name) => ENTITIES w !! name = None
  | VDict _ => False
  | _ => True
  end ->
  Entity_reconstruct data w
  = Exc (KeyError "failed to reconstruct entity: bad class key") w.
Proof.
  unfold Entity_reconstruct.
  destruct (dict_get data "type") as [[|z|name]|l|d]; try done.
  - by destruct (negb (truthy (VAtom (AInt z)))).
  - intros Hnone. destruct (negb (truthy (VAtom (AStr name)))); [done|].
    rewrite bind_run. cbn [get_world]. by rewrite Hnone.
  - intros _. by destruct (negb (truthy (VTuple l))).
Qed.

(** X16.  A default does not cover a record of an unknown type.  When the
    store holds, under the key, a record whose type names no registered
    class, [load] with [from_cache=False] raises the [KeyError] of
    [reconstruct], whatever [default] is: it neither returns the default nor
    raises the exception made from the key.  No object is created, and the
    process is as before (but for the warning logged when the record has no
    uid). *)
Theorem load_of_unknown_type_raises
    (w : World) (cls : EntityClass) (k : pyval) (st : nat) (data : record)
    (dflt : load_default) :
  _store cls = Some st ->
  store_contents w st !! k = Some data ->
  data <> ∅ ->
  match dict_get data "type" with
  | VAtom (AStr name) => ENTITIES w !! name = None
  | VDict _ => False
  | _ => True
  end ->
  exists w',
    Entity_load cls k false dflt w
    = Exc (KeyError "failed to reconstruct entity: bad class key") w' /\
    heap w' = heap w /\
    stores w' = stores w /\
    _instances w' = _instances w /\
    _caches w' = _caches w /\
    __uid_timecode w' = __uid_timecode w /\
    (is_Some (data !! "uid") -> w' = w).
Proof.
  intros Hst Hdata Hne Htype.
  set (w' := if bool_decide (is_Some (data !! "uid")) then w
             else set_log (LogWarn "No uid for entity loaded with key"
                                   (fresh (dom (heap w))) :: log w) w).
  assert (ENTITIES w' = ENTITIES w) as Hent by (unfold w'; by case_bool_decide).
  exists w'. split.
  { unfold Entity_load.
    erewrite bind_Ret by apply get_cache_run.
    rewrite bind_run. unfold load_find.
    erewrite bind_Ret by reflexivity. unfold load_from_store. rewrite Hst.
    erewrite (bind_Ret _ _ w w (Some data)); cycle 1.
    { unfold store_get_default. by rewrite Hdata. }
    cbv beta iota. rewrite bool_decide_eq_true_2 by done.
    erewrite (bind_Ret _ _ w w' tt); cycle 1.
    { unfold w'. case_bool_decide; [done|]. by erewrite bind_Ret by reflexivity. }
    rewrite bind_run, reconstruct_bad_type; [done|].
    by rewrite Hent. }
  unfold w'. case_bool_decide as Hu; [done|]. by repeat split.
Qed.

Lemma lru_without_absent (k : pyval) (c : lrucache) :
  lru_contains k c = false -> lru_without k c = c.
Proof.
  unfold lru_contains, lru_without. intros H.
  apply bool_decide_eq_false in H. destruct c as [size items]. cbn in *.
  f_equal. induction items as [|[k' v] items IH]; [done|].
  rewrite fmap_cons, not_elem_of_cons in H. destruct H as [Hne Hnin].
  rewrite filter_cons_True; [|cbn; intros ->; by apply Hne].
  f_equal. by apply IH.
Qed.

Lemma lru_without_len (k : pyval) (c : lrucache) :
  (lru_len (lru_without k c) <= lru_len c)%nat.
Proof. unfold lru_len, lru_without. cbn. apply length_filter. Qed.

(** What [delete] does to the process, the key cache included. *)
Lemma delete_run_cache (w : World) (x : nat) (e : Entity) (k : pyval) :
  heap w !! x = Some e ->
  key e = inr k ->
  exists w',
    Entity_delete x w = Ret tt w' /\
    heap w' = heap w /\
    _instances w' = _instances w /\
    log w' = log w /\
    (forall st, _store (__class__ e) = Some st ->
       store_contents w' st !! k = None) /\
    cache_of w' (__class__ e) (get_key_name (__class__ e))
    = lru_without k <$> cache_of w (__class__ e) (get_key_name (__class__ e)).
Proof.
  intros Hx Hk. unfold Entity_delete.
  rewrite bind_run, (deref_live x e) by done.
  rewrite bind_run, get_cache_run.
  set (cls := __class__ e). set (kn := get_key_name cls).
  assert (exists w1,
    match cache_of w cls kn with
    | Some c =>
        if bool_decide (lru_len c ≠ 0%nat)
        then k ← key_of x;
             (if lru_contains k c
              then k0 ← key_of x; lru_delitem cls kn k0
              else mret tt)
        else mret tt
    | None => mret tt
    end w = Ret tt w1 /\
    heap w1 = heap w /\ _instances w1 = _instances w /\ stores w1 = stores w /\
    log w1 = log w /\
    cache_of w1 cls kn = lru_without k <$> cache_of w cls kn)
    as (w1 & Hrun1 & Hh1 & Hi1 & Hs1 & Hl1 & Hc1).
  { destruct (cache_of w cls kn) as [c|] eqn:Hc.
    - case_bool_decide as Hlen.
      + rewrite bind_run, (key_of_live x e k) by done.
        destruct (lru_contains k c) eqn:Hin.
        * rewrite bind_run, (key_of_live x e k) by done.
          eexists. split; [reflexivity|]. repeat split; try done.
          by rewrite cache_of_modify, Hc.
        * exists w. repeat split; try done. rewrite Hc. cbn.
          by rewrite lru_without_absent.
      + exists w. repeat split; try done. rewrite Hc. cbn.
        rewrite lru_without_absent; [done|]. apply lru_contains_empty. lia.
    - exists w. by repeat split. }
  rewrite bind_run, Hrun1.
  assert (heap w1 !! x = Some e) as Hx1 by (by rewrite Hh1).
  destruct (_store cls) as [st|] eqn:Hst.
  - rewrite bind_run, (key_of_live x e k) by done.
    rewrite bind_run, store_has_run.
    case_bool_decide as Hhas.
    + rewrite bind_run, (key_of_live x e k) by done.
      eexists. split; [reflexivity|]. cbn [heap _instances log set_stores].
      split; [done|]. split; [done|]. split; [done|]. split.
      * intros st' [= <-]. rewrite store_contents_delete. apply lookup_delete_eq.
      * by rewrite <- Hc1.
    + exists w1. split; [done|]. split; [done|]. split; [done|].
      split; [done|]. split; [|done].
      intros st' [= <-]. by apply eq_None_not_Some.
  - exists w1. split; [done|]. split; [done|]. split; [done|].
    split; [done|]. split; [|done].
    intros st' [=].
Qed.

(** X17.  Loading after [delete].  After [x.delete()] the store and the key
    cache no longer answer to the key of [x]: [load] with [from_cache=False]
    misses, raising the exception made from the key or returning the
    default.  The instance registry still does: for a class keyed by uid,
    [load] of the uid of [x] returns [x] itself, unchanged, and puts it
    back into the key cache (here a cache that was not full). *)
Theorem load_after_delete (w : World) (x : nat) (e : Entity) (k : pyval) :
  let cls := __class__ e in
  heap w !! x = Some e ->
  key e = inr k ->
  exists w',
    Entity_delete x w = Ret tt w' /\
    (forall exception,
       Entity_load cls k false (DefaultRaise exception) w'
       = Exc (exception k) w') /\
    (forall v,
       Entity_load cls k false (DefaultValue v) w' = Ret (NotLoaded v) w') /\
    (get_key_name cls = "uid" ->
     py_hash k = inr tt ->
     instances_getitem w cls k = Some x ->
     (forall c, cache_of w cls "uid" = Some c -> (lru_len c < lru_size c)%nat) ->
     forall dflt,
       exists w'',
         Entity_load cls k true dflt w' = Ret (Loaded x) w'' /\
         heap w'' = heap w /\
         stores w'' = stores w' /\
         forall c, cache_of w'' cls "uid" = Some c -> lru_contains k c = true).
Proof.
  intros cls Hx Hk.
  destruct (delete_run_cache w x e k Hx Hk)
    as (w' & Hrun & Hheap & Hinst & Hlog & Hstore & Hcache).
  fold cls in Hstore, Hcache.
  exists w'. split; [done|].
  assert (load_find cls k false (cache_of w' cls (get_key_name cls)) w'
          = Ret None w') as Hmiss.
  { apply load_find_miss; [done|]. intros st Hst. left. by apply Hstore. }
  split; [|split].
  - intros exception. unfold Entity_load.
    erewrite bind_Ret by apply get_cache_run.
    by erewrite bind_Ret by apply Hmiss.
  - intros v. unfold Entity_load.
    erewrite bind_Ret by apply get_cache_run.
    by erewrite bind_Ret by apply Hmiss.
  - intros Hkn Hhash Hget Hroom dflt.
    assert (instances_getitem w' cls k = Some x) as Hget'.
    { unfold instances_getitem, instances_live, instances_entries in *.
      by rewrite Hinst, Hheap. }
    pose proof (load_find_registered w' cls k x Hkn Hhash Hget') as Hfind.
    unfold Entity_load.
    erewrite bind_Ret by apply get_cache_run.
    erewrite bind_Ret by apply Hfind. cbv beta iota.
    erewrite bind_Ret by apply get_cache_run.
    rewrite Hkn in *. rewrite Hcache.
    destruct (cache_of w cls "uid") as [c|] eqn:Hc; cbn [fmap option_fmap option_map].
    + assert (lru_contains k (lru_without k c) = false) as Hout
        by apply lru_contains_without.
      eexists. split.
      { erewrite bind_Ret; [reflexivity|].
        rewrite Hhash. erewrite bind_Ret by reflexivity.
        rewrite Hout. cbn [negb].
        apply (lru_setitem_room cls "uid" k x w' (lru_without k c));
          [by rewrite Hcache|done|].
        pose proof (lru_without_len k c). specialize (Hroom c eq_refl).
        change (lru_size (lru_without k c)) with (lru_size c). lia. }
      split; [done|]. split; [done|].
      intros c'. rewrite cache_of_modify, Hcache. cbn. intros [= <-].
      unfold lru_contains. cbn. apply bool_decide_eq_true. left.
    + exists w'. split; [by erewrite bind_Ret|].
      split; [done|]. split; [done|].
      intros c'. by rewrite Hcache.
Qed.

(* ===================================================================== *)
(** ** The entity manager *)
(* ===================================================================== *)

Lemma entities_get_app (name : string) (d1 d2 : list (string * EntityClass)) :
  entities_get name (d1 ++ d2)
  = match entities_get name d1 with
    | Some c => Some c
    | None => entities_get name d2
    end.
Proof.
  induction d1 as [|[n c] d1 IH]; cbn; [done|]. by case_decide.
Qed.

Lemma entities_get_None (name : string) (d : list (string * EntityClass)) :
  entities_get name d = None <-> name ∉ d.*1.
Proof.
  induction d as [|[n c] d IH]; cbn.
  - split; [intros _; apply not_elem_of_nil|done].
  - case_decide as Hn.
    + subst. split; [done|]. intros H. exfalso. apply H. left.
    + rewrite IH, not_elem_of_cons. naive_solver.
Qed.

(** X6.  Registering a class and looking it up.  A class that derives from
    [Entity] and whose name is not taken is registered under its name:
    [register] returns it, the manager then contains the name and hands the
    class back under it, and every other name reads as before.  The name is
    then taken: registering the class again, or any entity class of that
    name, raises [AlreadyExists] with the class already there. *)
Theorem register_then_lookup (self : EntityManager) (cls : EntityClass) :
  let name := __name__ (cls_def cls) in
  issubclass_Entity (cls_def cls) = true ->
  EntityManager__contains__ self (VStr name) = inr false ->
  exists self',
    EntityManager_register self (inr cls) = inr (cls, self') /\
    EntityManager__contains__ self' (VStr name) = inr true /\
    EntityManager__getitem__ self' (VStr name) = inr cls /\
    (forall other, other <> VStr name ->
       EntityManager__contains__ self' other
       = EntityManager__contains__ self other /\
       EntityManager__getitem__ self' other
       = EntityManager__getitem__ self other) /\
    (forall cls', issubclass_Entity (cls_def cls') = true ->
       __name__ (cls_def cls') = name ->
       EntityManager_register self' (inr cls')
       = inl (AlreadyExists name (Some cls) (Some cls'))).
Proof.
  intros name Hsub Hfree.
  assert (entities_get name (_entities self) = None) as Hnone.
  { unfold EntityManager__contains__, VStr in Hfree. injection Hfree as Hfree.
    apply bool_decide_eq_false in Hfree.
    destruct (entities_get name (_entities self)); [|done].
    exfalso. apply Hfree. by eexists. }
  set (self' := {| _entities := (_entities self ++ [(name, cls)])%list |}).
  assert (entities_get name (_entities self') = Some cls) as Hget.
  { cbn [_entities self']. rewrite entities_get_app, Hnone. cbn.
    by rewrite decide_True. }
  assert (forall s, s <> name ->
            entities_get s (_entities self') = entities_get s (_entities self))
    as Hother.
  { intros s Hs. cbn [_entities self']. rewrite entities_get_app.
    destruct (entities_get s (_entities self)); [done|]. cbn.
    by rewrite decide_False. }
  exists self'. split.
  { unfold EntityManager_register. rewrite Hsub. cbn [negb]. fold name.
    by rewrite Hnone. }
  split.
  { unfold EntityManager__contains__, VStr. rewrite Hget.
    by rewrite bool_decide_eq_true_2 by (by eexists). }
  split; [unfold EntityManager__getitem__, VStr; by rewrite Hget|].
  split.
  - intros other Hne. destruct other as [[| |s]| |]; try done.
    assert (s <> name) as Hs by (by intros ->).
    unfold EntityManager__contains__, EntityManager__getitem__.
    by rewrite (Hother s Hs).
  - intros cls' Hsub' Hname'. unfold EntityManager_register.
    rewrite Hsub'. cbn [negb]. rewrite Hname'. by rewrite Hget.
Qed.

Lemma register_keeps_well_registered (self self' : EntityManager)
    (entity : pyval + EntityClass) (cls : EntityClass) :
  well_registered self ->
  EntityManager_register self entity = inr (cls, self') ->
  well_registered self'.
Proof.
  intros [Hnd Hall]. unfold EntityManager_register.
  destruct entity as [v|c]; [done|].
  destruct (issubclass_Entity (cls_def c)) eqn:Hsub; [|done]. cbn [negb].
  destruct (entities_get (__name__ (cls_def c)) (_entities self)) eqn:Hget;
    [done|].
  intros [= <- <-]. split; cbn [_entities].
  - rewrite fmap_app. apply NoDup_app. split; [done|]. split.
    + intros n Hn Hn'. cbn in Hn'. apply list_elem_of_singleton in Hn' as ->.
      by apply entities_get_None in Hget.
    + cbn. apply NoDup_singleton.
  - apply Forall_app. split; [done|]. by repeat constructor.
Qed.

(** X7.  What a manager holds.  Whatever objects [register] is called
    with, in whatever order, starting from a new manager: every class the
    manager holds derives from [Entity] and is filed under its own name, and
    no name is filed twice.  So a lookup by name can only hand back an
    entity class of that name. *)
Theorem manager_holds_entity_classes_by_name
    (calls : list (pyval + EntityClass)) :
  let self := registered_after calls EntityManager__init__ in
  well_registered self /\
  forall name cls,
    EntityManager__getitem__ self (VStr name) = inr cls ->
    __name__ (cls_def cls) = name /\ issubclass_Entity (cls_def cls) = true.
Proof.
  cbv zeta.
  assert (forall self, well_registered self ->
            well_registered (registered_after calls self)) as Hinv.
  { induction calls as [|entity calls IH]; intros self Hwf; cbn; [done|].
    destruct (EntityManager_register self entity) as [err|[cls self']] eqn:Hreg.
    - by apply IH.
    - apply IH. by apply (register_keeps_well_registered self self' entity cls). }
  assert (well_registered (registered_after calls EntityManager__init__)) as Hwf.
  { apply Hinv. split; cbn; constructor. }
  split; [done|].
  intros name cls. cbn.
  destruct Hwf as [_ Hall]. revert Hall.
  generalize (_entities (registered_after calls EntityManager__init__)).
  intros d Hall Hget.
  destruct (entities_get name d) as [c|] eqn:Hc; [|done].
  injection Hget as ->.
  induction Hall as [|[n c'] d [Hn Hs] _ IH]; [done|].
  cbn in Hc. case_decide as Hnn.
  - injection Hc as ->. cbn in Hn, Hs. by subst.
  - by apply IH.
Qed.

(* ===================================================================== *)
(** ** Registering caches, creating classes *)
(* ===================================================================== *)

Lemma cache_of_insert (cls cls' : EntityClass) (key key' : string)
    (cs : gmap string lrucache) (c : lrucache) (w : World) :
  cache_of (set_caches (<[__name__ (cls_def cls) := <[key := c]> cs]> (_caches w)) w)
           cls' key'
  = if decide (__name__ (cls_def cls') = __name__ (cls_def cls)) then
      if decide (key' = key) then Some c else cs !! key'
    else cache_of w cls' key'.
Proof.
  unfold cache_of. cbn [_caches set_caches].
  case_decide as Hn.
  - rewrite Hn, lookup_insert_eq. cbn. case_decide as Hk.
    + subst. by rewrite lookup_insert_eq.
    + by rewrite lookup_insert_ne.
  - by rewrite lookup_insert_ne.
Qed.

Lemma caches_view (cls : EntityClass) (key : string) (w : World) :
  default ∅ (_caches w !! __name__ (cls_def cls)) !! key = cache_of w cls key.
Proof. unfold cache_of. by destruct (_caches w !! __name__ (cls_def cls)). Qed.

Lemma register_cache_taken (cls : EntityClass) (key : string) (size : nat)
    (w : World) :
  is_Some (cache_of w cls key) ->
  register_cache cls key size w = Exc (KeyError "entity already has cache:") w.
Proof.
  intros Hc. unfold register_cache.
  erewrite bind_Ret by reflexivity. cbv zeta.
  by rewrite caches_view, bool_decide_eq_true_2.
Qed.

Lemma register_cache_new (cls : EntityClass) (key : string) (size : nat)
    (w : World) :
  cache_of w cls key = None ->
  register_cache cls key size w
  = Ret tt (set_caches
              (<[__name__ (cls_def cls) :=
                   <[key := {| lru_size := size; lru_items := [] |}]>
                     (default ∅ (_caches w !! __name__ (cls_def cls)))]>
                 (_caches w)) w).
Proof.
  intros Hnone. unfold register_cache.
  erewrite bind_Ret by reflexivity. cbv zeta.
  rewrite caches_view, bool_decide_eq_false_2; [reflexivity|].
  rewrite Hnone. by intros [? [=]].
Qed.

(** X8.  One cache per key name.  [register_cache] raises [KeyError] and
    changes nothing when the class already has a cache under the key name.
    Otherwise it returns and the class has an empty cache of the given size
    under that name, every other cache being as before and no object, store
    or registry touched; from then on the name is taken. *)
Theorem register_cache_once
    (cls : EntityClass) (key : string) (size : nat) (w : World) :
  (is_Some (cache_of w cls key) ->
   register_cache cls key size w = Exc (KeyError "entity already has cache:") w) /\
  (cache_of w cls key = None ->
   exists w',
     register_cache cls key size w = Ret tt w' /\
     cache_of w' cls key = Some {| lru_size := size; lru_items := [] |} /\
     (forall cls' key',
        __name__ (cls_def cls') <> __name__ (cls_def cls) \/ key' <> key ->
        cache_of w' cls' key' = cache_of w cls' key') /\
     heap w' = heap w /\
     stores w' = stores w /\
     _instances w' = _instances w /\
     forall size',
       register_cache cls key size' w'
       = Exc (KeyError "entity already has cache:") w').
Proof.
  split; [apply register_cache_taken|].
  intros Hnone. eexists. split; [by apply register_cache_new|].
  split.
  { rewrite cache_of_insert. by rewrite !decide_True. }
  split.
  { intros cls' key' Hne. rewrite cache_of_insert.
    case_decide as Hn; [|done]. case_decide as Hk; [naive_solver|].
    unfold cache_of. rewrite Hn.
    by destruct (_caches w !! __name__ (cls_def cls)). }
  repeat (split; [done|]).
  intros size'. apply register_cache_taken. rewrite cache_of_insert.
  rewrite !decide_True by done. by eexists.
Qed.

(** X9.  What a new class starts with.  When its metaclass has initialised
    an entity class, the class has no instances and exactly one cache: an
    empty one of 512 entries under its key name.  Registering a cache under
    that key name again therefore raises [KeyError].  No object and no store
    is touched, and the registries and caches of classes of other names are
    as before. *)
Theorem new_class_has_its_key_cache (cls : EntityClass) (w : World) :
  exists w',
    EntityMeta__init__ cls w = Ret tt w' /\
    instances_entries w' cls = [] /\
    Entity_all cls w' = Ret [] w' /\
    cache_of w' cls (get_key_name cls)
    = Some {| lru_size := 512; lru_items := [] |} /\
    (forall key, key <> get_key_name cls -> cache_of w' cls key = None) /\
    (forall size,
       register_cache cls (get_key_name cls) size w'
       = Exc (KeyError "entity already has cache:") w') /\
    heap w' = heap w /\
    stores w' = stores w /\
    (forall cls', __name__ (cls_def cls') <> __name__ (cls_def cls) ->
       instances_entries w' cls' = instances_entries w cls' /\
       forall key, cache_of w' cls' key = cache_of w cls' key).
Proof.
  set (w1 := set_instances (<[__name__ (cls_def cls) := []]> (_instances w)) w).
  set (w2 := set_caches (<[__name__ (cls_def cls) := ∅]> (_caches w1)) w1).
  assert (forall key, cache_of w2 cls key = None) as Hnone.
  { intros key. unfold cache_of, w2. cbn [_caches set_caches].
    by rewrite lookup_insert_eq. }
  pose proof (register_cache_new cls (get_key_name cls) 512 w2
                (Hnone (get_key_name cls))) as Hrun.
  set (w' := set_caches _ w2) in Hrun.
  assert (instances_entries w' cls = []) as Hentries.
  { unfold instances_entries, w', w2, w1.
    cbn [_instances set_caches set_instances].
    by rewrite lookup_insert_eq. }
  assert (cache_of w' cls (get_key_name cls)
          = Some {| lru_size := 512; lru_items := [] |}) as Hc.
  { unfold w'. rewrite cache_of_insert. by rewrite !decide_True. }
  exists w'. split.
  { unfold EntityMeta__init__. cbv zeta.
    erewrite bind_Ret by reflexivity. fold w1.
    erewrite bind_Ret by reflexivity. fold w2. done. }
  split; [done|]. split.
  { unfold Entity_all, instances_values, instances_live. by rewrite Hentries. }
  split; [done|]. split.
  { intros key Hkey. unfold w'. rewrite cache_of_insert.
    rewrite decide_True by done. rewrite decide_False by done.
    unfold w2. cbn [_caches set_caches]. by rewrite lookup_insert_eq. }
  split.
  { intros size. apply register_cache_taken. rewrite Hc. by eexists. }
  split; [done|]. split; [done|].
  intros cls' Hne. split.
  - unfold instances_entries, w', w2, w1.
    cbn [_instances set_caches set_instances]. by rewrite lookup_insert_ne.
  - intros key. unfold w'. rewrite cache_of_insert.
    rewrite decide_False by done.
    unfold cache_of, w2. cbn [_caches set_caches]. by rewrite lookup_insert_ne.
Qed.

(* ===================================================================== *)
(** ** The storage key *)
(* ===================================================================== *)

(** X10.  Setting the key and reading it back.  The key of a class keyed by
    [uid] (or by [is_dirty]) cannot be set: the setter raises
    [AttributeError].  When the setter returns, the key reads as what was
    stored: for a key held by a registered attribute, the value its
    validation made of the new key, and the entity is dirty (a read-only
    attribute ignores the write and the entity is as before); for a key held
    by a plain instance attribute, the new key itself, the dirty mark being
    as before. *)
Theorem key_set_then_get (e : Entity) (new_key : pyval) :
  (_store_key (__class__ e) = "uid" \/ _store_key (__class__ e) = "is_dirty" ->
   key_setter e new_key = inl (AttributeError "can't set attribute")) /\
  (forall e', key_setter e new_key = inr e' ->
     match _attrs (_base_blob e) !! _store_key (__class__ e) with
     | Some attr =>
         if _read_only attr then e' = e
         else exists v, validate attr new_key = inr v /\
                        key e' = inr v /\ _dirty e' = true
     | None => key e' = inr new_key /\ _dirty e' = _dirty e
     end).
Proof.
  unfold key_setter, key, setattr_nokey, getattr_nokey.
  set (name := _store_key (__class__ e)).
  split.
  - intros [-> | ->]; [done|]. by rewrite decide_False.
  - intros e'.
    case_decide as Hu; [done|]. case_decide as Hd; [done|].
    destruct (_attrs (_base_blob e) !! name) as [attr|] eqn:Hattr.
    + destruct (_read_only attr); [by intros [= <-]|].
      unfold _set_attr_val.
      destruct (validate attr new_key) as [err|v]; [done|].
      intros [= <-]. exists v. split; [done|]. split; [|done].
      entity_fields. fold name.
      rewrite decide_False by done. rewrite decide_False by done.
      cbn [_attrs _attr_values]. rewrite Hattr.
      unfold _get_attr_val. cbn [_attr_values]. by rewrite lookup_insert_eq.
    + case_decide as Ha.
      * intros [= <-]. split; [|done]. entity_fields. fold name.
        rewrite decide_False by done. rewrite decide_False by done.
        rewrite Hattr. by rewrite decide_True.
      * intros [= <-]. split; [|done]. entity_fields. fold name.
        rewrite decide_False by done. rewrite decide_False by done.
        rewrite Hattr. rewrite decide_False by done.
        by rewrite lookup_insert_eq.
Qed.

(** X11.  Cloning an entity of a class keyed by uid never returns.  The
    copy is constructed first, under a new uid, and registered; only then
    the new key is assigned, and for a class keyed by [uid] that assignment
    raises [AttributeError].  The copy stays behind in the registry, the
    generator has advanced, and the store is untouched. *)
Theorem clone_of_uid_keyed_raises
    (w : World) (x : nat) (ex : Entity) (st : nat) (new_key : key_arg) :
  let cls := __class__ ex in
  let u := make_uid (_uid_code cls) (TIMERS_time w) (__uid_timecode w) in
  heap w !! x = Some ex ->
  _store cls = Some st ->
  _store_key cls = "uid" ->
  store_contents w st !! resolve_key new_key = None ->
  no_eviction w cls (VStr u.1) ->
  exists w' y ey,
    Entity_clone x new_key w = Exc (AttributeError "can't set attribute") w' /\
    heap w !! y = None /\
    heap w' !! y = Some ey /\
    __class__ ey = cls /\
    _uid ey = VStr u.1 /\
    (_uid ey, y) ∈ instances_entries w' cls /\
    __uid_timecode w' = u.2 /\
    __uid_timecode w < u.2 /\
    stores w' = stores w.
Proof.
  intros cls u Hx Hst Hkey Hfree Hroom.
  set (data := base.delete "uid" (Entity_serialize ex)).
  set (e1 := set_uid (VStr u.1)
               (deserialized (blank_entity cls (VAtom py_False) true) data
                             (elements (flags ex)) (tags ex))).
  assert (data !! "uid" = None) as Hduid by apply lookup_delete_eq.
  assert (data !! "flags" = Some (VTuple (elements (flags ex)))) as Hdfl.
  { unfold data. rewrite lookup_delete_ne by done. apply serialize_lookup_flags. }
  assert (data !! "tags" = Some (VDict (tags ex))) as Hdtg.
  { unfold data. rewrite lookup_delete_ne by done. apply serialize_lookup_tags. }
  assert (key e1 = inr (VStr u.1)) as Hk1.
  { unfold key. change (__class__ e1) with cls. rewrite Hkey.
    unfold getattr_nokey. by rewrite decide_True. }
  pose proof (init_run cls data (VAtom py_False) true w
                (elements (flags ex)) (tags ex) (VStr u.1)
                Hduid Hdfl Hdtg Hk1 Hroom) as Hinit.
  fold u e1 in Hinit. cbv zeta in Hinit.
  set (r := fresh (dom (heap w))) in *.
  set (w' := constructed cls r e1 u.2 (VStr u.1) w) in *.
  assert (heap w' !! r = Some e1) as Hr.
  { unfold w'. rewrite heap_constructed. apply lookup_insert_eq. }
  exists w', r, e1. split.
  { unfold Entity_clone.
    erewrite bind_Ret by (by apply (deref_live x ex)).
    fold cls. rewrite Hst. cbv zeta.
    erewrite bind_Ret by apply store_has_run.
    rewrite bool_decide_eq_false_2 by (rewrite Hfree; by intros [? [=]]).
    fold data. erewrite bind_Ret by apply Hinit.
    rewrite bind_run. unfold set_key.
    rewrite bind_run, (deref_live r e1) by done.
    unfold key_setter. change (__class__ e1) with cls. rewrite Hkey.
    unfold setattr_nokey. by rewrite decide_True. }
  split; [apply fresh_not_live|]. split; [done|]. split; [done|].
  split; [done|]. split.
  { unfold w'. rewrite instances_constructed. apply odict_set_elem. }
  split.
  { unfold w', constructed. cbv zeta.
    destruct (cache_of _ cls (get_key_name cls)) as [c|]; [|done].
    by destruct (lru_contains (VStr u.1) c). }
  split; [apply make_uid_timecode|].
  apply stores_constructed.
Qed.

(* ===================================================================== *)
(** ** Deserialising and constructing, whatever the record *)
(* ===================================================================== *)

Section carried.
Context (R : World -> World -> Prop).
Hypothesis R_refl : forall w, R w w.
Hypothesis R_trans : forall w1 w2 w3, R w1 w2 -> R w2 w3 -> R w1 w3.

(** A relation that every step carries is carried by their sequence. *)
Lemma carried_bind {A B} (m : M A) (f : A -> M B) (w : World) :
  R w (final_world (m w)) ->
  (forall a w1, m w = Ret a w1 -> R w1 (final_world (f a w1))) ->
  R w (final_world ((m ≫= f) w)).
Proof.
  intros Hm Hf. rewrite bind_run. destruct (m w) as [a w1|err w1] eqn:Hrun.
  - apply (R_trans w w1); [done|]. by apply Hf.
  - done.
Qed.

Lemma carried_lift {A} (x : exn + A) (w : World) :
  R w (final_world (lift x w)).
Proof. destruct x; apply R_refl. Qed.
End carried.

Lemma only_data_of_refl (y : nat) (w : World) : only_data_of y w w.
Proof.
  split; [done|]. split; [|done]. intros e He. by exists e.
Qed.

Lemma only_data_of_trans (y : nat) (w1 w2 w3 : World) :
  only_data_of y w1 w2 -> only_data_of y w2 w3 -> only_data_of y w1 w3.
Proof.
  intros (H1 & H2 & H3 & H4 & H5 & H6 & H7 & H8 & H9 & H10)
         (G1 & G2 & G3 & G4 & G5 & G6 & G7 & G8 & G9 & G10).
  split; [intros r Hr; by rewrite G1, H1|].
  split.
  { intros e He. destruct (H2 e He) as (e' & He' & E1 & E2 & E3 & E4 & E5 & E6).
    destruct (G2 e' He') as (e'' & He'' & F1 & F2 & F3 & F4 & F5 & F6).
    exists e''. split; [done|]. repeat split; congruence. }
  split; [auto|].
  repeat split; congruence.
Qed.

(** An update of the object [y] that changes its data only. *)
Lemma only_data_of_update (y : nat) (f : Entity -> Entity) (w : World) :
  (forall e, heap w !! y = Some e ->
             __class__ (f e) = __class__ e /\ active (f e) = active e /\
             _savable (f e) = _savable e /\ __dict__ (f e) = __dict__ e /\
             _attrs (_base_blob (f e)) = _attrs (_base_blob e) /\
             _blobs (_base_blob (f e)) = _blobs (_base_blob e)) ->
  only_data_of y w (final_world (update_entity y f w)).
Proof.
  intros Hf. cbn. split.
  { intros r Hr. cbn. by rewrite lookup_alter_ne. }
  split.
  { intros e He. exists (f e). split; [|by apply Hf].
    cbn. by rewrite lookup_alter_eq, He. }
  split; [|done].
  intros Hn. cbn. by rewrite lookup_alter_eq, Hn.
Qed.

Lemma only_data_of_dirty (y : nat) (w : World) :
  only_data_of y w (final_world (dirty y w)).
Proof. by apply only_data_of_update. Qed.

Lemma only_data_of_deserialize (y : nat) (data : record) (w : World) :
  only_data_of y w (final_world (Entity_deserialize y data w)).
Proof.
  pose proof (only_data_of_refl y) as Hrefl.
  pose proof (only_data_of_trans y) as Htrans.
  unfold Entity_deserialize.
  apply (carried_bind _ Htrans).
  { destruct (base.delete "type" data !! "uid"); [|apply Hrefl].
    by apply only_data_of_update. }
  intros _ w1 _. apply (carried_bind _ Htrans).
  { destruct (_ !! "flags") as [v|]; [|apply Hrefl].
    apply (carried_bind _ Htrans); [by apply carried_lift|].
    intros l w2 _. unfold flags_add.
    apply (carried_bind _ Htrans); [by apply only_data_of_update|].
    intros _ w3 _. apply only_data_of_dirty. }
  intros _ w2 _. apply (carried_bind _ Htrans).
  { destruct (_ !! "tags") as [v|]; [|apply Hrefl].
    apply (carried_bind _ Htrans).
    { unfold tags_clear. apply (carried_bind _ Htrans);
        [by apply only_data_of_update|].
      intros _ w3 _. apply only_data_of_dirty. }
    intros _ w3 _. unfold tags_update. destruct v; try apply Hrefl.
    apply (carried_bind _ Htrans); [by apply only_data_of_update|].
    intros _ w4 _. apply only_data_of_dirty. }
  intros _ w3 _. unfold _base_blob_deserialize.
  apply (carried_bind _ Htrans).
  { unfold deref. destruct (heap w3 !! y); apply Hrefl. }
  intros e w4 Hderef. apply (carried_bind _ Htrans).
  { apply only_data_of_update. intros e0 He0.
    unfold deref in Hderef. destruct (heap w3 !! y) as [e1|] eqn:He1; [|done].
    injection Hderef as -> ->. by simplify_eq. }
  intros _ w5 _. case_decide; [apply Hrefl|apply only_data_of_dirty].
Qed.


Lemma cache_of_caches (w1 w2 : World) (cls : EntityClass) (kn : string) :
  _caches w1 = _caches w2 -> cache_of w1 cls kn = cache_of w2 cls kn.
Proof. unfold cache_of. by intros ->. Qed.

Lemma instances_entries_instances (w1 w2 : World) (cls : EntityClass) :
  _instances w1 = _instances w2 ->
  instances_entries w1 cls = instances_entries w2 cls.
Proof. unfold instances_entries. by intros ->. Qed.

Lemma modify_cache_run (cls : EntityClass) (kn : string)
    (f : lrucache -> lrucache) (w : World) :
  modify_cache cls kn f w
  = Ret tt (set_caches (alter (alter f kn) (__name__ (cls_def cls)) (_caches w)) w).
Proof. reflexivity. Qed.

(** After [cache[key] = value] the cache holds the key. *)
Lemma lru_setitem_contains (cls : EntityClass) (kn : string) (k : pyval)
    (v : nat) (w w' : World) :
  lru_setitem cls kn k v w = Ret tt w' ->
  forall c', cache_of w' cls kn = Some c' -> lru_contains k c' = true.
Proof.
  assert (forall c, lru_contains k (lru_push k v c) = true) as Hpush.
  { intros c. unfold lru_contains. cbn. apply bool_decide_eq_true. left. }
  unfold lru_setitem. rewrite bind_run, get_cache_run.
  destruct (cache_of w cls kn) as [c|] eqn:Hc; [|done].
  destruct (lru_contains k c).
  { intros [= <-] c'. rewrite cache_of_modify, Hc. cbn. intros [= <-].
    apply Hpush. }
  rewrite bind_run.
  assert (forall w1, _caches w1 = _caches w ->
            forall c',
              cache_of (set_caches (alter (alter (lru_push k v) kn)
                                          (__name__ (cls_def cls)) (_caches w1)) w1)
                       cls kn = Some c' ->
              lru_contains k c' = true) as Hend.
  { intros w1 Hw1 c'. rewrite cache_of_modify.
    destruct (cache_of w1 cls kn); [|done]. cbn. intros [= <-]. apply Hpush. }
  destruct (decide (lru_size c <= lru_len c)%nat) as [Hfull|Hroom].
  - destruct (last (lru_items c)) as [[k0 r0]|] eqn:Hlast.
    + unfold _cache_eject_callback. rewrite bind_run.
      destruct (Entity_save r0 w) as [[] w1|]; [|done].
      rewrite modify_cache_run. cbv beta iota. rewrite modify_cache_run.
      intros [= <-] c'. unfold cache_of. cbn [_caches set_caches].
      rewrite lookup_alter_eq.
      destruct (alter _ _ _ !! __name__ (cls_def cls)) as [cs|]; cbn; [|done].
      rewrite lookup_alter_eq. destruct (cs !! kn); cbn; [|done].
      intros [= <-]. apply Hpush.
    + intros [= <-]. by apply Hend.
  - intros [= <-]. by apply Hend.
Qed.

(** Whatever [Entity.__init__] is given, the object it returns is the one
    it allocated, of the class, [active] and [savable] asked for, with a
    uid, and registered under that uid. *)
Lemma init_object (cls : EntityClass) (data : option record) (a : pyval)
    (s : bool) (w w' : World) (y : nat) :
  cache_refs_live w cls ->
  Entity__init__ cls data a s w = Ret y w' ->
  y = fresh (dom (heap w)) /\
  exists ey,
    heap w' !! y = Some ey /\
    __class__ ey = cls /\ active ey = a /\ _savable ey = s /\
    _uid ey <> VNone /\
    (_uid ey, y) ∈ instances_entries w' cls /\
    (forall name, name <> __name__ (cls_def cls) ->
       _instances w' !! name = _instances w !! name) /\
    (forall c, cache_of w' cls (get_key_name cls) = Some c ->
       exists k, key ey = inr k /\ lru_contains k c = true) /\
    odict_get (_uid ey) (instances_entries w' cls) = Some y.
Proof.
  intros Hlive. unfold Entity__init__.
  set (r := fresh (dom (heap w))).
  erewrite bind_Ret by apply alloc_run. fold r. fold (blank_entity cls a s).
  set (w0 := put_entity r (blank_entity cls a s) w).
  assert (heap w0 !! r = Some (blank_entity cls a s)) as Hr0
    by apply heap_put_entity.
  rewrite bind_run.
  (* reading the data *)
  assert (exists o : outcome unit,
            match data with
            | Some data => Entity_deserialize r data
            | None => mret tt
            end w0 = o /\ only_data_of r w0 (final_world o)) as (o & -> & Hod).
  { eexists. split; [reflexivity|]. destruct data as [data|].
    - apply only_data_of_deserialize.
    - apply only_data_of_refl. }
  destruct o as [[] w1|]; [|done]. cbn [final_world] in Hod.
  destruct Hod as (Hoth & Hobj & _ & _ & Htc & Hinst & Hcaches & _).
  destruct (Hobj _ Hr0) as (e1 & He1 & Hc1 & Ha1 & Hs1 & _).
  entity_fields.
  erewrite bind_Ret by (by apply deref_live).
  (* the uid *)
  rewrite bind_run.
  assert (exists e2 w2,
            (if decide (_uid e1 = VNone)
             then uid ← Entity_make_uid cls; update_entity r (set_uid uid)
             else mret tt) w1 = Ret tt w2 /\
            heap w2 !! r = Some e2 /\
            __class__ e2 = cls /\ active e2 = a /\ _savable e2 = s /\
            _uid e2 <> VNone /\
            _instances w2 = _instances w /\ _caches w2 = _caches w)
    as (e2 & w2 & -> & He2 & Hc2 & Ha2 & Hs2 & Hu2 & Hinst2 & Hcaches2).
  { case_decide as Hnone.
    - eexists _, _. split.
      { erewrite bind_Ret by apply make_uid_run.
        apply update_entity_run. cbn [heap set_uid_timecode]. exact He1. }
      split; [apply heap_put_entity|]. by repeat split.
    - exists e1, w1. by repeat split. }
  erewrite bind_Ret by (by apply deref_live).
  erewrite bind_Ret by reflexivity.
  erewrite bind_Ret by apply get_cache_run.
  set (w3 := set_instances _ _).
  assert (heap w3 !! r = Some e2) as Hr3 by done.
  assert ((_uid e2, r) ∈ instances_entries w3 cls) as Hreg.
  { unfold instances_entries at 1, w3. cbn [_instances set_instances].
    rewrite lookup_insert_eq. apply odict_set_elem. }
  assert (odict_get (_uid e2) (instances_entries w3 cls) = Some r) as Hfirst.
  { unfold instances_entries at 1, w3. cbn [_instances set_instances].
    rewrite lookup_insert_eq. apply odict_get_set. }
  assert (forall name, name <> __name__ (cls_def cls) ->
            _instances w3 !! name = _instances w !! name) as Hothers.
  { intros name Hname. unfold w3. cbn [_instances set_instances].
    rewrite lookup_insert_ne by done. by rewrite Hinst2. }
  assert (cache_of w3 cls (get_key_name cls) = cache_of w cls (get_key_name cls))
    as Hcache by (by apply cache_of_caches).
  rewrite bind_run.
  destruct (cache_of w3 cls (get_key_name cls)) as [c|] eqn:Hc.
  - rewrite bind_run. unfold key_of at 1.
    rewrite bind_run, (deref_live r e2) by done.
    destruct (key e2) as [err|k] eqn:Hk; [done|].
    change (lift (inr k) w3) with (Ret k w3). cbv beta iota.
    destruct (lru_contains k c) eqn:Hin; cbn [negb].
    + intros [= <- <-]. split; [done|]. exists e2.
      repeat (split; [done|]). split; [|done].
      intros c'. rewrite Hc. intros [= <-]. by exists k.
    + destruct (lru_setitem cls (get_key_name cls) k r w3) as [[] w4|] eqn:Hset;
        [|done].
      intros [= <- <-].
      destruct (lru_setitem_frame _ _ _ _ _ _ Hset) as [Hh Hi].
      split; [done|]. exists e2. split.
      * rewrite Hh; [done|]. intros c' k0 Hc' Hlast.
        rewrite Hc in Hc'. injection Hc' as <-.
        destruct (Hlive c k0 r) as [e0 He0].
        -- by rewrite <- Hcache.
        -- rewrite (removelast_last _ _ Hlast). apply elem_of_app. right. left.
        -- unfold r in He0. by rewrite fresh_not_live in He0.
      * repeat (split; [done|]). split; [|split; [|split]].
        -- unfold instances_entries in *. by rewrite Hi.
        -- intros name Hname. rewrite Hi. by apply Hothers.
        -- intros c' Hc'. exists k. split; [done|].
           by apply (lru_setitem_contains _ _ _ _ _ _ Hset).
        -- unfold instances_entries in *. by rewrite Hi.
  - intros [= <- <-]. split; [done|]. exists e2.
    repeat (split; [done|]). split; [|done]. intros c'. by rewrite Hc.
Qed.

(** [Entity.__init__] without data, when the key of the new entity is
    readable and nothing is evicted. *)
Lemma init_run_fresh (cls : EntityClass) (a : pyval) (s : bool) (w : World)
    (k : pyval) :
  let r := fresh (dom (heap w)) in
  let u := make_uid (_uid_code cls) (TIMERS_time w) (__uid_timecode w) in
  let e := set_uid (VStr u.1) (blank_entity cls a s) in
  key e = inr k ->
  no_eviction w cls k ->
  Entity__init__ cls None a s w = Ret r (constructed cls r e u.2 k w).
Proof.
  intros r u e Hk Hroom. unfold Entity__init__.
  erewrite bind_Ret by apply alloc_run. fold r. fold (blank_entity cls a s).
  erewrite bind_Ret by reflexivity.
  erewrite bind_Ret by (apply deref_live, heap_put_entity).
  erewrite bind_Ret; cycle 1.
  { rewrite decide_True by done.
    erewrite bind_Ret by apply make_uid_run.
    apply update_entity_run. cbn [heap set_uid_timecode]. apply heap_put_entity. }
  cbn [TIMERS_time __uid_timecode put_entity set_heap].
  fold u. fold (put_entity r (blank_entity cls a s) w).
  rewrite put_entity_set_uid_timecode. fold e.
  erewrite bind_Ret by (apply deref_live, heap_put_entity).
  erewrite bind_Ret by reflexivity.
  erewrite bind_Ret by apply get_cache_run.
  unfold constructed. cbv zeta.
  set (w2 := set_instances _ _).
  assert (heap w2 !! r = Some e) as Hr by apply heap_put_entity.
  assert (cache_of w2 cls (get_key_name cls) = cache_of w cls (get_key_name cls))
    as Hcache by reflexivity.
  unfold no_eviction in Hroom. rewrite <- Hcache in Hroom.
  destruct (cache_of w2 cls (get_key_name cls)) as [c|] eqn:Hc.
  - erewrite bind_Ret; [reflexivity|].
    erewrite bind_Ret by (by apply (key_of_live r e k)).
    destruct (lru_contains k c) eqn:Hin; [reflexivity|].
    cbn [negb]. apply (lru_setitem_room cls _ k r w2 c); [done|done|].
    by destruct Hroom.
  - by erewrite bind_Ret.
Qed.

(** X13.  What the constructor hands back.  Whatever record it is given
    (or none), whenever [Entity.__init__] returns, the object is a new one,
    of the class, [active] and [savable] asked for; it has a uid that is not
    [None] and is registered under that uid in the instance registry of its
    class, the registries of the other classes being as before.  And without
    a record the constructor does return, when the key of the new entity can
    be read and nothing has to be evicted for it: the entity then carries
    the uid the generator issues. *)
Theorem constructor_registers_under_uid
    (cls : EntityClass) (a : pyval) (s : bool) (w : World) :
  cache_refs_live w cls ->
  (forall data y w',
     Entity__init__ cls data a s w = Ret y w' ->
     heap w !! y = None /\
     exists ey,
       heap w' !! y = Some ey /\
       __class__ ey = cls /\ active ey = a /\ _savable ey = s /\
       _uid ey <> VNone /\
       (_uid ey, y) ∈ instances_entries w' cls /\
       (forall name, name <> __name__ (cls_def cls) ->
          _instances w' !! name = _instances w !! name)) /\
  (forall k,
     let u := make_uid (_uid_code cls) (TIMERS_time w) (__uid_timecode w) in
     key (set_uid (VStr u.1) (blank_entity cls a s)) = inr k ->
     no_eviction w cls k ->
     exists y w' ey,
       Entity__init__ cls None a s w = Ret y w' /\
       heap w' !! y = Some ey /\
       _uid ey = VStr u.1 /\
       __uid_timecode w' = u.2).
Proof.
  intros Hlive. split.
  - intros data y w' Hrun.
    destruct (init_object cls data a s w w' y Hlive Hrun)
      as (-> & ey & Hy & Hc & Ha & Hs & Hu & Hreg & Hoth & _ & _).
    split; [apply fresh_not_live|]. by exists ey.
  - intros k u Hk Hroom.
    pose proof (init_run_fresh cls a s w k Hk Hroom) as Hrun.
    cbv zeta in Hrun. fold u in Hrun.
    eexists _, _, _. split; [exact Hrun|]. split.
    + rewrite heap_constructed. apply lookup_insert_eq.
    + split; [done|].
      unfold constructed. cbv zeta.
      destruct (cache_of _ cls (get_key_name cls)) as [c|]; [|done].
      by destruct (lru_contains k c).
Qed.

Lemma instances_values_elem (w : World) (cls : EntityClass) (r : nat)
    (e : Entity) :
  (r, e) ∈ instances_values w cls <->
  (exists u, (u, r) ∈ instances_entries w cls) /\ heap w !! r = Some e.
Proof.
  unfold instances_values, instances_live.
  rewrite list_elem_of_fmap. split.
  - intros ([u [r' e']] & [= <- <-] & Hin).
    apply list_elem_of_omap in Hin as ([u' r'] & Hin & Hsome).
    cbn in Hsome. destruct (heap w !! r') as [e'|] eqn:He; [|done].
    injection Hsome as <- <- <-. split; [by exists u'|done].
  - intros [[u Hin] He]. exists (u, (r, e)). split; [done|].
    apply list_elem_of_omap. exists (u, r). split; [done|].
    cbn. by rewrite He.
Qed.

(** X14.  [all] lists the active instances.  It returns, without changing
    anything, exactly the live registered instances of the class whose
    [active] mark is true.  So an entity is listed right after its
    construction exactly when it was constructed active: one constructed
    with the default [active=False], as [reconstruct], [load] and [clone]
    construct theirs, is not. *)
Theorem all_lists_the_active_instances (cls : EntityClass) (w : World) :
  (exists l,
     Entity_all cls w = Ret l w /\
     forall r, r ∈ l <->
       exists u e, (u, r) ∈ instances_entries w cls /\
                   heap w !! r = Some e /\ truthy (active e) = true) /\
  (forall data a s y w',
     cache_refs_live w cls ->
     Entity__init__ cls data a s w = Ret y w' ->
     exists l, Entity_all cls w' = Ret l w' /\
               (y ∈ l <-> truthy a = true)).
Proof.
  assert (forall w0 r,
            r ∈ (filter (fun re : nat * Entity => truthy (active re.2) = true)
                        (instances_values w0 cls)).*1 <->
            exists u e, (u, r) ∈ instances_entries w0 cls /\
                        heap w0 !! r = Some e /\ truthy (active e) = true)
    as Hspec.
  { intros w0 r. rewrite list_elem_of_fmap. split.
    - intros ([r' e] & -> & Hin). apply list_elem_of_filter in Hin as [Hact Hin].
      apply instances_values_elem in Hin as [[u Hu] He]. by exists u, e.
    - intros (u & e & Hu & He & Hact). exists (r, e). split; [done|].
      apply list_elem_of_filter. split; [done|].
      apply instances_values_elem. split; [by exists u|done]. }
  split.
  - eexists. split; [reflexivity|]. apply Hspec.
  - intros data a s y w' Hlive Hrun.
    destruct (init_object cls data a s w w' y Hlive Hrun)
      as (_ & ey & Hy & _ & Ha & _ & _ & Hreg & _ & _ & _).
    eexists. split; [reflexivity|]. rewrite Hspec. split.
    + intros (u & e & _ & He & Hact). congruence.
    + intros Hact. exists (_uid ey), ey. by rewrite Ha.
Qed.

(** X15.  A constructor that fails on its record registers nothing.  When
    the flags of the record are not iterable ([None] or a number),
    [Entity.__init__] raises [TypeError]: by then the new object has taken
    the uid of the record, if there was one, but it is in no registry and in
    no cache, the generator was not asked, and no live object, store or log
    line has changed. *)
Theorem constructor_fails_before_registering
    (cls : EntityClass) (data : record) (a : pyval) (s : bool) (w : World)
    (v : atom) :
  data !! "flags" = Some (VAtom v) ->
  (forall str, v <> AStr str) ->
  exists w',
    Entity__init__ cls (Some data) a s w
    = Exc (TypeError "argument after * must be an iterable") w' /\
    (forall r, is_Some (heap w !! r) -> heap w' !! r = heap w !! r) /\
    _instances w' = _instances w /\
    _caches w' = _caches w /\
    __uid_timecode w' = __uid_timecode w /\
    stores w' = stores w /\
    log w' = log w.
Proof.
  intros Hfl Hv. unfold Entity__init__.
  set (r := fresh (dom (heap w))).
  erewrite bind_Ret by apply alloc_run. fold r. fold (blank_entity cls a s).
  set (w0 := put_entity r (blank_entity cls a s) w).
  assert (forall r', is_Some (heap w !! r') -> r' <> r) as Hfresh.
  { intros r' [e He] ->. unfold r in He. by rewrite fresh_not_live in He. }
  assert (exists w1,
            Entity_deserialize r data w0
            = Exc (TypeError "argument after * must be an iterable") w1 /\
            only_data_of r w0 w1) as (w1 & Hrun & Hod).
  { pose proof (only_data_of_deserialize r data w0) as Hod.
    assert (raised (Entity_deserialize r data w0)
            = Some (TypeError "argument after * must be an iterable")) as Hexc.
    { unfold Entity_deserialize.
      rewrite bind_run.
      assert (exists w1,
                match base.delete "type" data !! "uid" with
                | Some u => update_entity r (set_uid u)
                | None => mret tt
                end w0 = Ret tt w1) as [w1 ->].
      { destruct (base.delete "type" data !! "uid"); by eexists. }
      rewrite bind_run.
      repeat (rewrite lookup_delete_ne by done). rewrite Hfl.
      rewrite bind_run.
      destruct v as [|z|str]; [done|done|]. by destruct (Hv str). }
    destruct (Entity_deserialize r data w0) as [|err w1]; [done|].
    injection Hexc as ->. by exists w1. }
  exists w1. split; [by rewrite bind_run, Hrun|].
  destruct Hod as (Hoth & _ & _ & _ & Htc & Hinst & Hcaches & Hstores & _ & Hlog).
  split.
  { intros r' Hr'. rewrite Hoth by (by apply Hfresh).
    unfold w0. by rewrite heap_put_entity_ne by (by apply Hfresh). }
  by repeat split.
Qed.

(* ===================================================================== *)
(** ** The limit of [find] *)
(* ===================================================================== *)

Lemma unpack_pairs_odd (args : list pyval) :
  (Nat.odd (length args) = true ->
   unpack_pairs args = inl (ValueError "not enough values to unpack")) /\
  (forall a, Nat.odd (length (a :: args)) = true ->
   unpack_pairs (a :: args) = inl (ValueError "not enough values to unpack")).
Proof.
  induction args as [|b rest [IH1 IH2]].
  - split; [done|]. by intros a _.
  - split; [by apply IH2|].
    intros a Hodd. change (Nat.odd (length rest) = true) in Hodd.
    cbn [unpack_pairs]. by rewrite IH1.
Qed.

Lemma found_add_length (r : nat) (found : list nat) :
  (length (found_add r found) <= S (length found))%nat.
Proof.
  unfold found_add. case_decide; [lia|]. rewrite length_app. cbn. lia.
Qed.

Lemma found_add_NoDup (r : nat) (found : list nat) :
  NoDup found -> NoDup (found_add r found).
Proof.
  intros Hnd. unfold found_add. case_decide as Hin; [done|].
  apply NoDup_app. split; [done|]. split; [|apply NoDup_singleton].
  intros r' Hr' Hr''. apply list_elem_of_singleton in Hr'' as ->. done.
Qed.

Lemma limit_not_reached (n : Z) (found : list nat) :
  n <> 0 -> limit_reached n found = false -> Z.of_nat (length found) < n.
Proof.
  unfold limit_reached. intros Hn H.
  apply andb_false_iff in H as [H|H].
  - apply negb_false_iff, Z.eqb_eq in H. done.
  - apply bool_decide_eq_false in H. lia.
Qed.

(** The scan of the registry adds no entity twice and stops at the
    limit. *)
Lemma find_in_cache_bound (ents : list (nat * Entity))
    (pairs : list (pyval * pyval)) (m : match_fn) (n : Z) :
  forall found checked found' checked',
    find_in_cache ents pairs m n found checked = inr (found', checked') ->
    (NoDup found -> NoDup found') /\
    (n <> 0 ->
     Z.of_nat (length found') <= Z.max (Z.of_nat (length found) + 1) n).
Proof.
  induction ents as [|[r0 e0] ents IH]; intros found checked found' checked' Hrun.
  - cbn in Hrun. simplify_eq. split; [done|]. lia.
  - cbn [find_in_cache] in Hrun.
    destruct (entity_matches e0 pairs) as [|ms]; [done|].
    destruct (apply_match m ms).
    + pose proof (found_add_length r0 found) as Hlen.
      destruct (limit_reached n (found_add r0 found)) eqn:Hlim; cbn [andb] in Hrun.
      * simplify_eq. split; [apply found_add_NoDup|]. lia.
      * destruct (key e0) as [|k]; [done|].
        destruct (IH _ _ _ _ Hrun) as [Hnd Hb].
        split; [intros ?; by apply Hnd, found_add_NoDup|].
        intros Hn. specialize (Hb Hn).
        pose proof (limit_not_reached n _ Hn Hlim). lia.
    + cbn [andb] in Hrun. destruct (key e0) as [|k]; [done|].
      by apply (IH _ _ _ _ Hrun).
Qed.

(** The scan of the store adds no entity twice and stops at the limit. *)
Lemma find_in_store_bound (st : nat) (pairs : list (pyval * pyval))
    (m : match_fn) (n : Z) (keys : list pyval) :
  forall found checked w found' w',
    find_in_store st keys pairs m n found checked w = Ret found' w' ->
    (NoDup found -> NoDup found') /\
    (n <> 0 ->
     Z.of_nat (length found') <= Z.max (Z.of_nat (length found) + 1) n).
Proof.
  induction keys as [|k keys IH]; intros found checked w found' w' Hrun.
  - change (Ret found w = Ret found' w') in Hrun. simplify_eq.
    split; [done|]. lia.
  - cbn [find_in_store] in Hrun.
    destruct (decide (k ∈ checked)); [by apply (IH _ _ _ _ _ Hrun)|].
    rewrite bind_run, except_KeyError_store_get in Hrun.
    destruct (store_contents w st !! k) as [data|];
      [|by apply (IH _ _ _ _ _ Hrun)].
    destruct (bool_decide (data ≠ ∅) && apply_match m (record_matches data pairs));
      [|by apply (IH _ _ _ _ _ Hrun)].
    rewrite bind_run in Hrun.
    destruct (Entity_reconstruct data w) as [entity w1|]; [|done].
    rewrite bind_run in Hrun.
    change (update_entity entity (set_dirty false) w1) with
      (Ret tt (set_heap (alter (set_dirty false) entity (heap w1)) w1)) in Hrun.
    cbv beta iota in Hrun.
    pose proof (found_add_length entity found) as Hlen.
    destruct (limit_reached n (found_add entity found)) eqn:Hlim.
    + change (@mret M _ _ (found_add entity found) ?w0) with
        (Ret (found_add entity found) w0) in Hrun.
      simplify_eq. split; [apply found_add_NoDup|]. lia.
    + destruct (IH _ _ _ _ _ Hrun) as [Hnd Hb].
      split; [intros ?; by apply Hnd, found_add_NoDup|].
      intros Hn. specialize (Hb Hn).
      pose proof (limit_not_reached n _ Hn Hlim). lia.
Qed.

(** X18.  The limit of [find].  An odd number of positional arguments
    raises [ValueError] before anything is looked at.  Whenever [find]
    returns, its result holds no entity twice and, for a positive [n], at
    most [n] entities.  A negative [n] gives at most one entity and keeps
    [find] from reading the store at all.  Without the store ([store=False],
    or a negative [n]) [find] changes nothing in the process, whether it
    returns or raises. *)
Theorem find_respects_limit
    (cls : EntityClass) (args : list pyval) (cache store : bool)
    (m : match_fn) (n : Z) (w : World) :
  (Nat.odd (length args) = true ->
   Entity_find cls args cache store m n w
   = Exc (ValueError "not enough values to unpack") w) /\
  (forall res w',
     Entity_find cls args cache store m n w = Ret res w' ->
     NoDup (found_entities res) /\
     (0 < n -> Z.of_nat (length (found_entities res)) <= n) /\
     (n < 0 -> (length (found_entities res) <= 1)%nat)) /\
  (store = false \/ n < 0 ->
   final_world (Entity_find cls args cache store m n w) = w).
Proof.
  split.
  { intros Hodd. unfold Entity_find.
    by rewrite bind_run, (proj1 (unpack_pairs_odd args) Hodd). }
  destruct (unpack_pairs args) as [err|pairs] eqn:Hp.
  { unfold Entity_find. rewrite bind_run, Hp. split; [done|]. by intros _. }
  destruct (find_cache_phase w cls pairs cache m n) as [err|[found checked]] eqn:Hc.
  { assert (Entity_find cls args cache store m n w = Exc err w) as ->.
    { unfold Entity_find, find_cache_phase in *.
      rewrite bind_run, Hp. change (lift (inr pairs) w) with (Ret pairs w).
      cbv beta iota. rewrite bind_run. change (get_world w) with (Ret w w).
      cbv beta iota. rewrite bind_run. destruct cache; [|done]. by rewrite Hc. }
    split; [done|]. by intros _. }
  rewrite (find_run cls args cache store m n w pairs found checked Hp Hc).
  assert (NoDup found /\
          (n <> 0 -> Z.of_nat (length found) <= Z.max 1 n)) as [Hnd Hb].
  { unfold find_cache_phase in Hc. destruct cache.
    - destruct (find_in_cache_bound _ _ _ _ _ _ _ _ Hc) as [H1 H2].
      split; [apply H1; constructor|]. intros Hn. specialize (H2 Hn). cbn in H2. lia.
    - simplify_eq. split; [constructor|]. cbn. lia. }
  assert (forall found0,
            NoDup found0 ->
            (n <> 0 -> Z.of_nat (length found0) <= Z.max 1 n) ->
            NoDup (found_entities (find_return n found0)) /\
            (0 < n -> Z.of_nat (length (found_entities (find_return n found0))) <= n) /\
            (n < 0 -> (length (found_entities (find_return n found0)) <= 1)%nat))
    as Hret.
  { intros found0 Hnd0 Hb0. unfold find_return. case_decide as Hn1.
    - subst n. cbn [found_entities]. destruct (head found0); cbn.
      + split; [apply NoDup_singleton|]. split; [lia|lia].
      + split; [constructor|]. split; [lia|lia].
    - cbn [found_entities]. split; [done|].
      split; intros Hn; specialize (Hb0 ltac:(lia)); lia. }
  destruct (store && (Z.eqb n 0 || Z.ltb (Z.of_nat (length found)) n)) eqn:Hstore.
  - apply andb_true_iff in Hstore as [-> Hphase].
    destruct (_store cls) as [st|].
    + split.
      * intros res w'.
        destruct (find_in_store st _ pairs m n found checked w)
          as [found' w1|] eqn:Hfs; [|done].
        intros [= <- <-].
        destruct (find_in_store_bound _ _ _ _ _ _ _ _ _ _ Hfs) as [H1 H2].
        apply Hret; [by apply H1|]. intros Hn. specialize (H2 Hn).
        apply orb_true_iff in Hphase as [Hz|Hlt].
        -- apply Z.eqb_eq in Hz. done.
        -- apply Z.ltb_lt in Hlt. lia.
      * intros [?|Hneg]; [done|]. exfalso.
        apply orb_true_iff in Hphase as [Hz|Hlt].
        -- apply Z.eqb_eq in Hz. lia.
        -- apply Z.ltb_lt in Hlt. lia.
    + split; [done|]. by intros _.
  - split; [|by intros _].
    intros res w' [= <- <-]. by apply Hret.
Qed.

(* ===================================================================== *)
(** ** Saving all dirty instances *)
(* ===================================================================== *)

Lemma swept_refl (w : World) : swept w w.
Proof. split; [by left|done]. Qed.

Lemma swept_trans (w1 w2 w3 : World) : swept w1 w2 -> swept w2 w3 -> swept w1 w3.
Proof.
  intros (H1 & H2 & H3) (G1 & G2 & G3).
  split; [|split; congruence].
  intros r. destruct (H1 r) as [Hsame|(e & He & Hs & Hd & He')].
  - destruct (G1 r) as [Gsame|(e & He & Hs & Hd & He')].
    + left. congruence.
    + right. exists e. rewrite <- Hsame. done.
  - right. exists e. repeat (split; [done|]).
    destruct (G1 r) as [Gsame|(e2 & He2 & _ & Hd2 & _)]; [congruence|].
    rewrite He' in He2. injection He2 as <-. done.
Qed.

Lemma swept_live (w w' : World) (r : nat) :
  swept w w' -> (is_Some (heap w !! r) <-> is_Some (heap w' !! r)).
Proof.
  intros (H & _). destruct (H r) as [->|(e & -> & _ & _ & ->)]; [done|].
  split; by eexists.
Qed.

(** An object that needs no saving is left as it is. *)
Lemma swept_clean (w w' : World) (r : nat) (e : Entity) :
  swept w w' -> heap w !! r = Some e ->
  is_savable e && is_dirty e = false -> heap w' !! r = Some e.
Proof.
  intros (H & _) He Hclean.
  destruct (H r) as [->|(e0 & He0 & Hs & Hd & _)]; [done|].
  simplify_eq. by rewrite Hs, Hd in Hclean.
Qed.

Lemma swept_sweepable (w w' : World) : swept w w' -> sweepable w -> sweepable w'.
Proof.
  intros (H & _) Hsw r e He Hs Hd.
  destruct (H r) as [Hsame|(e0 & _ & _ & _ & He0)].
  - apply (Hsw r); [congruence|done..].
  - rewrite He0 in He. injection He as <-. done.
Qed.

Lemma saved_clean (e : Entity) : is_savable (saved e) && is_dirty (saved e) = false.
Proof. unfold is_dirty, saved. entity_fields. apply andb_false_r. Qed.

(** Saving a dirty savable object is a sweep. *)
Lemma save_swept (w : World) (r : nat) (e : Entity) :
  sweepable w -> heap w !! r = Some e ->
  is_savable e = true -> is_dirty e = true ->
  exists w', Entity_save r w = Ret tt w' /\ swept w w' /\
             heap w' !! r = Some (saved e).
Proof.
  intros Hsw He Hs Hd.
  destruct (Hsw r e He Hs Hd) as [Hkn [k Hk]].
  unfold is_savable in Hs. apply andb_true_iff in Hs as [Hst Hsav].
  apply bool_decide_eq_true in Hst as [st Hst].
  eexists. split; [by apply (save_run w r e st k)|].
  split; [|apply heap_put_entity].
  split; [|done]. intros r'. destruct (decide (r' = r)) as [->|Hne].
  - right. exists e. split; [done|]. split.
    { unfold is_savable. by rewrite Hst, Hsav, bool_decide_eq_true_2. }
    split; [done|]. apply heap_put_entity.
  - left. by rewrite heap_put_entity_ne.
Qed.

Lemma sweep_instances (instances : list nat) :
  forall count w,
    sweepable w ->
    (forall r, r ∈ instances -> is_Some (heap w !! r)) ->
    exists n w',
      save_dirty_instances instances count w = Ret n w' /\
      swept w w' /\
      forall r e', r ∈ instances -> heap w' !! r = Some e' ->
        is_savable e' && is_dirty e' = false.
Proof.
  induction instances as [|r rest IH]; intros count w Hsw Hlive.
  - exists count, w. split; [done|]. split; [apply swept_refl|].
    intros r e' Hin. by apply elem_of_nil in Hin.
  - destruct (Hlive r) as [e He]; [left|].
    cbn [save_dirty_instances].
    erewrite bind_Ret by (by apply deref_live).
    destruct (is_savable e && is_dirty e) eqn:Hneeds.
    + apply andb_true_iff in Hneeds as [Hs Hd].
      destruct (save_swept w r e Hsw He Hs Hd) as (w1 & Hrun & Hswept & He1).
      erewrite bind_Ret by apply Hrun.
      destruct (IH (S count) w1) as (n & w' & Hrest & Hswept' & Hpost).
      { by apply (swept_sweepable w). }
      { intros r' Hr'. apply (swept_live w w1 r' Hswept), Hlive. by right. }
      exists n, w'. split; [done|]. split; [by apply (swept_trans w w1)|].
      intros r' e' Hin He'. apply elem_of_cons in Hin as [->|Hin]; [|by eauto].
      rewrite (swept_clean w1 w' r (saved e) Hswept' He1 (saved_clean e)) in He'.
      injection He' as <-. apply saved_clean.
    + destruct (IH count w Hsw) as (n & w' & Hrest & Hswept' & Hpost).
      { intros r' Hr'. apply Hlive. by right. }
      exists n, w'. split; [done|]. split; [done|].
      intros r' e' Hin He'. apply elem_of_cons in Hin as [->|Hin]; [|by eauto].
      rewrite (swept_clean w w' r e Hswept' He Hneeds) in He'. by simplify_eq.
Qed.

Lemma swept_instances_values (w w' : World) (cls : EntityClass) (r : nat)
    (e' : Entity) :
  swept w w' -> (r, e') ∈ instances_values w' cls ->
  r ∈ (instances_values w cls).*1.
Proof.
  intros Hswept Hin. apply instances_values_elem in Hin as [[u Hu] He'].
  assert (is_Some (heap w !! r)) as [e He].
  { apply (swept_live w w' r Hswept). by eexists. }
  apply list_elem_of_fmap. exists (r, e). split; [done|].
  apply instances_values_elem. split; [|done]. exists u.
  destruct Hswept as (_ & Hinst & _).
  unfold instances_entries in *. by rewrite <- Hinst.
Qed.

Lemma sweep_classes (entities : list EntityClass) :
  forall count w,
    sweepable w ->
    exists n w',
      save_registered entities count w = Ret n w' /\
      swept w w' /\
      forall cls r e', cls ∈ entities -> (r, e') ∈ instances_values w' cls ->
        is_savable e' && is_dirty e' = false.
Proof.
  induction entities as [|entity rest IH]; intros count w Hsw.
  - exists count, w. split; [done|]. split; [apply swept_refl|].
    intros cls r e' Hin. by apply elem_of_nil in Hin.
  - cbn [save_registered]. erewrite bind_Ret by reflexivity.
    destruct (sweep_instances (instances_values w entity).*1 count w Hsw)
      as (n1 & w1 & Hrun1 & Hswept1 & Hpost1).
    { intros r Hr. apply list_elem_of_fmap in Hr as ([r' e] & -> & Hin).
      apply instances_values_elem in Hin as [_ He]. by eexists. }
    erewrite bind_Ret by apply Hrun1.
    destruct (IH n1 w1) as (n & w' & Hrest & Hswept' & Hpost).
    { by apply (swept_sweepable w). }
    exists n, w'. split; [done|].
    pose proof (swept_trans w w1 w' Hswept1 Hswept') as Hswept.
    split; [done|].
    intros cls r e' Hin Hval. apply elem_of_cons in Hin as [->|Hin]; [|by eauto].
    pose proof (swept_instances_values w w' entity r e' Hswept Hval) as Hr.
    assert (is_Some (heap w1 !! r)) as [e1 He1].
    { apply instances_values_elem in Hval as [_ He'].
      apply (swept_live w1 w' r Hswept'). by eexists. }
    pose proof (Hpost1 r e1 Hr He1) as Hclean.
    apply instances_values_elem in Hval as [_ He'].
    rewrite (swept_clean w1 w' r e1 Hswept' He1 Hclean) in He'. by simplify_eq.
Qed.

(** X19.  A sweep leaves nothing dirty.  When every dirty savable object
    has a readable key, [EntityManager.save] returns, and afterwards no
    live instance of a registered class is both savable and dirty.  The
    sweep only saves: an object that was not both savable and dirty is
    exactly as before, every other object is as [save] leaves it, and the
    instance registries and the caches are untouched. *)
Theorem manager_save_leaves_nothing_dirty (self : EntityManager) (w : World) :
  sweepable w ->
  exists w',
    EntityManager_save self w = Ret tt w' /\
    (forall name cls r e',
       (name, cls) ∈ _entities self ->
       (r, e') ∈ instances_values w' cls ->
       is_savable e' && is_dirty e' = false) /\
    (forall r e, heap w !! r = Some e ->
       is_savable e && is_dirty e = false -> heap w' !! r = Some e) /\
    swept w w'.
Proof.
  intros Hsw.
  destruct (sweep_classes (_entities self).*2 0%nat w Hsw)
    as (n & w' & Hrun & Hswept & Hpost).
  exists w'. split.
  { unfold EntityManager_save. by erewrite bind_Ret by apply Hrun. }
  split; [|split; [|done]].
  - intros name cls r e' Hin Hval. apply (Hpost cls r e'); [|done].
    apply list_elem_of_fmap. by exists (name, cls).
  - intros r e He Hclean. by apply (swept_clean w w').
Qed.

(* ===================================================================== *)
(** ** Registering attributes and blobs *)
(* ===================================================================== *)

Section build_commutes.
Context (T : DataBlob -> DataBlob).

Lemma fold_commutes (bs : list PyClass) :
  Forall (fun base => forall st,
            _build_base_blob base (T st.1, st.2)
            = (T (_build_base_blob base st).1, (_build_base_blob base st).2)) bs ->
  forall st,
    fold_left (fun st base => _build_base_blob base st) bs (T st.1, st.2)
    = (T (fold_left (fun st base => _build_base_blob base st) bs st).1,
       (fold_left (fun st base => _build_base_blob base st) bs st).2).
Proof.
  induction 1 as [|base bs Hbase _ IHbs]; intros st; [by destruct st|].
  cbn [fold_left]. rewrite Hbase. apply IHbs.
Qed.

(** A change of the blob that commutes with merging the blob of every
    class of a lineage commutes with the walk over that lineage. *)
Lemma build_commutes (c : PyClass) :
  (forall a b, a ∈ lineage c ->
     _update (T b) (new_base_blob a) = T (_update b (new_base_blob a))) ->
  forall st,
    _build_base_blob c (T st.1, st.2)
    = (T (_build_base_blob c st).1, (_build_base_blob c st).2).
Proof.
  induction c as [n bs a b IH] using PyClass_ind. intros Hcomm st.
  rewrite !build_unfold. cbn [__bases__ __name__].
  set (c := Class n bs a b) in *.
  rewrite fold_commutes; cycle 1.
  { rewrite Forall_forall in IH. apply Forall_forall. intros base Hb.
    apply (IH base Hb). intros a0 b0 Ha0. apply Hcomm.
    by apply (lineage_base c base). }
  cbv zeta. cbn [fst snd].
  destruct (issubclass_Entity c); [|done].
  case_decide; [done|]. cbn [fst snd]. f_equal.
  apply Hcomm, lineage_self.
Qed.

(** The walk that composes the blob of a class, started from the changed
    blob of the class. *)
Lemma composed_commutes (c c' : PyClass) :
  __name__ c' = __name__ c ->
  __bases__ c' = __bases__ c ->
  new_base_blob c' = T (new_base_blob c) ->
  (forall a b, a ∈ lineage c ->
     _update (T b) (new_base_blob a) = T (_update b (new_base_blob a))) ->
  (forall b, _update (T b) (T (new_base_blob c))
             = T (_update b (new_base_blob c))) ->
  composed_blob c' = T (composed_blob c).
Proof.
  intros Hname Hbases Hnew Hcomm Hlast.
  unfold composed_blob. rewrite !build_unfold. rewrite Hname, Hbases, Hnew.
  assert (issubclass_Entity c' = issubclass_Entity c) as ->.
  { destruct c, c'. cbn in *. by subst. }
  assert (Forall (fun base => forall st,
                    _build_base_blob base (T st.1, st.2)
                    = (T (_build_base_blob base st).1, (_build_base_blob base st).2))
                 (__bases__ c)) as Hbases'.
  { apply Forall_forall. intros base Hb. apply build_commutes.
    intros a0 b0 Ha0. apply Hcomm. by apply (lineage_base c base). }
  pose proof (fold_commutes (__bases__ c) Hbases' (new_base_blob c, ∅)) as Hfold.
  cbn [fst snd] in Hfold. cbv zeta. rewrite Hfold. cbn [fst snd].
  destruct (issubclass_Entity c); [|done].
  case_decide; [done|]. cbn [fst]. apply Hlast.
Qed.
End build_commutes.

Lemma DataBlob_eq (b1 b2 : DataBlob) :
  _blobs b1 = _blobs b2 -> _attrs b1 = _attrs b2 ->
  _attr_values b1 = _attr_values b2 -> b1 = b2.
Proof. destruct b1, b2. cbn. by intros -> -> ->. Qed.

Lemma insert_union_both {V} (m1 m2 : gmap string V) (k : string) (v : V) :
  (<[k := v]> m1) ∪ (<[k := v]> m2) = <[k := v]> (m1 ∪ m2).
Proof.
  apply map_eq. intros i. destruct (decide (i = k)) as [->|Hne].
  - rewrite lookup_insert_eq. apply lookup_union_Some_l, lookup_insert_eq.
  - rewrite lookup_insert_ne by done. rewrite !lookup_union.
    by rewrite !lookup_insert_ne by done.
Qed.

Lemma class_hasattr_false (namespace : gset string) (cls : PyClass)
    (name : string) :
  class_hasattr namespace cls name = false ->
  (name ∉ namespace) /\
  forall a, a ∈ lineage cls ->
    own_attrs a !! name = None /\ own_blobs a !! name = None.
Proof.
  unfold class_hasattr. intros H. apply orb_false_iff in H as [Hns Hlin].
  apply bool_decide_eq_false in Hns. split; [done|].
  intros a Ha.
  assert (name ∉ dom (own_attrs a) ∪ dom (own_blobs a)) as Hn.
  { intros Hin. apply not_true_iff_false in Hlin. apply Hlin.
    apply existsb_exists. exists a. split; [by apply list_elem_of_In|].
    by apply bool_decide_eq_true. }
  apply not_elem_of_union in Hn as [H1 H2].
  by split; apply not_elem_of_dom.
Qed.

Lemma class_hasattr_declared (namespace : gset string) (cls : PyClass)
    (name : string) :
  name ∈ dom (own_attrs cls) ∪ dom (own_blobs cls) ->
  class_hasattr namespace cls name = true.
Proof.
  intros Hin. unfold class_hasattr. apply orb_true_iff. right.
  apply existsb_exists. exists cls. split.
  - apply list_elem_of_In, lineage_self.
  - by apply bool_decide_eq_true.
Qed.

(** X20.  Registering a field.  [register_attr] and [register_blob] raise
    [AlreadyExists] when the class already has an attribute of that name:
    one of its own, one of a class of its lineage, or a name of its
    namespace.  A free name is registered, unless what is decorated is not
    an [Attribute] (or [DataBlob]) class, which raises [TypeError]: the
    class is as before but for the new field, every entity constructed from
    then on holds the composed schema of before with the new attribute at
    its default value (or with the new nested blob), and the name is taken
    for the class. *)
Theorem register_field_extends_schema
    (namespace : gset string) (cls : PyClass) (name : string) :
  (class_hasattr namespace cls name = true ->
   (forall attr_class,
      register_attr namespace cls name attr_class
      = inl (AlreadyExists name None None)) /\
   (forall blob_class,
      register_blob namespace cls name blob_class
      = inl (AlreadyExists name None None))) /\
  (class_hasattr namespace cls name = false ->
   (forall v,
      register_attr namespace cls name (inl v)
      = inl (Raised (TypeError "must be subclass of Attribute to register")) /\
      register_blob namespace cls name (inl v)
      = inl (Raised (TypeError "must be subclass of DataBlob to register"))) /\
   (forall attr_class,
      exists cls',
        register_attr namespace cls name (inr attr_class) = inr cls' /\
        __name__ cls' = __name__ cls /\
        __bases__ cls' = __bases__ cls /\
        composed_blob cls'
        = blob_with_attr (composed_blob cls) name attr_class /\
        class_hasattr namespace cls' name = true) /\
   (forall blob_class,
      exists cls',
        register_blob namespace cls name (inr blob_class) = inr cls' /\
        __name__ cls' = __name__ cls /\
        __bases__ cls' = __bases__ cls /\
        composed_blob cls'
        = blob_with_blob (composed_blob cls) name blob_class /\
        class_hasattr namespace cls' name = true)).
Proof.
  split.
  { intros Hhas. unfold register_attr, register_blob. by rewrite Hhas. }
  intros Hfree.
  destruct (class_hasattr_false namespace cls name Hfree) as [_ Hlin].
  split; [|split].
  - intros v. unfold register_attr, register_blob. by rewrite Hfree.
  - intros attr_class. exists (with_attr cls name attr_class).
    split; [unfold register_attr; by rewrite Hfree|].
    destruct cls as [n bs attrs blobs]. split; [done|]. split; [done|].
    split.
    + apply (composed_commutes (fun b => blob_with_attr b name attr_class));
        [done|done| | |].
      * apply DataBlob_eq; cbn; [done|done|]. by rewrite fmap_insert.
      * intros a b Ha. destruct (Hlin a Ha) as [Hattr _].
        apply DataBlob_eq; cbn; [done| |].
        -- symmetry. by apply insert_union_r.
        -- symmetry. apply insert_union_r. by rewrite lookup_fmap, Hattr.
      * intros b. apply DataBlob_eq; cbn; [done| |]; apply insert_union_both.
    + apply class_hasattr_declared. cbn. rewrite dom_insert_L. set_solver.
  - intros blob_class. exists (with_blob cls name blob_class).
    split; [unfold register_blob; by rewrite Hfree|].
    destruct cls as [n bs attrs blobs]. split; [done|]. split; [done|].
    split.
    + apply (composed_commutes (fun b => blob_with_blob b name blob_class));
        [done|done|by apply DataBlob_eq| |].
      * intros a b Ha. destruct (Hlin a Ha) as [_ Hblob].
        apply DataBlob_eq; cbn; [|done|done].
        symmetry. by apply insert_union_r.
      * intros b. apply DataBlob_eq; cbn; [|done|done]. apply insert_union_both.
    + apply class_hasattr_declared. cbn. rewrite dom_insert_L. set_solver.
Qed.

(** The composed blob holds every attribute at its default value. *)
Lemma build_values_default (c : PyClass) : forall st,
  _attr_values st.1 = default_value <$> _attrs st.1 ->
  _attr_values (_build_base_blob c st).1
  = default_value <$> _attrs (_build_base_blob c st).1.
Proof.
  induction c as [n bs a b IH] using PyClass_ind. intros st Hst.
  rewrite build_unfold. cbn [__bases__ __name__].
  set (c := Class n bs a b).
  assert (forall st, _attr_values st.1 = default_value <$> _attrs st.1 ->
            _attr_values
              (fold_left (fun st base => _build_base_blob base st) bs st).1
            = default_value <$>
                _attrs (fold_left (fun st base => _build_base_blob base st) bs st).1)
    as Hfold.
  { clear -IH. induction IH as [|base bs Hbase _ IHbs]; intros st Hst; simpl; [done|].
    apply IHbs. by apply Hbase. }
  specialize (Hfold st Hst). cbv zeta.
  destruct (issubclass_Entity c); [|done].
  case_decide; [done|]. cbn [fst _update _attr_values _attrs new_base_blob].
  by rewrite map_fmap_union, Hfold.
Qed.

Lemma composed_blob_defaults (c : PyClass) :
  _attr_values (composed_blob c) = default_value <$> _attrs (composed_blob c).
Proof. unfold composed_blob. by apply build_values_default. Qed.

(** X21.  A new entity holds the defaults.  An entity constructed without
    a record (when its key can be read and nothing has to be evicted for
    it) has every attribute of the composed schema of its class at the
    default value of that attribute, so that reading a registered attribute
    gives its default; it has no flags and no tags and is not dirty. *)
Theorem new_entity_holds_defaults
    (cls : EntityClass) (a : pyval) (s : bool) (w : World) (k : pyval) :
  let u := make_uid (_uid_code cls) (TIMERS_time w) (__uid_timecode w) in
  key (set_uid (VStr u.1) (blank_entity cls a s)) = inr k ->
  no_eviction w cls k ->
  exists y w' ey,
    Entity__init__ cls None a s w = Ret y w' /\
    heap w' !! y = Some ey /\
    _attrs (_base_blob ey) = _attrs (composed_blob (cls_def cls)) /\
    _attr_values (_base_blob ey)
    = default_value <$> _attrs (composed_blob (cls_def cls)) /\
    (forall name attr_class,
       _attrs (composed_blob (cls_def cls)) !! name = Some attr_class ->
       name <> "uid" -> name <> "is_dirty" -> name <> "key" ->
       getattr ey name = inr (default_value attr_class)) /\
    flags ey = ∅ /\ tags ey = ∅ /\ is_dirty ey = false.
Proof.
  intros u Hk Hroom.
  pose proof (init_run_fresh cls a s w k Hk Hroom) as Hrun.
  cbv zeta in Hrun. fold u in Hrun.
  eexists _, _, _. split; [exact Hrun|]. split.
  { rewrite heap_constructed. apply lookup_insert_eq. }
  split; [done|]. split; [apply composed_blob_defaults|].
  split; [|done].
  intros name attr_class Hattr Hu Hd Hkey.
  unfold getattr. rewrite decide_False by done.
  unfold getattr_nokey. rewrite decide_False by done. rewrite decide_False by done.
  entity_fields. rewrite Hattr. unfold _get_attr_val.
  by rewrite composed_blob_defaults, lookup_fmap, Hattr.
Qed.

(** X22.  The version of an entity is a number.  On an entity whose schema
    holds [EntityVersion] under ["version"], setting the version to an
    integer (a [bool] is one) succeeds: the version then reads as that
    integer and the entity is dirty.  Setting it to anything else raises
    [TypeError], and leaves the entity alone. *)
Theorem version_accepts_integers_only (e : Entity) (new_value : pyval) :
  _attrs (_base_blob e) !! "version" = Some EntityVersion ->
  match new_value with
  | VAtom (AInt z) =>
      exists e',
        setattr_nokey e "version" new_value = inr e' /\
        getattr e' "version" = inr new_value /\
        is_dirty e' = true /\
        (forall name, name <> "version" -> name <> "is_dirty" -> name <> "key" ->
           getattr e' name = getattr e name) /\
        _uid e' = _uid e /\ flags e' = flags e /\ tags e' = tags e
  | _ =>
      setattr_nokey e "version" new_value
      = inl (TypeError "entity version must be a number")
  end.
Proof.
  intros Hattr.
  assert (forall v, setattr_nokey e "version" v
                    = _set_attr_val EntityVersion "version" v e) as Hset.
  { intros v. unfold setattr_nokey.
    rewrite decide_False by done. rewrite decide_False by done.
    by rewrite Hattr. }
  rewrite Hset. unfold _set_attr_val.
  destruct new_value as [[|z|str]|l|d]; try done. cbn [validate EntityVersion].
  eexists. split; [reflexivity|]. split.
  { unfold getattr. rewrite decide_False by done.
    unfold getattr_nokey. rewrite decide_False by done. rewrite decide_False by done.
    entity_fields. cbn [_attrs _attr_values]. rewrite Hattr.
    unfold _get_attr_val. cbn [_attr_values]. by rewrite lookup_insert_eq. }
  split; [done|]. split; [|done].
  intros name Hn Hd Hk. unfold getattr. rewrite !decide_False by done.
  unfold getattr_nokey. entity_fields. cbn [_attrs _attr_values].
  destruct (decide (name = "uid")); [done|].
  destruct (decide (name = "is_dirty")); [done|].
  destruct (_attrs (_base_blob e) !! name); [|done].
  unfold _get_attr_val. cbn [_attr_values]. by rewrite lookup_insert_ne.
Qed.

(* ===================================================================== *)
(** ** Operations in sequence *)
(* ===================================================================== *)

(** The registry entry a key leads to, when its object is alive, is what a
    reader of the weak dictionary finds under the key. *)
Lemma instances_getitem_first (w : World) (cls : EntityClass) (k : pyval)
    (r : nat) (e : Entity) :
  odict_get k (instances_entries w cls) = Some r ->
  heap w !! r = Some e ->
  instances_getitem w cls k = Some r /\ instances_contains w cls k = true.
Proof.
  unfold instances_getitem, instances_contains, instances_live.
  generalize (instances_entries w cls). intros d Hget He.
  induction d as [|[k' r'] d IH]; [done|].
  cbn in Hget. cbn [omap list_omap]. cbn [fst snd].
  case_decide as Hk.
  - injection Hget as ->. subst k'. rewrite He. cbn.
    rewrite decide_True by done. split; [done|].
    apply bool_decide_eq_true. left.
  - destruct (IH Hget) as [IH1 IH2].
    destruct (heap w !! r') as [e'|]; [|done]. cbn.
    rewrite decide_False by done. split; [done|].
    apply bool_decide_eq_true. right. by apply bool_decide_eq_true in IH2.
Qed.

(** X23.  What was constructed is found.  For a class keyed by uid, right
    after [Entity.__init__] returned an entity, [exists] of its uid is
    [True], and [load] of its uid returns that very object and changes
    nothing: the entity is in the registry, and in the key cache if the
    class has one. *)
Theorem constructed_entity_is_found
    (cls : EntityClass) (data : option record) (a : pyval) (s : bool)
    (w w' : World) (y : nat) :
  get_key_name cls = "uid" ->
  cache_refs_live w cls ->
  Entity__init__ cls data a s w = Ret y w' ->
  exists ey,
    heap w' !! y = Some ey /\
    Entity_exists cls (_uid ey) w' = Ret true w' /\
    (py_hash (_uid ey) = inr tt ->
     forall dflt,
       Entity_load cls (_uid ey) true dflt w' = Ret (Loaded y) w').
Proof.
  intros Hkn Hlive Hrun.
  destruct (init_object cls data a s w w' y Hlive Hrun)
    as (_ & ey & Hy & _ & _ & _ & _ & _ & _ & Hcache & Hfirst).
  destruct (instances_getitem_first w' cls (_uid ey) y ey Hfirst Hy)
    as [Hget Hin].
  exists ey. split; [done|]. split.
  - unfold Entity_exists.
    assert (forall b, (if b : bool then @mret M _ _ true
                       else w0 ← get_world;
                            if decide (get_key_name cls = "uid")
                            then if instances_contains w0 cls (_uid ey)
                                 then mret true else mret false
                            else lift (exists_scan (instances_values w0 cls)
                                                   (_uid ey))) w'
                      = Ret true w') as Hrest.
    { intros [|]; [done|]. rewrite bind_run. cbn [get_world].
      rewrite decide_True by done. by rewrite Hin. }
    destruct (_store cls) as [st|].
    + erewrite bind_Ret by apply store_has_run. apply Hrest.
    + erewrite bind_Ret by reflexivity. apply Hrest.
  - intros Hhash dflt.
    pose proof (load_find_registered w' cls (_uid ey) y Hkn Hhash Hget) as Hfind.
    unfold Entity_load.
    erewrite bind_Ret by apply get_cache_run.
    erewrite bind_Ret by apply Hfind. cbv beta iota.
    erewrite bind_Ret by apply get_cache_run.
    destruct (cache_of w' cls (get_key_name cls)) as [c|] eqn:Hc.
    + destruct (Hcache c eq_refl) as (k & Hk & Hink).
      assert (k = _uid ey) as ->.
      { unfold key in Hk. unfold get_key_name in Hkn.
        destruct (init_object cls data a s w w' y Hlive Hrun)
          as (_ & ey' & Hy' & Hcls & _).
        assert (ey' = ey) as -> by congruence.
        rewrite Hcls, Hkn in Hk. unfold getattr_nokey in Hk.
        rewrite decide_True in Hk by done. by injection Hk. }
      erewrite bind_Ret; [reflexivity|].
      rewrite Hhash. erewrite bind_Ret by reflexivity. by rewrite Hink.
    + by erewrite bind_Ret.
Qed.

(** X24.  Saving twice is saving once.  On a savable entity whose key can
    be read, a second [save] right after the first returns and changes
    nothing. *)
Theorem save_is_idempotent
    (w : World) (x : nat) (e : Entity) (st : nat) (k : pyval) :
  heap w !! x = Some e ->
  _store (__class__ e) = Some st ->
  _savable e = true ->
  _store_key (__class__ e) <> "is_dirty" ->
  key e = inr k ->
  (Entity_save x;; Entity_save x) w = Entity_save x w /\
  returned (Entity_save x w) = Some tt.
Proof.
  intros Hx Hst Hsav Hkn Hk.
  rewrite (save_run w x e st k) by done. split; [|done].
  erewrite bind_Ret by (by apply save_run).
  set (w' := put_entity x (saved e) _).
  assert (heap w' !! x = Some (saved e)) as Hx' by apply heap_put_entity.
  assert (key (saved e) = inr k) as Hk'.
  { unfold saved. by rewrite key_set_dirty_tags. }
  rewrite (save_run w' x (saved e) st k) by done.
  f_equal.
  assert (tags (saved e) !! "_old_key" = None) as Hgone.
  { unfold saved. entity_fields. apply lookup_delete_eq. }
  assert (saved (saved e) = saved e) as Hsaved.
  { apply Entity_eq; unfold saved; entity_fields; try reflexivity.
    apply delete_id. apply lookup_delete_eq. }
  rewrite Hsaved. rewrite put_entity_id by done.
  apply World_eq; world_fields; try reflexivity.
  unfold w'. rewrite store_contents_put_entity, store_contents_set_stores.
  world_fields. rewrite insert_insert_eq. f_equal.
  unfold saved_store at 1. rewrite Hgone, Hsaved.
  unfold saved_store. by rewrite insert_insert_eq.
Qed.

(** [delete] when neither the key cache nor the store holds the key. *)
Lemma delete_nothing (w : World) (x : nat) (e : Entity) (k : pyval) :
  heap w !! x = Some e ->
  key e = inr k ->
  (forall c, cache_of w (__class__ e) (get_key_name (__class__ e)) = Some c ->
     lru_contains k c = false) ->
  (forall st, _store (__class__ e) = Some st ->
     store_contents w st !! k = None) ->
  Entity_delete x w = Ret tt w.
Proof.
  intros Hx Hk Hcache Hstore. unfold Entity_delete.
  erewrite bind_Ret by (by apply deref_live).
  erewrite bind_Ret by apply get_cache_run. cbv zeta.
  erewrite (bind_Ret _ _ w w tt); cycle 1.
  { destruct (cache_of w (__class__ e) (get_key_name (__class__ e)))
      as [c|] eqn:Hc; [|done].
    case_bool_decide; [|done].
    erewrite bind_Ret by (by apply (key_of_live x e k)).
    by rewrite (Hcache c). }
  destruct (_store (__class__ e)) as [st|]; [|done].
  erewrite bind_Ret by (by apply (key_of_live x e k)).
  erewrite bind_Ret by apply store_has_run.
  rewrite bool_decide_eq_false_2; [done|].
  rewrite (Hstore st eq_refl). by intros [? [=]].
Qed.

(** X25.  Deleting twice is deleting once.  A second [delete] right after
    the first returns and changes nothing; and [delete] on an entity whose
    key is neither in the key cache nor in the store changes nothing in the
    first place. *)
Theorem delete_is_idempotent (w : World) (x : nat) (e : Entity) (k : pyval) :
  heap w !! x = Some e ->
  key e = inr k ->
  (Entity_delete x;; Entity_delete x) w = Entity_delete x w /\
  returned (Entity_delete x w) = Some tt /\
  ((forall c, cache_of w (__class__ e) (get_key_name (__class__ e)) = Some c ->
      lru_contains k c = false) ->
   (forall st, _store (__class__ e) = Some st ->
      store_contents w st !! k = None) ->
   Entity_delete x w = Ret tt w).
Proof.
  intros Hx Hk.
  destruct (delete_run_cache w x e k Hx Hk)
    as (w' & Hrun & Hheap & _ & _ & Hstore & Hcache).
  split; [|split].
  - erewrite bind_Ret by apply Hrun. rewrite Hrun.
    apply (delete_nothing w' x e k); [by rewrite Hheap|done| |done].
    intros c. rewrite Hcache.
    destruct (cache_of w (__class__ e) (get_key_name (__class__ e))) as [c0|];
      [|done].
    cbn. intros [= <-]. apply lru_contains_without.
  - by rewrite Hrun.
  - by apply delete_nothing.
Qed.


(* ===================================================================== *)
(** ** The theorems at work on the small process *)
(* ===================================================================== *)


Lemma consistent_by_check (cls : PyClass) :
  forallb (fun a =>
    forallb (fun b =>
      bool_decide (__name__ a = __name__ b ->
                   declared_fields a = declared_fields b))
      (lineage cls)) (lineage cls) = true ->
  consistent cls.
Proof.
  intros H a b Ha Hb. rewrite forallb_forall in H.
  specialize (H a ltac:(by apply list_elem_of_In)).
  rewrite forallb_forall in H.
  specialize (H b ltac:(by apply list_elem_of_In)).
  by apply bool_decide_eq_true in H.
Qed.

Lemma composed_schema_fields_witness :
  field_names (composed_blob demo_GemSword) = lineage_fields demo_GemSword /\
  size (lineage_fields demo_GemSword) = 6%nat /\
  __name__ <$> merge_order demo_GemSword []
    = ["Entity"; "Item"; "Sword"; "Gem"; "GemSword"].
Proof.
  destruct (composed_schema_fields demo_GemSword) as (H1 & _).
  - vm_compute. reflexivity.
  - apply consistent_by_check. vm_compute. reflexivity.
  - split; [exact H1|]. split; vm_compute; reflexivity.
Defined.




(** C3 as stated fails: an item is saved, then deleted; asked through its
    class whether its key exists, the answer is still [True]. *)
Lemma delete_then_exists_counterexample :
  returned (demo_delete_exists demo_world) = Some true.
Proof. vm_compute. reflexivity. Qed.

Lemma delete_then_exists_witness :
  exists w',
    Entity_delete 0 demo_world_item = Ret tt w' /\
    store_contents w' 0 !! VStr "sword" = None /\
    Entity_exists Item (VStr "sword") w' = Ret true w'.
Proof.
  destruct (delete_then_exists demo_world_item 0 demo_sword (VStr "sword"))
    as (w' & Hrun & _ & _ & Hst & _ & Htrue & _).
  - vm_compute. reflexivity.
  - vm_compute. reflexivity.
  - intros r e' Hin.
    assert (instances_values demo_world_item Item = [(0%nat, demo_sword)]) as Hv
      by (vm_compute; reflexivity).
    change (__class__ demo_sword) with Item in Hin. rewrite Hv in Hin.
    apply list_elem_of_singleton in Hin. injection Hin as _ ->.
    exists (VStr "sword"). vm_compute. reflexivity.
  - exists w'. split; [exact Hrun|]. split; [by apply Hst|].
    apply Htrue.
    assert (instances_entries demo_world_item Item = [(VStr "I-cw4", 0%nat)]) as Hv
      by (vm_compute; reflexivity).
    change (__class__ demo_sword) with Item. rewrite Hv. left.
Defined.

(** C4 as stated fails: on the class without store, [save] returns and
    raises nothing. *)
Lemma save_without_store_counterexample :
  _store Plain = None /\
  returned (demo_save_plain demo_world) = Some tt /\
  raised (demo_save_plain demo_world) = None.
Proof. split; [reflexivity|]. split; vm_compute; reflexivity. Qed.

Lemma save_without_store_witness :
  heap demo_world_plain !! 0%nat = Some demo_plain /\
  Entity_save 0 demo_world_plain =
    Ret tt (set_log [LogWarn "Tried to save non-savable entity" 0]
                    demo_world_plain).
Proof.
  assert (heap demo_world_plain !! 0%nat = Some demo_plain) as Hx
    by (vm_compute; reflexivity).
  split; [exact Hx|].
  exact (save_without_store demo_world_plain 0 demo_plain Hx eq_refl).
Defined.



Lemma revert_cases_witness :
  Entity_revert 0 demo_world_item =
    Ret tt (put_entity 0
              (set_dirty false (deserialized demo_sword demo_sword_record [] ∅))
              demo_world_item).
Proof.
  assert (heap demo_world_item !! 0%nat = Some demo_sword) as Hx
    by (vm_compute; reflexivity).
  destruct (revert_cases demo_world_item 0 demo_sword Hx) as [_ H].
  destruct (H 0%nat (VStr "sword") demo_sword_record (VStr "I-cw4"))
    as (_ & _ & Hsame).
  - reflexivity.
  - vm_compute. reflexivity.
  - vm_compute. reflexivity.
  - vm_compute. reflexivity.
  - apply (Hsame eq_refl); vm_compute; reflexivity.
Defined.

Lemma eviction_saves_then_drops_witness :
  exists w',
    lru_setitem Plain "uid" (VStr "E-new") 1 demo_world_plain = Ret tt w' /\
    log w' = [LogWarn "Tried to save non-savable entity" 0] /\
    cache_of w' Plain "uid" =
      Some {| lru_size := 2;
              lru_items := [(VStr "E-new", 1%nat); (VStr "E-cw5", 1%nat)] |}.
Proof.
  destruct (eviction_saves_then_drops
              Plain "uid" (VStr "E-new") 1 demo_world_plain
              {| lru_size := 2;
                 lru_items := [(VStr "E-cw5", 1%nat); (VStr "E-cw4", 0%nat)] |}
              (VStr "E-cw4") 0)
    as (_ & _ & H).
  - vm_compute. reflexivity.
  - vm_compute. reflexivity.
  - cbn. lia.
  - reflexivity.
  - destruct (H demo_plain) as (w' & Hrun & Hlog & _ & _ & Hcache & _).
    + vm_compute. reflexivity.
    + reflexivity.
    + exists w'. split; [exact Hrun|]. split; [exact Hlog|exact Hcache].
Defined.


(** C10 as stated fails: on the class without store, [find] with
    [store=True] and [n=1] returns the live entity that the scan of the
    registry found, and raises nothing. *)
Lemma find_without_store_counterexample :
  _store Plain = None /\
  returned (demo_find_plain demo_world) = Some (FoundOne (Some 0%nat)) /\
  raised (demo_find_plain demo_world) = None.
Proof. split; [reflexivity|]. split; vm_compute; reflexivity. Qed.

Lemma find_without_store_witness :
  Entity_find Plain [] true true match_all 0 demo_world_plain =
    Exc (AttributeError "'NoneType' object has no attribute 'keys'")
        demo_world_plain.
Proof.
  destruct (find_without_store Plain [] true match_all 0 demo_world_plain []
              [0%nat; 1%nat] [VStr "E-cw5"; VStr "E-cw4"]) as [H _].
  - reflexivity.
  - reflexivity.
  - vm_compute. reflexivity.
  - apply H. left. reflexivity.
Defined.

(* ===================================================================== *)
(** ** The further theorems at work on the small process *)
(* ===================================================================== *)


Lemma save_writes_serialisation_witness :
  exists w',
    Entity_save 0 demo_world_item = Ret tt w' /\
    store_contents w' 0 !! VStr "sword" = Some (Entity_serialize (saved demo_sword)).
Proof.
  destruct (save_writes_serialisation demo_world_item 0 demo_sword 0
              (VStr "sword")) as (w' & Hrun & _ & Hst & _).
  - vm_compute. reflexivity.
  - reflexivity.
  - reflexivity.
  - done.
  - vm_compute. reflexivity.
  - exists w'. split; [exact Hrun|exact Hst].
Defined.



Lemma load_miss_witness :
  Entity_load Item (VStr "shield") true (DefaultRaise (fun _ => KeyError "shield"))
              demo_world_item
  = Exc (KeyError "shield") demo_world_item /\
  Entity_load Item (VStr "shield") true (DefaultValue VNone) demo_world_item
  = Ret (NotLoaded VNone) demo_world_item.
Proof.
  destruct (load_miss demo_world_item Item (VStr "shield") true) as [H1 H2].
  - intros _. split; [reflexivity|]. split; [|split].
    + intros c Hc. vm_compute in Hc. injection Hc as <-. vm_compute. reflexivity.
    + intros Hkn. discriminate Hkn.
    + intros _ r e Hin.
      assert (instances_values demo_world_item Item = [(0%nat, demo_sword)]) as Hv
        by (vm_compute; reflexivity).
      rewrite Hv in Hin. apply list_elem_of_singleton in Hin. injection Hin as _ ->.
      exists (VStr "sword"). split; [vm_compute; reflexivity|done].
  - intros st Hst. injection Hst as <-. left. vm_compute. reflexivity.
  - split; [apply H1|apply H2].
Defined.

Lemma load_returns_registered_witness :
  exists w',
    Entity_load Plain (VStr "E-cw4") true (DefaultValue VNone) demo_world_plain
    = Ret (Loaded 0) w' /\
    heap w' = heap demo_world_plain.
Proof.
  destruct (load_returns_registered demo_world_plain Plain (VStr "E-cw4") 0
              (DefaultValue VNone)) as (w' & Hrun & Hheap & _).
  - reflexivity.
  - reflexivity.
  - vm_compute. reflexivity.
  - unfold no_eviction.
    assert (cache_of demo_world_plain Plain (get_key_name Plain)
            = Some {| lru_size := 2;
                      lru_items := [(VStr "E-cw5", 1%nat); (VStr "E-cw4", 0%nat)] |})
      as -> by (vm_compute; reflexivity).
    left. vm_compute. reflexivity.
  - exists w'. split; [exact Hrun|exact Hheap].
Defined.

Lemma register_then_lookup_witness :
  exists self',
    EntityManager_register EntityManager__init__ (inr Item) = inr (Item, self') /\
    EntityManager__getitem__ self' (VStr "Item") = inr Item /\
    EntityManager_register self' (inr Item)
    = inl (AlreadyExists "Item" (Some Item) (Some Item)).
Proof.
  destruct (register_then_lookup EntityManager__init__ Item)
    as (self' & Hreg & _ & Hget & _ & Hagain).
  - vm_compute. reflexivity.
  - reflexivity.
  - exists self'. split; [exact Hreg|]. split; [exact Hget|].
    apply Hagain; [vm_compute|]; reflexivity.
Defined.

Lemma demo_stored_live : heap demo_world_stored !! 0%nat = Some demo_stored.
Proof. vm_compute. reflexivity. Qed.

Lemma clone_of_uid_keyed_raises_witness :
  exists w' y,
    Entity_clone 0 (KeyValue (VStr "copy")) demo_world_stored
    = Exc (AttributeError "can't set attribute") w' /\
    (VStr "S-cw5", y) ∈ instances_entries w' Stored.
Proof.
  destruct (clone_of_uid_keyed_raises demo_world_stored 0 demo_stored 1%nat
              (KeyValue (VStr "copy")))
    as (w' & y & ey & Hrun & _ & _ & _ & Hu & Hreg & _).
  - apply demo_stored_live.
  - reflexivity.
  - reflexivity.
  - vm_compute. reflexivity.
  - unfold no_eviction.
    assert (cache_of demo_world_stored (__class__ demo_stored)
                     (get_key_name (__class__ demo_stored))
            = Some {| lru_size := 2; lru_items := [(VStr "S-cw4", 0%nat)] |})
      as -> by (vm_compute; reflexivity).
    right. cbn. lia.
  - exists w', y. split; [exact Hrun|].
    rewrite Hu in Hreg. exact Hreg.
Defined.


Lemma demo_world_no_cached (cls : EntityClass) :
  cls = Item \/ cls = Plain -> cache_refs_live demo_world cls.
Proof.
  intros Hcls c k0 r0 Hc Hin.
  assert (lru_items c = []) as Hempty.
  { destruct Hcls as [-> | ->]; vm_compute in Hc; by injection Hc as <-. }
  rewrite Hempty in Hin. by apply elem_of_nil in Hin.
Qed.

Lemma constructor_registers_under_uid_witness :
  exists y w' ey,
    Entity__init__ Item None (VAtom py_False) true demo_world = Ret y w' /\
    heap w' !! y = Some ey /\
    _uid ey = VStr "I-cw4".
Proof.
  destruct (constructor_registers_under_uid Item (VAtom py_False) true demo_world)
    as [_ H].
  - apply demo_world_no_cached. by left.
  - destruct (H (VStr "thing")) as (y & w' & ey & Hrun & Hy & Hu & _).
    + vm_compute. reflexivity.
    + unfold no_eviction.
      assert (cache_of demo_world Item (get_key_name Item)
              = Some {| lru_size := 2; lru_items := [] |})
        as -> by (vm_compute; reflexivity).
      right. cbn. lia.
    + exists y, w', ey. split; [exact Hrun|]. split; [exact Hy|].
      rewrite Hu. vm_compute. reflexivity.
Defined.

Lemma constructor_fails_before_registering_witness :
  exists w',
    Entity__init__ Item (Some demo_bad_record) (VAtom py_False) true demo_world
    = Exc (TypeError "argument after * must be an iterable") w' /\
    _instances w' = _instances demo_world /\
    __uid_timecode w' = __uid_timecode demo_world.
Proof.
  destruct (constructor_fails_before_registering Item demo_bad_record
              (VAtom py_False) true demo_world (AInt 5))
    as (w' & Hrun & _ & Hinst & _ & Htc & _).
  - vm_compute. reflexivity.
  - done.
  - exists w'. split; [exact Hrun|]. split; [exact Hinst|exact Htc].
Defined.

Lemma load_of_unknown_type_raises_witness :
  Entity_load Item (VStr "ghost") false (DefaultValue VNone) demo_world_ghost
  = Exc (KeyError "failed to reconstruct entity: bad class key") demo_world_ghost.
Proof.
  destruct (load_of_unknown_type_raises demo_world_ghost Item (VStr "ghost")
              0%nat demo_ghost_record (DefaultValue VNone))
    as (w' & Hrun & _ & _ & _ & _ & _ & Hsame).
  - reflexivity.
  - vm_compute. reflexivity.
  - intros Hempty.
    assert (demo_ghost_record !! "type" = None) as Hnone
      by (rewrite Hempty; apply lookup_empty).
    vm_compute in Hnone. discriminate Hnone.
  - vm_compute. reflexivity.
  - rewrite Hrun. f_equal. apply Hsame. vm_compute. by eexists.
Defined.

Lemma load_after_delete_witness :
  exists w',
    Entity_delete 0 demo_world_item = Ret tt w' /\
    Entity_load Item (VStr "sword") false (DefaultValue VNone) w'
    = Ret (NotLoaded VNone) w'.
Proof.
  destruct (load_after_delete demo_world_item 0 demo_sword (VStr "sword"))
    as (w' & Hrun & _ & Hmiss & _).
  - vm_compute. reflexivity.
  - vm_compute. reflexivity.
  - exists w'. split; [exact Hrun|apply Hmiss].
Defined.

Lemma demo_two_items_sweepable : sweepable demo_world_two_items.
Proof.
  assert (heap demo_world_two_items
          = <[0%nat := demo_glowing_sword]> {[1%nat := demo_thing]}) as Hh
    by (vm_compute; reflexivity).
  intros r e He Hs Hd. rewrite Hh in He.
  apply lookup_insert_Some in He as [[<- <-]|[_ He]].
  - split; [done|]. exists (VStr "sword"). vm_compute. reflexivity.
  - apply lookup_singleton_Some in He as [<- <-]. discriminate Hd.
Qed.

Lemma manager_save_leaves_nothing_dirty_witness :
  exists w',
    EntityManager_save demo_manager demo_world_two_items = Ret tt w' /\
    heap w' !! 1%nat = Some demo_thing /\
    forall r e', (r, e') ∈ instances_values w' Item ->
                 is_savable e' && is_dirty e' = false.
Proof.
  destruct (manager_save_leaves_nothing_dirty demo_manager demo_world_two_items)
    as (w' & Hrun & Hclean & Hsame & _).
  - apply demo_two_items_sweepable.
  - exists w'. split; [exact Hrun|]. split.
    + apply Hsame; vm_compute; reflexivity.
    + intros r e' Hin. apply (Hclean "Item" Item r e'); [left|exact Hin].
Defined.

Lemma new_entity_holds_defaults_witness :
  exists y w' ey,
    Entity__init__ Item None (VAtom py_False) true demo_world = Ret y w' /\
    heap w' !! y = Some ey /\
    getattr ey "name" = inr (VStr "thing") /\
    getattr ey "version" = inr (VInt 1).
Proof.
  destruct (new_entity_holds_defaults Item (VAtom py_False) true demo_world
              (VStr "thing"))
    as (y & w' & ey & Hrun & Hy & _ & _ & Hget & _).
  - vm_compute. reflexivity.
  - unfold no_eviction.
    assert (cache_of demo_world Item (get_key_name Item)
            = Some {| lru_size := 2; lru_items := [] |})
      as -> by (vm_compute; reflexivity).
    right. cbn. lia.
  - exists y, w', ey. split; [exact Hrun|]. split; [exact Hy|]. split.
    + apply (Hget "name" demo_NameAttr); [vm_compute; reflexivity|done..].
    + apply (Hget "version" EntityVersion); [vm_compute; reflexivity|done..].
Defined.

Lemma version_accepts_integers_only_witness :
  (exists e',
     setattr_nokey demo_sword "version" (VAtom (AInt 2)) = inr e' /\
     getattr e' "version" = inr (VAtom (AInt 2))) /\
  setattr_nokey demo_sword "version" (VAtom (AStr "two"))
  = inl (TypeError "entity version must be a number").
Proof.
  assert (_attrs (_base_blob demo_sword) !! "version" = Some EntityVersion) as H
    by (vm_compute; reflexivity).
  split.
  - destruct (version_accepts_integers_only demo_sword (VAtom (AInt 2)) H)
      as (e' & Hset & Hget & _).
    exists e'. split; [exact Hset|exact Hget].
  - exact (version_accepts_integers_only demo_sword (VAtom (AStr "two")) H).
Defined.

Lemma constructed_entity_is_found_witness :
  exists y w' ey,
    Entity__init__ Plain None (VAtom py_False) true demo_world = Ret y w' /\
    heap w' !! y = Some ey /\
    Entity_exists Plain (_uid ey) w' = Ret true w'.
Proof.
  assert (returned (Entity__init__ Plain None (VAtom py_False) true demo_world)
          = Some 0%nat) as Hret by (vm_compute; reflexivity).
  destruct (Entity__init__ Plain None (VAtom py_False) true demo_world)
    as [y w'|err w'] eqn:Hrun; [|discriminate Hret].
  destruct (constructed_entity_is_found Plain None (VAtom py_False) true
              demo_world w' y) as (ey & Hy & Hex & _).
  - reflexivity.
  - apply demo_world_no_cached. by right.
  - exact Hrun.
  - exists y, w', ey. split; [reflexivity|]. split; [exact Hy|exact Hex].
Defined.

Lemma save_is_idempotent_witness :
  (Entity_save 0;; Entity_save 0) demo_world_item = Entity_save 0 demo_world_item /\
  returned (Entity_save 0 demo_world_item) = Some tt.
Proof.
  apply (save_is_idempotent demo_world_item 0 demo_sword 0 (VStr "sword")).
  - vm_compute. reflexivity.
  - reflexivity.
  - reflexivity.
  - done.
  - vm_compute. reflexivity.
Defined.

Lemma delete_is_idempotent_witness :
  (Entity_delete 0;; Entity_delete 0) demo_world_item
  = Entity_delete 0 demo_world_item /\
  returned (Entity_delete 0 demo_world_item) = Some tt.
Proof.
  destruct (delete_is_idempotent demo_world_item 0 demo_sword (VStr "sword"))
    as (H1 & H2 & _).
  - vm_compute. reflexivity.
  - vm_compute. reflexivity.
  - split; [exact H1|exact H2].
Defined.

